(** * The receptionist framework: orchestration core, module registry and
      performance monitor

    A shallow embedding of [performance_monitor.py], [module_manager.py],
    [core_engine.py], [api_gateway.py] and [llm_manager.py], and the properties of the pipeline, the registry and the
    feedback report that are established on it.

    Conventions of the embedding.
    - Python objects that the framework only calls (stages, domain modules)
      are records of methods.  A method is a function of the state of
      everything outside the framework (the type [World]) and returns an
      outcome with the new outside state.
    - An outcome is a value or a raised exception.  An exception records
      whether it is an instance of [Exception], the class the [except]
      clauses of the framework name; interpreter-exit signals such as
      [KeyboardInterrupt] are the exceptions that are not.
    - Python's [float] is a type [F] with the operations the monitor uses
      (class [PyArith]); [binary64] instantiates it with IEEE 754 doubles.
    - A dict whose items are visited in order (the modules of the
      registry, the dicts of the reports) is the list of its items in
      insertion order; a dict that is only looked up (the tables of the
      gateway, the generators) is a finite map.
    - Logging calls are left out: they neither read nor write the state the
      properties are about. *)

From Stdlib Require Import ZArith Floats Uint63 Ascii.
From stdpp Require Import base option list strings gmap fin_maps.

Set Warnings "-register-all".

Local Open Scope Z_scope.

(** ** Exceptions and outcomes *)

Record PyExc := mkExc {
  exc_is_Exception : bool;   (* isinstance(e, Exception) *)
  exc_type : string
}.

Definition ZeroDivisionError : PyExc := mkExc true "ZeroDivisionError".
Definition ValueError : PyExc := mkExc true "ValueError".
Definition KeyError : PyExc := mkExc true "KeyError".
Definition TypeError : PyExc := mkExc true "TypeError".

Inductive result (A : Type) : Type :=
| Ok (a : A)
| Raise (e : PyExc).
Arguments Ok {A} a.
Arguments Raise {A} e.

#[global] Instance result_ret : MRet result := fun A a => Ok a.
#[global] Instance result_bind : MBind result := fun A B f r =>
  match r with
  | Ok a => f a
  | Raise e => Raise e
  end.

(** ** Python floats *)

Class PyArith (F : Type) := {
  float_of_int : Z -> F;            (* the float an int converts to *)
  int_truediv : Z -> Z -> F;        (* a / b on ints, for b <> 0 *)
  float_div : F -> F -> F;          (* x / y on floats, for y <> 0 *)
  float_sum : list F -> F;          (* sum(values), for a non-empty list *)
  float_ltb : F -> F -> bool;       (* x < y *)
  lit_0_1 : F;                      (* the literal 0.1 *)
  lit_0_7 : F;                      (* the literal 0.7 *)
  lit_0_8 : F                       (* the literal 0.8 *)
}.

(** The clock: [datetime.now()] values, their difference in seconds and their
    ISO rendering. *)
Class PyClock (F T : Type) := {
  total_seconds : T -> T -> F;      (* (later - earlier).total_seconds() *)
  isoformat : T -> string
}.

Module Binary64.
(** IEEE 754 doubles, the floats of CPython.  Counters are converted through
    63-bit integers, which is exact below 2^53. *)
Definition of_int (z : Z) : float := PrimFloat.of_uint63 (Uint63.of_Z z).
Definition truediv (a b : Z) : float := PrimFloat.div (of_int a) (of_int b).
Definition sum (values : list float) : float :=
  fold_left PrimFloat.add values (of_int 0).
Definition tenth : float := PrimFloat.div (of_int 1) (of_int 10).
Definition seven_tenths : float := PrimFloat.div (of_int 7) (of_int 10).
Definition eight_tenths : float := PrimFloat.div (of_int 8) (of_int 10).
End Binary64.

#[global] Instance binary64 : PyArith float := {|
  float_of_int := Binary64.of_int;
  int_truediv := Binary64.truediv;
  float_div := PrimFloat.div;
  float_sum := Binary64.sum;
  float_ltb := PrimFloat.ltb;
  lit_0_1 := Binary64.tenth;
  lit_0_7 := Binary64.seven_tenths;
  lit_0_8 := Binary64.eight_tenths
|}.

(** A clock that counts whole seconds. *)
#[global] Instance seconds_clock : PyClock float Z := {|
  total_seconds := fun later earlier => Binary64.of_int (later - earlier);
  isoformat := fun _ => "1970-01-01T00:00:00"
|}.

(** ** Python values of the reports *)

Section Values.
Context {F : Type}.

Inductive PyVal : Type :=
| VNone
| VInt (z : Z)
| VFloat (x : F)
| VStr (s : string)
| VList (l : list PyVal)
| VDict (d : list (string * PyVal)).

(** Dict literals and dicts filled by assignment keep insertion order. *)
Fixpoint dict_lookup {V : Type} (key : string) (d : list (string * V)) : option V :=
  match d with
  | [] => None
  | (k, v) :: rest => if String.eqb k key then Some v else dict_lookup key rest
  end.

(** [d[key] = v]: the value is replaced where the key is, and a new key
    goes last. *)
Fixpoint dict_set {V : Type} (key : string) (v : V) (d : list (string * V))
    : list (string * V) :=
  match d with
  | [] => [(key, v)]
  | (k, x) :: rest =>
      if String.eqb k key then (k, v) :: rest else (k, x) :: dict_set key v rest
  end.

(** [d.get(key, default)] *)
Definition dict_get (d : list (string * PyVal)) (key : string) (default : PyVal) : PyVal :=
  match dict_lookup key d with
  | Some v => v
  | None => default
  end.

(** [key in v], for a dict [v] *)
Definition py_contains (v : PyVal) (key : string) : result bool :=
  match v with
  | VDict d => Ok (bool_decide (is_Some (dict_lookup key d)))
  | _ => Raise TypeError
  end.

(** [v[key]], for a dict [v] *)
Definition py_getitem (v : PyVal) (key : string) : result PyVal :=
  match v with
  | VDict d =>
      match dict_lookup key d with
      | Some x => Ok x
      | None => Raise KeyError
      end
  | _ => Raise TypeError
  end.
End Values.

(** A dict with string keys whose order is observed: its items in insertion
    order, under the notations of maps. *)
Definition pydict (V : Type) : Type := list (string * V).

#[global] Instance pydict_lookup {V : Type} : Lookup string V (pydict V) := dict_lookup.
#[global] Instance pydict_insert {V : Type} : Insert string V (pydict V) := dict_set.
#[global] Instance pydict_empty {V : Type} : Empty (pydict V) := [].
#[global] Instance pydict_singleton {V : Type} : SingletonM string V (pydict V) :=
  fun key v => [(key, v)].
Arguments PyVal F : clear implicits.

Section Numbers.
Context {F : Type} `{PyArith F}.

(** [a / b] on ints *)
Definition py_int_truediv (a b : Z) : result F :=
  if (b =? 0)%Z then Raise ZeroDivisionError else Ok (int_truediv a b).

(** [x / n] for a float [x] and an int [n] *)
Definition py_float_div_int (x : F) (n : Z) : result F :=
  if (n =? 0)%Z then Raise ZeroDivisionError else Ok (float_div x (float_of_int n)).

(** [min(values)]: the first item no later item is below. *)
Definition py_min (values : list F) : result F :=
  match values with
  | [] => Raise ValueError
  | v :: rest =>
      Ok (fold_left (fun best item => if float_ltb item best then item else best) rest v)
  end.

(** [max(values)]: the first item no later item is above. *)
Definition py_max (values : list F) : result F :=
  match values with
  | [] => Raise ValueError
  | v :: rest =>
      Ok (fold_left (fun best item => if float_ltb best item then item else best) rest v)
  end.

(** [sum(values)]: the int 0 for no values, a float otherwise. *)
Definition py_sum (values : list F) : PyVal F :=
  match values with
  | [] => VInt 0
  | _ => VFloat (float_sum values)
  end.

(** [v > x] and [v < x] for a report value [v] and a float [x].  An int is
    compared by its value. *)
Definition py_gt (v : PyVal F) (x : F) : result bool :=
  match v with
  | VInt z => Ok (float_ltb x (float_of_int z))
  | VFloat y => Ok (float_ltb x y)
  | _ => Raise TypeError
  end.

Definition py_lt (v : PyVal F) (x : F) : result bool :=
  match v with
  | VInt z => Ok (float_ltb (float_of_int z) x)
  | VFloat y => Ok (float_ltb y x)
  | _ => Raise TypeError
  end.

(** [v / n] for a report value [v] and an int [n] *)
Definition py_truediv (v : PyVal F) (n : Z) : result (PyVal F) :=
  match v with
  | VInt z => x ← py_int_truediv z n; mret (VFloat x)
  | VFloat y => x ← py_float_div_int y n; mret (VFloat x)
  | _ => Raise TypeError
  end.
End Numbers.

(** ** Data model *)

Section DataModel.
Context {F : Type}.

(** Modelled from the spec: [AudioFrame] of [data_models.py], which is not
    among the sources; a raw audio payload and a sample rate in Hz. *)
Record AudioFrame := mkAudioFrame {
  data : list Byte.byte;
  sample_rate : Z
}.

(** Modelled from the spec: [TranscribedText] of [data_models.py], which is
    not among the sources; a text and a confidence. *)
Record TranscribedText := mkTranscribedText {
  text : string;
  stt_confidence : F
}.

(** Modelled from the spec: [IntentResult] of [data_models.py], which is not
    among the sources; the raw text, the intent label, a confidence and the
    entities as an ordered sequence of name and value pairs. *)
Record IntentResult := mkIntentResult {
  raw_text : string;
  intent : string;
  intent_confidence : F;
  entities : list (string * string)
}.

(** Modelled from the spec: [DialogueResponse] of [data_models.py], which is
    not among the sources; a text, an optional action, the name of the
    producing component and an optional metadata mapping.  An instance is a
    plain record, hence true in a condition. *)
Record DialogueResponse := mkDialogueResponse {
  response_text : string;
  action : option string;
  module : string;
  metadata : option (list (string * string))
}.

(** Modelled from the spec: the enumeration [SystemState] of
    [data_models.py], which is not among the sources. *)
Inductive SystemState := IDLE | LISTENING | PROCESSING | RESPONDING | ERROR.

(** Modelled from the spec: [PerformanceMetric] of [data_models.py], which is
    not among the sources; component, metric name and value, the timestamp
    being the position in the log. *)
Record PerformanceMetric := mkPerformanceMetric {
  component : string;
  metric_name : string;
  value : F
}.

(** [asdict(metric)] *)
Definition asdict (metric : PerformanceMetric) : PyVal F :=
  VDict [("component", VStr (component metric));
         ("metric_name", VStr (metric_name metric));
         ("value", VFloat (value metric))].

End DataModel.
Arguments TranscribedText F : clear implicits.
Arguments IntentResult F : clear implicits.
Arguments PerformanceMetric F : clear implicits.

(** ** performance_monitor.py *)

Section PerformanceMonitor.
Context {F T : Type} `{PyArith F} `{PyClock F T}.

Record PerformanceMonitor := mkPerformanceMonitor {
  metrics : list (PerformanceMetric F);
  session_start : T;
  interaction_count : Z;
  error_count : Z
}.

(** [PerformanceMonitor.__init__], at clock reading [now] *)
Definition PerformanceMonitor_init (now : T) : PerformanceMonitor :=
  {| metrics := []; session_start := now; interaction_count := 0; error_count := 0 |}.

Definition record_metric (self : PerformanceMonitor)
    (component metric_name : string) (value : F) : PerformanceMonitor :=
  let metric := mkPerformanceMetric component metric_name value in
  {| metrics := metrics self ++ [metric];
     session_start := session_start self;
     interaction_count := interaction_count self;
     error_count := error_count self |}.

Definition record_interaction (self : PerformanceMonitor) (success : bool) : PerformanceMonitor :=
  {| metrics := metrics self;
     session_start := session_start self;
     interaction_count := interaction_count self + 1;
     error_count := if negb success then error_count self + 1 else error_count self |}.

(** The key of the grouping loop: [f"{metric.component}.{metric.metric_name}"] *)
Definition metric_key (metric : PerformanceMetric F) : string :=
  component metric +:+ "." +:+ metric_name metric.

(** One turn of the grouping loop: a new key gets a list of its own at the
    end of the dict, and the value is appended to the list of its key. *)
Fixpoint summary_append (key : string) (v : F) (summary : list (string * list F))
    : list (string * list F) :=
  match summary with
  | [] => [(key, [v])]
  | (k, values) :: rest =>
      if String.eqb k key then (k, values ++ [v]) :: rest
      else (k, values) :: summary_append key v rest
  end.

Definition group_values (log : list (PerformanceMetric F)) : list (string * list F) :=
  fold_left (fun summary metric => summary_append (metric_key metric) (value metric) summary)
            log [].

(** The dict of statistics of one group *)
Definition value_statistics (values : list F) : result (PyVal F) :=
  let count := Z.of_nat (length values) in
  average ← py_truediv (py_sum values) count;
  lowest ← py_min values;
  highest ← py_max values;
  mret (VDict [("count", VInt count);
               ("average", average);
               ("min", VFloat lowest);
               ("max", VFloat highest);
               ("total", py_sum values)]).

Fixpoint compute_statistics (summary : list (string * list F))
    : result (list (string * PyVal F)) :=
  match summary with
  | [] => mret []
  | (key, values) :: rest =>
      entry ← value_statistics values;
      others ← compute_statistics rest;
      mret ((key, entry) :: others)
  end.

(** [self.metrics[-10:]] *)
Definition last_ten {A : Type} (l : list A) : list A :=
  drop (length l - 10)%nat l.

Definition get_metrics_summary (self : PerformanceMonitor) (now : T)
    : result (list (string * PyVal F)) :=
  match metrics self with
  | [] =>
      mret [("message", VStr "No metrics recorded");
            ("interaction_count", VInt (interaction_count self));
            ("error_count", VInt (error_count self));
            ("session_duration", VFloat (total_seconds now (session_start self)))]
  | _ =>
      let summary := group_values (metrics self) in
      statistics ← compute_statistics summary;
      let session_duration := total_seconds now (session_start self) in
      error_rate ←
        (if 0 <? interaction_count self
         then py_truediv (VInt (error_count self)) (interaction_count self)
         else mret (VInt 0));
      mret [("total_metrics", VInt (Z.of_nat (length (metrics self))));
            ("total_interactions", VInt (interaction_count self));
            ("total_errors", VInt (error_count self));
            ("error_rate", error_rate);
            ("session_duration_seconds", VFloat session_duration);
            ("statistics", VDict statistics);
            ("recent_metrics", VList (map asdict (last_ten (metrics self))))]
  end.

Definition high_error_rate_message : string :=
  "High error rate detected: Review module implementations".
Definition low_intent_confidence_message : string :=
  "Low intent recognition confidence: Consider retraining NLU model".
Definition low_stt_confidence_message : string :=
  "Low STT confidence: Optimize speech-to-text settings".
Definition good_performance_message : string :=
  "System performance is good. Continue monitoring.".

(** The guarded read of one average and its threshold test:
    [if key in summary.get("statistics", {}): ... if average < threshold: ...] *)
Definition low_average (summary : list (string * PyVal F)) (key : string) (threshold : F)
    : result bool :=
  present ← py_contains (dict_get summary "statistics" (VDict [])) key;
  if (present : bool) then
    statistics ← py_getitem (VDict summary) "statistics";
    entry ← py_getitem statistics key;
    average ← py_getitem entry "average";
    py_lt average threshold
  else mret false.

(** The recommendations of [get_feedback_report], from the summary *)
Definition recommendations_of (summary : list (string * PyVal F)) : result (list string) :=
  let recommendations := [] in
  high ← py_gt (dict_get summary "error_rate" (VInt 0)) lit_0_1;
  let recommendations :=
    if (high : bool) then recommendations ++ [high_error_rate_message] else recommendations in
  low ← low_average summary "intent_recognizer.confidence" lit_0_7;
  let recommendations :=
    if (low : bool) then recommendations ++ [low_intent_confidence_message] else recommendations in
  low ← low_average summary "stt.confidence" lit_0_8;
  let recommendations :=
    if (low : bool) then recommendations ++ [low_stt_confidence_message] else recommendations in
  mret (match recommendations with
        | [] => [good_performance_message]
        | _ => recommendations
        end).

(** [get_feedback_report], the clock being read at [now] for the summary and
    at [later] for the report's timestamp *)
Definition get_feedback_report (self : PerformanceMonitor) (now later : T)
    : result (list (string * PyVal F)) :=
  summary ← get_metrics_summary self now;
  recommendations ← recommendations_of summary;
  mret [("timestamp", VStr (isoformat later));
        ("session_duration", dict_get summary "session_duration_seconds" VNone);
        ("total_interactions", dict_get summary "total_interactions" VNone);
        ("error_rate", dict_get summary "error_rate" VNone);
        ("performance_data", VDict summary);
        ("recommendations", VList (map VStr recommendations))].

Definition reset_session (self : PerformanceMonitor) (now : T) : PerformanceMonitor :=
  {| metrics := []; session_start := now; interaction_count := 0; error_count := 0 |}.

Definition get_metric_history (self : PerformanceMonitor) (component_name name : string)
    : list F :=
  map value
      (filter (fun m => String.eqb (component m) component_name
                        && String.eqb (metric_name m) name = true)
              (metrics self)).

End PerformanceMonitor.
Arguments PerformanceMonitor F T : clear implicits.

(** ** Effects: state, the outside world, a trace, exceptions *)

(** The roles an object is plugged in for; a domain module goes by the name
    it is called under. *)
Inductive Role :=
| Activation
| Transcription
| IntentRecognition
| ResponseGeneration
| Domain (domain_name : string).

(** Methods of plugged-in objects, as the framework calls them *)
Inductive Call :=
| Initialize (role : Role)
| Cleanup (role : Role)
| Detect
| Transcribe
| Recognize
| Generate
| SupportsIntent
| Handle.

(** What an observer of one run sees: the calls into plugged-in objects and
    the assignments to [self.state]. *)
Inductive Event :=
| Called (c : Call)
| Assigned (s : SystemState).

Section Effects.
Context {World : Type}.

(** A method of a plugged-in object *)
Definition Method (A : Type) : Type := World -> result A * World.

Record Machine (S : Type) := mkMachine {
  self : S;
  world : World;
  events : list Event
}.
Arguments mkMachine {S}.
Arguments self {S}.
Arguments world {S}.
Arguments events {S}.

(** A method of the framework on an object of type [S].  Mutations made
    before an exception is raised stay. *)
Definition Eff (S A : Type) : Type := Machine S -> result A * Machine S.

#[global] Instance Eff_ret {S} : MRet (Eff S) := fun A a m => (Ok a, m).
#[global] Instance Eff_bind {S} : MBind (Eff S) := fun A B f c m =>
  match c m with
  | (Ok a, m') => f a m'
  | (Raise e, m') => (Raise e, m')
  end.

Definition get {S} : Eff S S := fun m => (Ok (self m), m).

Definition put {S} (s : S) : Eff S unit :=
  fun m => (Ok tt, mkMachine s (world m) (events m)).

Definition observe {S} (e : Event) : Eff S unit :=
  fun m => (Ok tt, mkMachine (self m) (world m) (events m ++ [e])).

(** A call into a plugged-in object *)
Definition invoke {S A} (c : Call) (method : Method A) : Eff S A :=
  fun m =>
    let '(r, w) := method (world m) in
    (r, mkMachine (self m) w (events m ++ [Called c])).

(** [try: body  except Exception as e: handler e] *)
Definition try_except {S A} (body : Eff S A) (handler : PyExc -> Eff S A) : Eff S A :=
  fun m =>
    match body m with
    | (Ok a, m') => (Ok a, m')
    | (Raise e, m') => if exc_is_Exception e then handler e m' else (Raise e, m')
    end.

(** [try: body  finally: final] *)
Definition try_finally {S A} (body : Eff S A) (final : Eff S unit) : Eff S A :=
  fun m =>
    let '(r, m') := body m in
    match final m' with
    | (Ok _, m'') => (r, m'')
    | (Raise e, m'') => (Raise e, m'')
    end.

(** A method of a component the object [S] owns *)
Definition within {S S' A} (proj : S -> S') (update : S -> S' -> S) (c : Eff S' A) : Eff S A :=
  fun m =>
    let '(r, m') := c (mkMachine (proj (self m)) (world m) (events m)) in
    (r, mkMachine (update (self m) (self m')) (world m') (events m')).

End Effects.
Arguments mkMachine {World S} self world events.
Arguments self {World S} m.
Arguments world {World S} m.
Arguments events {World S} m.
Arguments Machine World S : clear implicits.
Arguments Method World A : clear implicits.
Arguments Eff World S A : clear implicits.

(** ** interfaces.py *)

Section Interfaces.
Context {F World : Type}.

Record ActivationEngine := mkActivationEngine {
  activation_initialize : Method World bool;
  detect : AudioFrame -> Method World bool;
  activation_cleanup : Method World unit
}.

Record SpeechToTextProcessor := mkSpeechToTextProcessor {
  stt_initialize : Method World bool;
  transcribe : list Byte.byte -> Z -> Method World (TranscribedText F);
  stt_cleanup : Method World unit
}.

Record IntentRecognizer := mkIntentRecognizer {
  recognizer_initialize : Method World bool;
  recognize : string -> Method World (IntentResult F);
  recognizer_cleanup : Method World unit
}.

Record ResponseGenerator := mkResponseGenerator {
  generator_initialize : Method World bool;
  generate : IntentResult F -> Method World DialogueResponse;
  generator_cleanup : Method World unit
}.

Record DomainModule := mkDomainModule {
  module_initialize : Method World bool;
  handle : IntentResult F -> Method World DialogueResponse;
  supports_intent : string -> Method World bool;
  get_domain_name : Method World string;
  get_supported_intents : Method World (list string);
  module_cleanup : Method World unit
}.

End Interfaces.
Arguments ActivationEngine World : clear implicits.
Arguments SpeechToTextProcessor F World : clear implicits.
Arguments IntentRecognizer F World : clear implicits.
Arguments ResponseGenerator F World : clear implicits.
Arguments DomainModule F World : clear implicits.

(** ** module_manager.py *)

Section ModuleManager.
Context {F World : Type}.

Record ModuleManager := mkModuleManager {
  modules : pydict (DomainModule F World);
  active_module : option string
}.

(** [ModuleManager.__init__] *)
Definition ModuleManager_init : ModuleManager :=
  {| modules := ∅; active_module := None |}.

Definition register_module (domain_name : string) (module : DomainModule F World)
    : Eff World ModuleManager bool :=
  try_except
    (initialized ← invoke (Initialize (Domain domain_name)) (module_initialize module);
     if (initialized : bool) then
       this ← get;
       _ ← put {| modules := <[domain_name := module]> (modules this);
                  active_module := active_module this |};
       mret true
     else mret false)
    (fun _ => mret false).

Definition switch_module (domain_name : string) : Eff World ModuleManager bool :=
  this ← get;
  match modules this !! domain_name with
  | None => mret false
  | Some _ =>
      _ ← put {| modules := modules this; active_module := Some domain_name |};
      mret true
  end.

(** A string in a condition: true unless empty. *)
Definition truthy (s : string) : bool := negb (String.eqb s "").

(** [if self.active_module and self.active_module in self.modules] *)
Definition get_active_module (this : ModuleManager) : option (DomainModule F World) :=
  match active_module this with
  | Some name => if truthy name then modules this !! name else None
  | None => None
  end.

Definition get_active_module_name (this : ModuleManager) : option string :=
  active_module this.

Definition process_with_module (intent_result : IntentResult F)
    : Eff World ModuleManager (option DialogueResponse) :=
  this ← get;
  match get_active_module this with
  | Some module =>
      supported ← invoke SupportsIntent (supports_intent module (intent intent_result));
      if (supported : bool) then
        response ← invoke Handle (handle module intent_result);
        mret (Some response)
      else mret None
  | None => mret None
  end.

Definition has_module (this : ModuleManager) (domain_name : string) : bool :=
  bool_decide (is_Some (modules this !! domain_name)).

(** The loop of [cleanup_all] over the registered modules *)
Fixpoint cleanup_modules (items : list (string * DomainModule F World))
    : Eff World ModuleManager unit :=
  match items with
  | [] => mret tt
  | (domain_name, module) :: rest =>
      _ ← try_except (invoke (Cleanup (Domain domain_name)) (module_cleanup module))
                     (fun _ => mret tt);
      cleanup_modules rest
  end.

(** [self.modules.items()] lists the modules in the order of their first
    registration. *)
Definition cleanup_all : Eff World ModuleManager unit :=
  this ← get;
  _ ← cleanup_modules (modules this);
  put {| modules := ∅; active_module := None |}.

End ModuleManager.
Arguments ModuleManager F World : clear implicits.

(** ** core_engine.py *)

Section ReceptionistCore.
Context {F T World : Type} `{PyArith F} `{PyClock F T}.

(** The API gateway the core also owns takes no part in configuration or in
    the pipeline and is left out. *)
Record ReceptionistCore := mkReceptionistCore {
  state : SystemState;
  activation_engine : option (ActivationEngine World);
  stt_processor : option (SpeechToTextProcessor F World);
  intent_recognizer : option (IntentRecognizer F World);
  response_generator : option (ResponseGenerator F World);
  module_manager : ModuleManager F World;
  performance_monitor : PerformanceMonitor F T;
  running : bool
}.

(** [ReceptionistCore.__init__], at clock reading [now] *)
Definition ReceptionistCore_init (now : T) : ReceptionistCore :=
  {| state := IDLE;
     activation_engine := None;
     stt_processor := None;
     intent_recognizer := None;
     response_generator := None;
     module_manager := ModuleManager_init;
     performance_monitor := PerformanceMonitor_init now;
     running := false |}.

Definition with_state (s : SystemState) (this : ReceptionistCore) : ReceptionistCore :=
  {| state := s;
     activation_engine := activation_engine this;
     stt_processor := stt_processor this;
     intent_recognizer := intent_recognizer this;
     response_generator := response_generator this;
     module_manager := module_manager this;
     performance_monitor := performance_monitor this;
     running := running this |}.

Definition with_activation_engine (engine : ActivationEngine World) (this : ReceptionistCore)
    : ReceptionistCore :=
  {| state := state this;
     activation_engine := Some engine;
     stt_processor := stt_processor this;
     intent_recognizer := intent_recognizer this;
     response_generator := response_generator this;
     module_manager := module_manager this;
     performance_monitor := performance_monitor this;
     running := running this |}.

Definition with_stt_processor (processor : SpeechToTextProcessor F World)
    (this : ReceptionistCore) : ReceptionistCore :=
  {| state := state this;
     activation_engine := activation_engine this;
     stt_processor := Some processor;
     intent_recognizer := intent_recognizer this;
     response_generator := response_generator this;
     module_manager := module_manager this;
     performance_monitor := performance_monitor this;
     running := running this |}.

Definition with_intent_recognizer (recognizer : IntentRecognizer F World)
    (this : ReceptionistCore) : ReceptionistCore :=
  {| state := state this;
     activation_engine := activation_engine this;
     stt_processor := stt_processor this;
     intent_recognizer := Some recognizer;
     response_generator := response_generator this;
     module_manager := module_manager this;
     performance_monitor := performance_monitor this;
     running := running this |}.

Definition with_response_generator (generator : ResponseGenerator F World)
    (this : ReceptionistCore) : ReceptionistCore :=
  {| state := state this;
     activation_engine := activation_engine this;
     stt_processor := stt_processor this;
     intent_recognizer := intent_recognizer this;
     response_generator := Some generator;
     module_manager := module_manager this;
     performance_monitor := performance_monitor this;
     running := running this |}.

Definition with_module_manager (this : ReceptionistCore) (manager : ModuleManager F World)
    : ReceptionistCore :=
  {| state := state this;
     activation_engine := activation_engine this;
     stt_processor := stt_processor this;
     intent_recognizer := intent_recognizer this;
     response_generator := response_generator this;
     module_manager := manager;
     performance_monitor := performance_monitor this;
     running := running this |}.

Definition with_performance_monitor (monitor : PerformanceMonitor F T) (this : ReceptionistCore)
    : ReceptionistCore :=
  {| state := state this;
     activation_engine := activation_engine this;
     stt_processor := stt_processor this;
     intent_recognizer := intent_recognizer this;
     response_generator := response_generator this;
     module_manager := module_manager this;
     performance_monitor := monitor;
     running := running this |}.

Definition with_running (flag : bool) (this : ReceptionistCore) : ReceptionistCore :=
  {| state := state this;
     activation_engine := activation_engine this;
     stt_processor := stt_processor this;
     intent_recognizer := intent_recognizer this;
     response_generator := response_generator this;
     module_manager := module_manager this;
     performance_monitor := performance_monitor this;
     running := flag |}.

(** [self.state = s] *)
Definition set_state (s : SystemState) : Eff World ReceptionistCore unit :=
  this ← get;
  _ ← put (with_state s this);
  observe (Assigned s).

(** [self.performance_monitor.record_interaction(success=...)] *)
Definition monitor_record_interaction (success : bool) : Eff World ReceptionistCore unit :=
  this ← get;
  put (with_performance_monitor (record_interaction (performance_monitor this) success) this).

(** [self.performance_monitor.record_metric(...)] *)
Definition monitor_record_metric (component metric_name : string) (value : F)
    : Eff World ReceptionistCore unit :=
  this ← get;
  put (with_performance_monitor
         (record_metric (performance_monitor this) component metric_name value) this).

Definition set_activation_engine (engine : ActivationEngine World)
    : Eff World ReceptionistCore bool :=
  try_except
    (initialized ← invoke (Initialize Activation) (activation_initialize engine);
     if (initialized : bool) then
       this ← get;
       _ ← put (with_activation_engine engine this);
       mret true
     else mret false)
    (fun _ => mret false).

Definition set_stt_processor (processor : SpeechToTextProcessor F World)
    : Eff World ReceptionistCore bool :=
  try_except
    (initialized ← invoke (Initialize Transcription) (stt_initialize processor);
     if (initialized : bool) then
       this ← get;
       _ ← put (with_stt_processor processor this);
       mret true
     else mret false)
    (fun _ => mret false).

Definition set_intent_recognizer (recognizer : IntentRecognizer F World)
    : Eff World ReceptionistCore bool :=
  try_except
    (initialized ← invoke (Initialize IntentRecognition) (recognizer_initialize recognizer);
     if (initialized : bool) then
       this ← get;
       _ ← put (with_intent_recognizer recognizer this);
       mret true
     else mret false)
    (fun _ => mret false).

Definition set_response_generator (generator : ResponseGenerator F World)
    : Eff World ReceptionistCore bool :=
  try_except
    (initialized ← invoke (Initialize ResponseGeneration) (generator_initialize generator);
     if (initialized : bool) then
       this ← get;
       _ ← put (with_response_generator generator this);
       mret true
     else mret false)
    (fun _ => mret false).

(** Step 4 of the pipeline, from [self.state = SystemState.RESPONDING] on *)
Definition respond (intent_result : IntentResult F)
    : Eff World ReceptionistCore (option DialogueResponse) :=
  _ ← set_state RESPONDING;
  response ← within module_manager with_module_manager (process_with_module intent_result);
  this ← get;
  response ←
    match response, response_generator this with
    | None, Some generator =>
        generated ← invoke Generate (generate generator intent_result);
        mret (Some generated)
    | _, _ => mret response
    end;
  match response with
  | Some _ =>
      _ ← monitor_record_interaction true;
      mret response
  | None =>
      _ ← monitor_record_interaction false;
      mret None
  end.

(** Steps 2 and 3 of the pipeline, from the test of [self.stt_processor] on *)
Definition transcribe_and_recognize (audio_frame : AudioFrame)
    : Eff World ReceptionistCore (option DialogueResponse) :=
  this ← get;
  match stt_processor this with
  | None =>
      _ ← set_state ERROR;
      _ ← monitor_record_interaction false;
      mret None
  | Some processor =>
      _ ← set_state PROCESSING;
      transcribed ← invoke Transcribe
                      (transcribe processor (data audio_frame) (sample_rate audio_frame));
      _ ← monitor_record_metric "stt" "confidence" (stt_confidence transcribed);
      this ← get;
      match intent_recognizer this with
      | None =>
          _ ← set_state ERROR;
          _ ← monitor_record_interaction false;
          mret None
      | Some recognizer =>
          intent_result ← invoke Recognize (recognize recognizer (text transcribed));
          _ ← monitor_record_metric "intent_recognizer" "confidence"
                (intent_confidence intent_result);
          respond intent_result
      end
  end.

(** The body of the [try] of [process_audio] *)
Definition process_audio_body (audio_frame : AudioFrame)
    : Eff World ReceptionistCore (option DialogueResponse) :=
  _ ← set_state LISTENING;
  this ← get;
  match activation_engine this with
  | Some engine =>
      detected ← invoke Detect (detect engine audio_frame);
      if (detected : bool) then transcribe_and_recognize audio_frame
      else mret None
  | None => transcribe_and_recognize audio_frame
  end.

(** The [except Exception] clause of [process_audio] *)
Definition process_audio_handler (e : PyExc)
    : Eff World ReceptionistCore (option DialogueResponse) :=
  _ ← set_state ERROR;
  _ ← monitor_record_interaction false;
  mret None.

Definition process_audio (audio_frame : AudioFrame)
    : Eff World ReceptionistCore (option DialogueResponse) :=
  try_finally
    (try_except (process_audio_body audio_frame) process_audio_handler)
    (set_state IDLE).

Definition start : Eff World ReceptionistCore unit :=
  this ← get;
  put (with_running true this).

Definition stop : Eff World ReceptionistCore unit :=
  this ← get;
  put (with_running false this).

Definition is_running (this : ReceptionistCore) : bool := running this.

End ReceptionistCore.
Arguments ReceptionistCore F T World : clear implicits.

(** ** More effects *)

Section MoreEffects.
Context {World : Type}.

(** A call into a plugged-in object that the trace has no event for *)
Definition perform {S A} (method : Method World A) : Eff World S A :=
  fun m =>
    let '(r, w) := method (world m) in
    (r, mkMachine (self m) w (events m)).

(** [raise e] *)
Definition throw {S A} (e : PyExc) : Eff World S A := fun m => (Raise e, m).

End MoreEffects.

(** ** performance_monitor.py, the export *)

Section MonitorExport.
Context {F T : Type}.

Definition export_metrics (self : PerformanceMonitor F T) : list (PyVal F) :=
  map asdict (metrics self).

End MonitorExport.

(** ** module_manager.py, the queries *)

Section ModuleManagerQueries.
Context {F World : Type}.






End ModuleManagerQueries.

(** ** api_gateway.py *)

Section APIGateway.
Context {F World : Type}.

(** [str(e)], the message of an exception *)
Context (str : PyExc -> string).

(** Modelled from the spec: [ExternalSystemResponse] of [data_models.py],
    which is not among the sources; the envelope of a system name, a status
    and the data, as the constructor calls of [api_gateway.py] name them. *)
Record ExternalSystemResponse := mkExternalSystemResponse {
  system_name : string;
  status : string;
  response_data : PyVal F
}.

(** A connector of an external system: a callable of an action and its data,
    with its [__name__] *)
Record SystemHandler := mkSystemHandler {
  system_handler_name : string;
  system_call : string -> list (string * PyVal F) -> Method World (PyVal F)
}.

(** A route handler: a callable of keyword arguments, with its [__name__] *)
Record RouteHandler := mkRouteHandler {
  route_handler_name : string;
  route_call : list (string * PyVal F) -> Method World (PyVal F)
}.

Record APIGateway := mkAPIGateway {
  routes : gmap string RouteHandler;
  external_systems : gmap string SystemHandler
}.

(** [APIGateway.__init__] *)
Definition APIGateway_init : APIGateway :=
  {| routes := ∅; external_systems := ∅ |}.

Definition register_route (endpoint : string) (handler : RouteHandler)
    : Eff World APIGateway unit :=
  this ← get;
  put {| routes := <[endpoint := handler]> (routes this);
         external_systems := external_systems this |}.

Definition register_external_system (name : string) (handler : SystemHandler)
    : Eff World APIGateway unit :=
  this ← get;
  put {| routes := routes this;
         external_systems := <[name := handler]> (external_systems this) |}.

Definition error_data (message : string) : PyVal F :=
  VDict [("error", VStr message)].

Definition call_external_system (name action : string) (payload : list (string * PyVal F))
    : Eff World APIGateway ExternalSystemResponse :=
  this ← get;
  match external_systems this !! name with
  | None =>
      mret (mkExternalSystemResponse name "error"
              (error_data ("System '" +:+ name +:+ "' not found")))
  | Some handler =>
      try_except
        (result ← perform (system_call handler action payload);
         mret (mkExternalSystemResponse name "success" result))
        (fun e => mret (mkExternalSystemResponse name "error" (error_data (str e))))
  end.

Definition handle_route (endpoint : string) (kwargs : list (string * PyVal F))
    : Eff World APIGateway (PyVal F) :=
  this ← get;
  match routes this !! endpoint with
  | None => mret (error_data ("Route '" +:+ endpoint +:+ "' not found"))
  | Some handler =>
      try_except (perform (route_call handler kwargs))
                 (fun e => mret (error_data (str e)))
  end.

Definition list_routes (this : APIGateway) : gmap string string :=
  route_handler_name <$> routes this.

Definition list_external_systems (this : APIGateway) : gmap string string :=
  system_handler_name <$> external_systems this.

(** [APIGateway.cleanup] *)
Definition gateway_cleanup : Eff World APIGateway unit :=
  put {| routes := ∅; external_systems := ∅ |}.

End APIGateway.
Arguments ExternalSystemResponse F : clear implicits.
Arguments SystemHandler F World : clear implicits.
Arguments RouteHandler F World : clear implicits.
Arguments APIGateway F World : clear implicits.

(** ** llm_manager.py *)

Section LLMManager.
Context {F World : Type}.

Record LLMManager := mkLLMManager {
  generators : gmap string (ResponseGenerator F World);
  default_generator : option (ResponseGenerator F World)
}.

(** [LLMManager.__init__] *)
Definition LLMManager_init : LLMManager :=
  {| generators := ∅; default_generator := None |}.

Definition register_generator (domain : string) (generator : ResponseGenerator F World)
    : Eff World LLMManager bool :=
  initialized ← invoke (Initialize ResponseGeneration) (generator_initialize generator);
  if (initialized : bool) then
    this ← get;
    _ ← put {| generators := <[domain := generator]> (generators this);
               default_generator := default_generator this |};
    mret true
  else mret false.

Definition set_default_generator (generator : ResponseGenerator F World)
    : Eff World LLMManager unit :=
  initialized ← invoke (Initialize ResponseGeneration) (generator_initialize generator);
  if (initialized : bool) then
    this ← get;
    put {| generators := generators this; default_generator := Some generator |}
  else mret tt.

(** The generator [generate_response] picks: that of the domain when the
    domain is given, not empty and registered, else the default one. *)
Definition suitable_generator (this : LLMManager) (domain : option string)
    : option (ResponseGenerator F World) :=
  let registered :=
    match domain with
    | Some name => if truthy name then generators this !! name else None
    | None => None
    end in
  match registered with
  | Some generator => Some generator
  | None => default_generator this
  end.

Definition generate_response (intent_result : IntentResult F) (domain : option string)
    : Eff World LLMManager DialogueResponse :=
  this ← get;
  match suitable_generator this domain with
  | Some generator => invoke Generate (generate generator intent_result)
  | None => throw ValueError
  end.

End LLMManager.
Arguments LLMManager F World : clear implicits.

(** ** core_engine.py, life cycle and reports *)

Section CoreLifecycle.
Context {F T World : Type} `{PyArith F} `{PyClock F T}.

(** The core together with the API gateway it owns *)
Definition Receptionist : Type := ReceptionistCore F T World * APIGateway F World.

(** A method of the core, run on the core with its gateway *)
Definition on_core {A} (c : Eff World (ReceptionistCore F T World) A)
    : Eff World Receptionist A :=
  within fst (fun (both : Receptionist) core => (core, both.2)) c.

(** [ReceptionistCore.cleanup] *)
Definition cleanup : Eff World Receptionist unit :=
  try_except
    (this ← get;
     _ ← match activation_engine this.1 with
         | Some engine => invoke (Cleanup Activation) (activation_cleanup engine)
         | None => mret tt
         end;
     this ← get;
     _ ← match stt_processor this.1 with
         | Some processor => invoke (Cleanup Transcription) (stt_cleanup processor)
         | None => mret tt
         end;
     this ← get;
     _ ← match intent_recognizer this.1 with
         | Some recognizer =>
             invoke (Cleanup IntentRecognition) (recognizer_cleanup recognizer)
         | None => mret tt
         end;
     this ← get;
     _ ← match response_generator this.1 with
         | Some generator =>
             invoke (Cleanup ResponseGeneration) (generator_cleanup generator)
         | None => mret tt
         end;
     _ ← on_core (within module_manager with_module_manager cleanup_all);
     _ ← within snd (fun (both : Receptionist) gateway => (both.1, gateway)) gateway_cleanup;
     _ ← on_core (this ← get; put (with_running false this));
     on_core (set_state IDLE))
    (fun _ => mret tt).

(** [get_performance_report] and [get_feedback_report] of the core *)
Definition get_performance_report (this : ReceptionistCore F T World) (now : T)
    : result (list (string * PyVal F)) :=
  get_metrics_summary (performance_monitor this) now.

Definition core_feedback_report (this : ReceptionistCore F T World) (now later : T)
    : result (list (string * PyVal F)) :=
  get_feedback_report (performance_monitor this) now later.

End CoreLifecycle.

(** ** Vocabulary of the properties *)

Section Vocabulary.
Context {F T : Type} `{PyArith F} `{PyClock F T}.

(** The error rate of a session: errors per interaction, and 0 while there
    has been no interaction. *)
Definition session_error_rate (self : PerformanceMonitor F T) : PyVal F :=
  if 0 <? interaction_count self
  then VFloat (int_truediv (error_count self) (interaction_count self))
  else VInt 0.

(** The values logged under one key, oldest first *)
Definition values_of (key : string) (log : list (PerformanceMetric F)) : list F :=
  map value (filter (fun m => metric_key m = key) log).

(** The average of a non-empty list of values *)
Definition mean (values : list F) : F :=
  float_div (float_sum values) (float_of_int (Z.of_nat (length values))).

(** The session's error rate exceeds 0.10. *)
Definition high_error_rate (self : PerformanceMonitor F T) : bool :=
  if 0 <? interaction_count self
  then float_ltb lit_0_1 (int_truediv (error_count self) (interaction_count self))
  else float_ltb lit_0_1 (float_of_int 0).

(** Values were logged under the key and their average is below the
    threshold. *)
Definition low_mean (key : string) (threshold : F) (self : PerformanceMonitor F T) : bool :=
  match values_of key (metrics self) with
  | [] => false
  | values => float_ltb (mean values) threshold
  end.

(** The recommendations that go with the three threshold tests: one message
    per tripped threshold, in the order of the tests, and the single message
    of good performance when none trips. *)
Definition expected_recommendations (high low_intent low_stt : bool) : list string :=
  match high, low_intent, low_stt with
  | false, false, false => [good_performance_message]
  | _, _, _ =>
      (if high then [high_error_rate_message] else []) ++
      (if low_intent then [low_intent_confidence_message] else []) ++
      (if low_stt then [low_stt_confidence_message] else [])
  end.

(** No group of a grouping is empty. *)
Definition groups_inhabited (summary : list (string * list F)) : Prop :=
  Forall (fun group => group.2 <> []) summary.

(** A string with a full stop in it *)
Fixpoint has_dot (s : string) : bool :=
  match s with
  | EmptyString => false
  | String c rest => Ascii.eqb c "."%char || has_dot rest
  end.

End Vocabulary.

Section RegistryVocabulary.
Context {F World : Type}.

(** The pointer names a registered module or is unset. *)
Definition active_registered (manager : ModuleManager F World) : Prop :=
  match active_module manager with
  | Some name => is_Some (modules manager !! name)
  | None => True
  end.

End RegistryVocabulary.

Section PipelineVocabulary.
Context {F T World : Type} `{PyArith F} `{PyClock F T}.

Implicit Types (this : ReceptionistCore F T World) (w : World).

(** The activation step lets the frame through: no engine is configured, or
    the configured engine detects the wake word.  [w'] is the outside world
    after the step. *)
Definition activation_passes this (frame : AudioFrame) w (w' : World) : Prop :=
  match activation_engine this with
  | Some engine => detect engine frame w = (Ok true, w')
  | None => w' = w
  end.

(** The calls of the activation step *)
Definition activation_calls this : list Event :=
  match activation_engine this with
  | Some _ => [Called Detect]
  | None => []
  end.

(** The frame gets through activation, transcription and intent recognition:
    both stages are configured and return [transcribed] and [intent_result].
    [w'] is the outside world after the three steps. *)
Definition recognized this (frame : AudioFrame) w
    (transcribed : TranscribedText F) (intent_result : IntentResult F) (w' : World) : Prop :=
  exists processor recognizer w1 w2,
    activation_passes this frame w w1 /\
    stt_processor this = Some processor /\
    transcribe processor (data frame) (sample_rate frame) w1 = (Ok transcribed, w2) /\
    intent_recognizer this = Some recognizer /\
    recognize recognizer (text transcribed) w2 = (Ok intent_result, w').

(** The core when response generation starts: the state is [PROCESSING] and
    the two confidences are logged. *)
Definition after_recognition this (transcribed : TranscribedText F)
    (intent_result : IntentResult F) : ReceptionistCore F T World :=
  with_performance_monitor
    (record_metric
       (record_metric (performance_monitor this) "stt" "confidence"
                      (stt_confidence transcribed))
       "intent_recognizer" "confidence" (intent_confidence intent_result))
    (with_state PROCESSING this).

(** The events of a run up to the start of response generation *)
Definition recognition_events this : list Event :=
  [Assigned LISTENING] ++ activation_calls this ++
  [Assigned PROCESSING; Called Transcribe; Called Recognize].

(** Registry dispatch yields nothing: no module is active, or the active
    module does not support the intent.  [w'] is the outside world after
    dispatch. *)
Definition dispatch_declines this (intent_result : IntentResult F) w (w' : World) : Prop :=
  match get_active_module (module_manager this) with
  | Some module => supports_intent module (intent intent_result) w = (Ok false, w')
  | None => w' = w
  end.

(** The calls of a dispatch that yields nothing *)
Definition declined_calls this : list Event :=
  match get_active_module (module_manager this) with
  | Some _ => [Called SupportsIntent]
  | None => []
  end.

(** A configured stage, or the dispatched domain module, raises [e] during
    the run on [frame] that starts from the core [this] and the outside world
    [w]; [w'] is the outside world the raise leaves. *)
Inductive stage_raises this (frame : AudioFrame) w (e : PyExc) (w' : World) : Prop :=
| detect_raises engine :
    activation_engine this = Some engine ->
    detect engine frame w = (Raise e, w') ->
    stage_raises this frame w e w'
| transcribe_raises processor w1 :
    activation_passes this frame w w1 ->
    stt_processor this = Some processor ->
    transcribe processor (data frame) (sample_rate frame) w1 = (Raise e, w') ->
    stage_raises this frame w e w'
| recognize_raises processor recognizer w1 w2 transcribed :
    activation_passes this frame w w1 ->
    stt_processor this = Some processor ->
    transcribe processor (data frame) (sample_rate frame) w1 = (Ok transcribed, w2) ->
    intent_recognizer this = Some recognizer ->
    recognize recognizer (text transcribed) w2 = (Raise e, w') ->
    stage_raises this frame w e w'
| supports_intent_raises transcribed intent_result w3 module :
    recognized this frame w transcribed intent_result w3 ->
    get_active_module (module_manager this) = Some module ->
    supports_intent module (intent intent_result) w3 = (Raise e, w') ->
    stage_raises this frame w e w'
| handle_raises transcribed intent_result w3 module w4 :
    recognized this frame w transcribed intent_result w3 ->
    get_active_module (module_manager this) = Some module ->
    supports_intent module (intent intent_result) w3 = (Ok true, w4) ->
    handle module intent_result w4 = (Raise e, w') ->
    stage_raises this frame w e w'
| generate_raises transcribed intent_result w3 w4 generator :
    recognized this frame w transcribed intent_result w3 ->
    dispatch_declines this intent_result w3 w4 ->
    response_generator this = Some generator ->
    generate generator intent_result w4 = (Raise e, w') ->
    stage_raises this frame w e w'.

(** One more interaction and one more error than before *)
Definition one_more_failure (before after : PerformanceMonitor F T) : Prop :=
  interaction_count after = interaction_count before + 1 /\
  error_count after = error_count before + 1.

End PipelineVocabulary.

Section MonitorVocabulary.
Context {F T : Type}.

(** The counters of a monitor are consistent: no more errors than
    interactions, and neither is negative. *)
Definition counters_consistent (self : PerformanceMonitor F T) : Prop :=
  0 <= error_count self <= interaction_count self.

(** A call of one of the recording methods of the monitor *)
Inductive MonitorCall :=
| CallRecordMetric (component metric_name : string) (value : F)
| CallRecordInteraction (success : bool)
| CallResetSession (now : T).

Definition monitor_call (self : PerformanceMonitor F T) (c : MonitorCall)
    : PerformanceMonitor F T :=
  match c with
  | CallRecordMetric component metric_name value =>
      record_metric self component metric_name value
  | CallRecordInteraction success => record_interaction self success
  | CallResetSession now => reset_session self now
  end.

(** The number of interactions, and of failed ones, among the calls made
    since the last reset *)
Fixpoint interactions_since_reset (calls : list MonitorCall) (seen : Z) : Z :=
  match calls with
  | [] => seen
  | CallRecordInteraction _ :: rest => interactions_since_reset rest (seen + 1)
  | CallResetSession _ :: rest => interactions_since_reset rest 0
  | CallRecordMetric _ _ _ :: rest => interactions_since_reset rest seen
  end.

Fixpoint failures_since_reset (calls : list MonitorCall) (seen : Z) : Z :=
  match calls with
  | [] => seen
  | CallRecordInteraction success :: rest =>
      failures_since_reset rest (if success then seen else seen + 1)
  | CallResetSession _ :: rest => failures_since_reset rest 0
  | CallRecordMetric _ _ _ :: rest => failures_since_reset rest seen
  end.

End MonitorVocabulary.

Section LifecycleVocabulary.
Context {F T World : Type} `{PyArith F} `{PyClock F T}.

Implicit Types (this : ReceptionistCore F T World).

(** The calls of the loop of [cleanup_all] *)
Definition cleanup_calls (items : list (string * DomainModule F World)) : list Event :=
  map (fun item => Called (Cleanup (Domain item.1))) items.

(** The configuration of a core: its stages, its registry and its running
    flag *)
Definition same_configuration this (after : ReceptionistCore F T World) : Prop :=
  activation_engine after = activation_engine this /\
  stt_processor after = stt_processor this /\
  intent_recognizer after = intent_recognizer this /\
  response_generator after = response_generator this /\
  module_manager after = module_manager this /\
  running after = running this.

(** A metric of one of the two confidences the pipeline logs *)
Definition confidence_metric (m : PerformanceMetric F) : Prop :=
  (component m = "stt" \/ component m = "intent_recognizer") /\ metric_name m = "confidence".

(** What a step of a run leaves of the core: the configuration and the
    start of the session as they were, [logged] appended to the log, and the
    two counters raised by [interactions] and [failures]. *)
Definition run_effect this (after : ReceptionistCore F T World)
    (logged : list (PerformanceMetric F)) (interactions failures : Z) : Prop :=
  same_configuration this after /\
  session_start (performance_monitor after) = session_start (performance_monitor this) /\
  metrics (performance_monitor after) = metrics (performance_monitor this) ++ logged /\
  interaction_count (performance_monitor after) =
    interaction_count (performance_monitor this) + interactions /\
  error_count (performance_monitor after) =
    error_count (performance_monitor this) + failures.

(** The outcomes of the body of the [try], with what each leaves of the
    core: a response, no response after a failure, no response because the
    wake word was not detected, a raise. *)
Definition body_outcome this (r : result (option DialogueResponse))
    (after : ReceptionistCore F T World) : Prop :=
  exists logged,
    (length logged <= 2)%nat /\ Forall confidence_metric logged /\
    ((exists response, r = Ok (Some response) /\ length logged = 2%nat /\
                       run_effect this after logged 1 0) \/
     (r = Ok None /\ run_effect this after logged 1 1) \/
     (r = Ok None /\ logged = [] /\ run_effect this after [] 0 0) \/
     (exists e, r = Raise e /\ run_effect this after logged 0 0)).

(** A stage's [cleanup] that returns whatever the outside world is *)
Definition quiet (method : Method World unit) : Prop :=
  forall w0, (method w0).1 = Ok tt.

(** Every configured stage has a quiet [cleanup]. *)
Definition quiet_stages this : Prop :=
  (forall engine, activation_engine this = Some engine -> quiet (activation_cleanup engine)) /\
  (forall processor, stt_processor this = Some processor -> quiet (stt_cleanup processor)) /\
  (forall recognizer, intent_recognizer this = Some recognizer ->
     quiet (recognizer_cleanup recognizer)) /\
  (forall generator, response_generator this = Some generator ->
     quiet (generator_cleanup generator)).

(** The core and the gateway after a [cleanup] that ran to its end *)
Definition cleaned_up this : Receptionist :=
  (with_state IDLE (with_running false (with_module_manager this ModuleManager_init)),
   APIGateway_init).

(** The calls of [cleanup] into the configured stages, in its order *)
Definition stage_cleanup_calls this : list Event :=
  (if activation_engine this is Some _ then [Called (Cleanup Activation)] else []) ++
  (if stt_processor this is Some _ then [Called (Cleanup Transcription)] else []) ++
  (if intent_recognizer this is Some _ then [Called (Cleanup IntentRecognition)] else []) ++
  (if response_generator this is Some _ then [Called (Cleanup ResponseGeneration)] else []).

End LifecycleVocabulary.

(** ** Scenarios *)

(** Concrete sessions and plugged-in objects, over IEEE doubles, a clock of
    whole seconds and an outside world that counts the calls made into it. *)
Module Scenario.

(** A monitor after one failed interaction and no metric: what a pipeline run
    without a transcription stage leaves behind. *)
Definition failed_session : PerformanceMonitor float Z :=
  record_interaction (PerformanceMonitor_init 0) false.

(** The outside world of the scenarios: the number of calls made into it. *)
Definition counted {A : Type} (r : result A) : Method nat A := fun calls => (r, S calls).

Definition some_intent (label : string) : IntentResult float :=
  mkIntentResult "a room for two, please" label Binary64.eight_tenths [].

Definition booked : DialogueResponse :=
  mkDialogueResponse "Your room is booked." (Some "create_booking") "hotel" None.

Definition apology : DialogueResponse :=
  mkDialogueResponse "Sorry, I did not get that." None "generic" None.

(** A domain module of a hotel that handles [book_room] only. *)
Definition concierge : DomainModule float nat :=
  {| module_initialize := counted (Ok true);
     handle := fun _ => counted (Ok booked);
     supports_intent := fun label => counted (Ok (String.eqb label "book_room"));
     get_domain_name := counted (Ok "hotel");
     get_supported_intents := counted (Ok ["book_room"]);
     module_cleanup := counted (Ok tt) |}.

(** A domain module whose [initialize] reports failure. *)
Definition closed_module : DomainModule float nat :=
  {| module_initialize := counted (Ok false);
     handle := fun _ => counted (Ok booked);
     supports_intent := fun _ => counted (Ok true);
     get_domain_name := counted (Ok "closed");
     get_supported_intents := counted (Ok []);
     module_cleanup := counted (Ok tt) |}.

Definition fresh_registry : Machine nat (ModuleManager float nat) :=
  mkMachine ModuleManager_init 0%nat [].

(** The registry after [register_module("", concierge)] and
    [switch_module("")]. *)
Definition unnamed_registry : Machine nat (ModuleManager float nat) :=
  (switch_module "" (register_module "" concierge fresh_registry).2).2.

Definition frame : AudioFrame := mkAudioFrame [] 16000.

Definition RuntimeError : PyExc := mkExc true "RuntimeError".

(** An activation engine that hears the wake word in every frame, and one
    that never does. *)
Definition attentive : ActivationEngine nat :=
  {| activation_initialize := counted (Ok true);
     detect := fun _ => counted (Ok true);
     activation_cleanup := counted (Ok tt) |}.

Definition deaf : ActivationEngine nat :=
  {| activation_initialize := counted (Ok true);
     detect := fun _ => counted (Ok false);
     activation_cleanup := counted (Ok tt) |}.

(** An activation engine whose [initialize] raises. *)
Definition unplugged : ActivationEngine nat :=
  {| activation_initialize := counted (Raise RuntimeError);
     detect := fun _ => counted (Ok true);
     activation_cleanup := counted (Ok tt) |}.

Definition heard : TranscribedText float :=
  mkTranscribedText "a room for two, please" Binary64.eight_tenths.

Definition typist : SpeechToTextProcessor float nat :=
  {| stt_initialize := counted (Ok true);
     transcribe := fun _ _ => counted (Ok heard);
     stt_cleanup := counted (Ok tt) |}.

(** A transcription stage whose [transcribe] raises. *)
Definition broken_typist : SpeechToTextProcessor float nat :=
  {| stt_initialize := counted (Ok true);
     transcribe := fun _ _ => counted (Raise RuntimeError);
     stt_cleanup := counted (Ok tt) |}.

Definition keywords : IntentRecognizer float nat :=
  {| recognizer_initialize := counted (Ok true);
     recognize := fun _ => counted (Ok (some_intent "book_room"));
     recognizer_cleanup := counted (Ok tt) |}.

Definition small_talk : ResponseGenerator float nat :=
  {| generator_initialize := counted (Ok true);
     generate := fun _ => counted (Ok apology);
     generator_cleanup := counted (Ok tt) |}.

Definition core_with (engine : option (ActivationEngine nat))
    (processor : option (SpeechToTextProcessor float nat))
    (manager : ModuleManager float nat) : ReceptionistCore float Z nat :=
  {| state := IDLE;
     activation_engine := engine;
     stt_processor := processor;
     intent_recognizer := Some keywords;
     response_generator := Some small_talk;
     module_manager := manager;
     performance_monitor := PerformanceMonitor_init 0;
     running := true |}.

Definition hotel_registry : ModuleManager float nat :=
  {| modules := {[ "hotel" := concierge ]}; active_module := Some "hotel" |}.

(** A core with every stage configured and the hotel's module active *)
Definition hotel_desk : ReceptionistCore float Z nat :=
  core_with (Some attentive) (Some typist) hotel_registry.

(** A monitor with two transcription confidences logged, 0.8 and 0.7, and
    one successful interaction *)
Definition busy_session : PerformanceMonitor float Z :=
  record_interaction
    (record_metric
       (record_metric (PerformanceMonitor_init 0) "stt" "confidence" Binary64.eight_tenths)
       "stt" "confidence" Binary64.seven_tenths)
    true.

(** An activation engine whose [cleanup] raises *)
Definition stuck : ActivationEngine nat :=
  {| activation_initialize := counted (Ok true);
     detect := fun _ => counted (Ok true);
     activation_cleanup := counted (Raise RuntimeError) |}.

(** A core behind a transcription stage only, with the recognizer, the
    generator and the registry given *)
Definition desk (recognizer : option (IntentRecognizer float nat))
    (generator : option (ResponseGenerator float nat))
    (manager : ModuleManager float nat) : ReceptionistCore float Z nat :=
  {| state := IDLE;
     activation_engine := None;
     stt_processor := Some typist;
     intent_recognizer := recognizer;
     response_generator := generator;
     module_manager := manager;
     performance_monitor := PerformanceMonitor_init 0;
     running := true |}.

(** A domain module of a clinic that handles [book_appointment] only. *)
Definition nurse : DomainModule float nat :=
  {| module_initialize := counted (Ok true);
     handle := fun _ => counted (Ok booked);
     supports_intent := fun label => counted (Ok (String.eqb label "book_appointment"));
     get_domain_name := counted (Ok "clinic");
     get_supported_intents := counted (Ok ["book_appointment"]);
     module_cleanup := counted (Ok tt) |}.

(** The registry after [register_module("hotel", concierge)], then
    [register_module("clinic", nurse)], then [switch_module("hotel")]. *)
Definition shared_registry : Machine nat (ModuleManager float nat) :=
  (switch_module "hotel"
     (register_module "clinic" nurse
        (register_module "hotel" concierge fresh_registry).2).2).2.

(** A core with every stage configured over the registry of the hotel and
    the clinic *)
Definition shared_desk : ReceptionistCore float Z nat :=
  core_with (Some attentive) (Some typist) (self shared_registry).

(** A core with every stage configured over the registry in which the
    hotel's module was registered and switched to under the empty name *)
Definition unnamed_desk : ReceptionistCore float Z nat :=
  core_with (Some attentive) (Some typist) (self unnamed_registry).

End Scenario.

(** * Properties *)

(** ** The performance monitor *)

Section MonitorFacts.
Context {F T : Type} `{PyArith F} `{PyClock F T}.

Lemma dict_lookup_summary_append (key k : string) (v : F) (summary : list (string * list F)) :
  dict_lookup key (summary_append k v summary) =
  if decide (k = key)
  then Some (default [] (dict_lookup key summary) ++ [v])
  else dict_lookup key summary.
Proof.
  induction summary as [|[k' values] rest IH]; simpl.
  - destruct (String.eqb_spec k key) as [->|Hne].
    + rewrite decide_True by done. reflexivity.
    + rewrite decide_False by done. reflexivity.
  - destruct (String.eqb_spec k' k) as [->|Hk]; simpl.
    + destruct (String.eqb_spec k key) as [->|Hne].
      * rewrite decide_True by done. reflexivity.
      * rewrite decide_False by done. reflexivity.
    + destruct (String.eqb_spec k' key) as [->|Hne].
      * rewrite decide_False by done. reflexivity.
      * exact IH.
Qed.

Lemma summary_append_inhabited (k : string) (v : F) (summary : list (string * list F)) :
  groups_inhabited summary -> groups_inhabited (summary_append k v summary).
Proof.
  unfold groups_inhabited.
  induction summary as [|[k' values] rest IH]; simpl; intros Hall.
  - constructor; [simpl; discriminate | constructor].
  - inversion Hall as [|? ? Hhead Htail]; subst.
    destruct (String.eqb k' k).
    + constructor; [simpl; intros E; destruct values; discriminate | exact Htail].
    + constructor; [exact Hhead | apply IH, Htail].
Qed.

Lemma values_of_cons (key : string) (m : PerformanceMetric F) (log : list (PerformanceMetric F)) :
  values_of key (m :: log) =
  if decide (metric_key m = key) then value m :: values_of key log else values_of key log.
Proof.
  unfold values_of. rewrite filter_cons. destruct (decide (metric_key m = key)); reflexivity.
Qed.

Lemma dict_lookup_grouping (key : string) (log : list (PerformanceMetric F))
    (acc : list (string * list F)) :
  dict_lookup key
    (fold_left (fun summary metric => summary_append (metric_key metric) (value metric) summary)
               log acc) =
  match dict_lookup key acc with
  | Some values => Some (values ++ values_of key log)
  | None => match values_of key log with [] => None | l => Some l end
  end.
Proof.
  revert acc. induction log as [|m log IH]; intros acc; simpl.
  - unfold values_of; simpl. destruct (dict_lookup key acc); [rewrite app_nil_r|]; reflexivity.
  - rewrite IH, dict_lookup_summary_append, values_of_cons.
    destruct (decide (metric_key m = key)) as [Heq|Hne].
    + destruct (dict_lookup key acc) as [values|]; simpl.
      * rewrite <- app_assoc. reflexivity.
      * reflexivity.
    + reflexivity.
Qed.

Lemma dict_lookup_group_values (key : string) (log : list (PerformanceMetric F)) :
  dict_lookup key (group_values log) =
  match values_of key log with [] => None | l => Some l end.
Proof. unfold group_values. rewrite dict_lookup_grouping. reflexivity. Qed.

Lemma group_values_inhabited (log : list (PerformanceMetric F)) :
  groups_inhabited (group_values log).
Proof.
  unfold group_values.
  assert (G : forall acc, groups_inhabited acc ->
    groups_inhabited
      (fold_left (fun summary metric => summary_append (metric_key metric) (value metric) summary)
                 log acc)).
  { induction log as [|m log IH]; intros acc Hacc; simpl; [exact Hacc|].
    apply IH, summary_append_inhabited, Hacc. }
  apply G. constructor.
Qed.

Lemma value_statistics_inhabited (values : list F) :
  values <> [] ->
  exists lowest highest,
    value_statistics values =
    Ok (VDict [("count", VInt (Z.of_nat (length values)));
               ("average", VFloat (mean values));
               ("min", VFloat lowest);
               ("max", VFloat highest);
               ("total", VFloat (float_sum values))]).
Proof.
  destruct values as [|v rest]; [congruence|]. intros _.
  unfold value_statistics, mean. cbn.
  eexists _, _. reflexivity.
Qed.

Lemma compute_statistics_inhabited (summary : list (string * list F)) :
  groups_inhabited summary ->
  exists statistics,
    compute_statistics summary = Ok statistics /\
    forall key,
      match dict_lookup key summary with
      | Some values =>
          exists entry, value_statistics values = Ok entry /\
                        dict_lookup key statistics = Some entry
      | None => dict_lookup key statistics = None
      end.
Proof.
  unfold groups_inhabited.
  induction summary as [|[k values] rest IH]; intros Hall.
  - exists []. split; [reflexivity|]. intros key. reflexivity.
  - inversion Hall as [|? ? Hhead Htail]; subst. simpl in Hhead.
    destruct (IH Htail) as (others & Hothers & Hlookup).
    destruct (value_statistics_inhabited values Hhead) as (lo & hi & Hentry).
    eexists. split.
    + simpl. rewrite Hentry. cbn. rewrite Hothers. cbn. reflexivity.
    + intros key. simpl. destruct (String.eqb k key).
      * eexists. split; [exact Hentry | reflexivity].
      * apply Hlookup.
Qed.

(** The summary never faults: the only divisions are by the size of an
    inhabited group and by a positive interaction count. *)
Lemma get_metrics_summary_returns (self : PerformanceMonitor F T) (now : T) :
  exists summary, get_metrics_summary self now = Ok summary.
Proof.
  unfold get_metrics_summary.
  destruct (metrics self) as [|m log] eqn:Hlog; [eexists; reflexivity|].
  destruct (compute_statistics_inhabited _ (group_values_inhabited (m :: log)))
    as (statistics & Hstat & _).
  rewrite Hstat. cbn.
  destruct (0 <? interaction_count self) eqn:Hpos; cbn.
  - unfold py_int_truediv.
    assert (Hne : (interaction_count self =? 0) = false) by (apply Z.eqb_neq; lia).
    rewrite Hne. cbn. eexists; reflexivity.
  - eexists; reflexivity.
Qed.

(** The summary of an empty log is the short dict, with the counters as they
    are stored. *)
Lemma get_metrics_summary_empty_log (self : PerformanceMonitor F T) (now : T) :
  metrics self = [] ->
  get_metrics_summary self now =
  Ok [("message", VStr "No metrics recorded");
      ("interaction_count", VInt (interaction_count self));
      ("error_count", VInt (error_count self));
      ("session_duration", VFloat (total_seconds now (session_start self)))].
Proof. intros Hlog. unfold get_metrics_summary. rewrite Hlog. reflexivity. Qed.

(** The summary of an inhabited log: the long dict, with the session's error
    rate and the statistics of every group. *)
Lemma get_metrics_summary_inhabited_log (self : PerformanceMonitor F T) (now : T) :
  metrics self <> [] ->
  exists statistics,
    compute_statistics (group_values (metrics self)) = Ok statistics /\
    get_metrics_summary self now =
    Ok [("total_metrics", VInt (Z.of_nat (length (metrics self))));
        ("total_interactions", VInt (interaction_count self));
        ("total_errors", VInt (error_count self));
        ("error_rate", session_error_rate self);
        ("session_duration_seconds", VFloat (total_seconds now (session_start self)));
        ("statistics", VDict statistics);
        ("recent_metrics", VList (map asdict (last_ten (metrics self))))].
Proof.
  intros Hlog. unfold get_metrics_summary, session_error_rate.
  destruct (metrics self) as [|m log] eqn:Hm; [congruence|].
  destruct (compute_statistics_inhabited _ (group_values_inhabited (m :: log)))
    as (statistics & Hstat & _).
  exists statistics. split; [exact Hstat|].
  rewrite Hstat. cbn.
  destruct (0 <? interaction_count self) eqn:Hpos; cbn.
  - unfold py_int_truediv.
    assert (Hne : (interaction_count self =? 0) = false) by (apply Z.eqb_neq; lia).
    rewrite Hne. cbn. reflexivity.
  - reflexivity.
Qed.

(** The guarded read of an average, on the summary of an inhabited log, is
    the test of the mean of the values logged under the key. *)
Lemma low_average_inhabited_log (self : PerformanceMonitor F T) (now : T)
    (summary : list (string * PyVal F)) (key : string) (threshold : F) :
  metrics self <> [] ->
  get_metrics_summary self now = Ok summary ->
  low_average summary key threshold = Ok (low_mean key threshold self).
Proof.
  intros Hlog Hsummary.
  destruct (get_metrics_summary_inhabited_log self now Hlog) as (statistics & Hstat & Heq).
  rewrite Heq in Hsummary. injection Hsummary as <-.
  destruct (compute_statistics_inhabited _ (group_values_inhabited (metrics self)))
    as (statistics' & Hstat' & Hlookup).
  rewrite Hstat in Hstat'. injection Hstat' as <-.
  specialize (Hlookup key). rewrite dict_lookup_group_values in Hlookup.
  unfold low_average, low_mean, dict_get. cbn.
  destruct (values_of key (metrics self)) as [|v values] eqn:Hvalues.
  - rewrite Hlookup. cbn. reflexivity.
  - destruct Hlookup as (entry & Hentry & Hfound).
    destruct (value_statistics_inhabited (v :: values)) as (lo & hi & Hdict); [congruence|].
    rewrite Hdict in Hentry. injection Hentry as <-.
    rewrite Hfound. cbn. reflexivity.
Qed.

(** On an empty log the summary has no statistics, and no average is read. *)
Lemma low_average_empty_log (self : PerformanceMonitor F T) (now : T)
    (summary : list (string * PyVal F)) (key : string) (threshold : F) :
  metrics self = [] ->
  get_metrics_summary self now = Ok summary ->
  low_average summary key threshold = Ok false.
Proof.
  intros Hlog Hsummary.
  rewrite (get_metrics_summary_empty_log self now Hlog) in Hsummary.
  injection Hsummary as <-. reflexivity.
Qed.

Lemma recommendations_of_tests (summary : list (string * PyVal F)) (high low_intent low_stt : bool) :
  py_gt (dict_get summary "error_rate" (VInt 0)) lit_0_1 = Ok high ->
  low_average summary "intent_recognizer.confidence" lit_0_7 = Ok low_intent ->
  low_average summary "stt.confidence" lit_0_8 = Ok low_stt ->
  recommendations_of summary = Ok (expected_recommendations high low_intent low_stt).
Proof.
  intros Hhigh Hintent Hstt. unfold recommendations_of.
  rewrite Hhigh. cbn. rewrite Hintent. cbn. rewrite Hstt. cbn.
  destruct high, low_intent, low_stt; reflexivity.
Qed.

(** The report on an inhabited log: it never faults, and its recommendations
    are those of the three thresholds on the session's error rate and on the
    means of the two confidences. *)
Lemma get_feedback_report_inhabited_log (self : PerformanceMonitor F T) (now later : T) :
  metrics self <> [] ->
  exists report,
    get_feedback_report self now later = Ok report /\
    dict_lookup "recommendations" report =
    Some (VList (map VStr
      (expected_recommendations
         (high_error_rate self)
         (low_mean "intent_recognizer.confidence" lit_0_7 self)
         (low_mean "stt.confidence" lit_0_8 self)))).
Proof.
  intros Hlog.
  destruct (get_metrics_summary_inhabited_log self now Hlog) as (statistics & Hstat & Heq).
  unfold get_feedback_report.
  pose proof (low_average_inhabited_log self now _ "intent_recognizer.confidence" lit_0_7
                Hlog Heq) as Hintent.
  pose proof (low_average_inhabited_log self now _ "stt.confidence" lit_0_8 Hlog Heq) as Hstt.
  rewrite Heq. cbn -[recommendations_of].
  erewrite recommendations_of_tests; [| | exact Hintent | exact Hstt].
  - cbn. eexists. split; reflexivity.
  - unfold dict_get, session_error_rate, high_error_rate. cbn.
    destruct (0 <? interaction_count self); reflexivity.
Qed.

(** The report on an empty log: the summary has neither an error rate nor
    statistics, and the only recommendation is the message of good
    performance, whatever the counters. *)
Lemma get_feedback_report_empty_log (self : PerformanceMonitor F T) (now later : T) :
  metrics self = [] ->
  float_ltb lit_0_1 (float_of_int 0) = false ->
  exists report,
    get_feedback_report self now later = Ok report /\
    dict_lookup "recommendations" report = Some (VList [VStr good_performance_message]).
Proof.
  intros Hlog Hzero.
  unfold get_feedback_report.
  rewrite (get_metrics_summary_empty_log self now Hlog). cbn -[recommendations_of].
  erewrite recommendations_of_tests with (high := false) (low_intent := false) (low_stt := false).
  - cbn. eexists. split; reflexivity.
  - unfold dict_get. cbn. rewrite Hzero. reflexivity.
  - reflexivity.
  - reflexivity.
Qed.

Lemma append_String (a : ascii) (c x : string) : String a c +:+ x = String a (c +:+ x).
Proof. reflexivity. Qed.

Lemma append_EmptyString (x : string) : EmptyString +:+ x = x.
Proof. reflexivity. Qed.

Lemma has_dot_append (c n : string) : has_dot (c +:+ String "." n) = true.
Proof.
  induction c as [|a c IH].
  - reflexivity.
  - rewrite append_String. simpl. rewrite IH. apply orb_true_r.
Qed.

Ltac push_append H :=
  repeat (rewrite append_String in H || rewrite append_EmptyString in H).

(** A key with one full stop splits in one way only. *)
Lemma append_dot_inj (p s c n : string) :
  has_dot p = false -> has_dot s = false ->
  c +:+ "." +:+ n = p +:+ "." +:+ s -> c = p /\ n = s.
Proof.
  revert c. induction p as [|a p IH]; intros c Hp Hs Heq.
  - destruct c as [|b c]; push_append Heq.
    + injection Heq as ->. split; reflexivity.
    + injection Heq as -> Hrest.
      pose proof (has_dot_append c n) as Hdot. rewrite Hrest, Hs in Hdot. discriminate.
  - simpl in Hp. apply orb_false_elim in Hp as [Ha Hp].
    destruct c as [|b c]; push_append Heq.
    + injection Heq as <- _. simpl in Ha. discriminate.
    + injection Heq as -> Hrest.
      destruct (IH c Hp Hs Hrest) as [-> ->]. split; reflexivity.
Qed.

(** The group of a key [component.name] without further full stops holds the
    history of that metric. *)
Lemma values_of_history (self : PerformanceMonitor F T) (component_name name : string) :
  has_dot component_name = false -> has_dot name = false ->
  values_of (component_name +:+ "." +:+ name) (metrics self) =
  get_metric_history self component_name name.
Proof.
  intros Hc Hn. unfold values_of, get_metric_history. f_equal.
  induction (metrics self) as [|m log IH]; [reflexivity|].
  rewrite !filter_cons, IH.
  destruct (decide (metric_key m = component_name +:+ "." +:+ name)) as [Hkey|Hkey].
  - apply append_dot_inj in Hkey as [-> ->]; [|assumption..].
    rewrite !String.eqb_refl. reflexivity.
  - destruct (decide (_ = true)) as [Hboth|Hboth]; [|reflexivity].
    apply andb_prop in Hboth as [H1 H2].
    apply String.eqb_eq in H1, H2. exfalso. apply Hkey.
    unfold metric_key. rewrite H1, H2. reflexivity.
Qed.

(** C1 (amended).  For every monitor state the summary is returned without a
    fault, division by zero included.  On an empty metric log it reports the
    interaction counter and the error counter as they are stored, hence zero
    and zero when nothing has been recorded.  Whenever the interaction
    counter is zero, an error rate the summary carries is exactly the int 0,
    and the summary of a non-empty log carries one. *)
Theorem get_metrics_summary_counters (self : PerformanceMonitor F T) (now : T) :
  exists summary,
    get_metrics_summary self now = Ok summary /\
    (metrics self = [] ->
       dict_lookup "interaction_count" summary = Some (VInt (interaction_count self)) /\
       dict_lookup "error_count" summary = Some (VInt (error_count self))) /\
    (interaction_count self = 0 ->
       forall v, dict_lookup "error_rate" summary = Some v -> v = VInt 0) /\
    (interaction_count self = 0 -> metrics self <> [] ->
       dict_lookup "error_rate" summary = Some (VInt 0)).
Proof.
  destruct (metrics self) as [|m log] eqn:Hlog.
  - eexists. split; [apply get_metrics_summary_empty_log, Hlog|].
    split; [intros _; split; reflexivity|].
    split; [intros _ v Hv; discriminate Hv | congruence].
  - assert (Hne : metrics self <> []) by (rewrite Hlog; discriminate).
    destruct (get_metrics_summary_inhabited_log self now Hne) as (statistics & _ & Heq).
    eexists. split; [exact Heq|].
    split; [intros Hnil; discriminate|].
    assert (Hrate : interaction_count self = 0 -> session_error_rate self = VInt 0).
    { intros Hzero. unfold session_error_rate. rewrite Hzero. reflexivity. }
    split.
    + intros Hzero v Hv. cbn in Hv. rewrite (Hrate Hzero) in Hv. congruence.
    + intros Hzero _. cbn. rewrite (Hrate Hzero). reflexivity.
Qed.

End MonitorFacts.

(** C1, as stated, at a concrete session: the log of [failed_session] is
    empty, and the summary reports one interaction and one error, not zero,
    and carries no error rate. *)
Lemma get_metrics_summary_failed_session :
  metrics Scenario.failed_session = [] /\
  exists summary,
    get_metrics_summary Scenario.failed_session 5 = Ok summary /\
    dict_lookup "interaction_count" summary = Some (VInt 1) /\
    dict_lookup "error_count" summary = Some (VInt 1) /\
    dict_lookup "error_rate" summary = None.
Proof.
  split; [reflexivity|].
  eexists. split; [reflexivity|]. repeat split.
Qed.

(** C2, at a concrete session.  In [failed_session] every interaction failed:
    the error rate is 1.0, above 0.10.  The summary of its empty log carries
    no error rate, the report reads the missing entry as 0, and the only
    recommendation is the message of good performance. *)
Lemma get_feedback_report_failed_session :
  session_error_rate Scenario.failed_session = VFloat (Binary64.of_int 1) /\
  high_error_rate Scenario.failed_session = true /\
  exists report,
    get_feedback_report Scenario.failed_session 5 5 = Ok report /\
    dict_lookup "total_interactions" report = Some VNone /\
    dict_lookup "recommendations" report =
    Some (VList [VStr good_performance_message]).
Proof.
  split; [vm_compute; reflexivity|].
  split; [vm_compute; reflexivity|].
  eexists. split; [vm_compute; reflexivity|]. split; reflexivity.
Qed.

(** The recommendations of the three tests, read by message. *)
Lemma expected_recommendations_spec (high low_intent low_stt : bool) :
  (high_error_rate_message ∈ expected_recommendations high low_intent low_stt <-> high = true) /\
  (low_intent_confidence_message ∈ expected_recommendations high low_intent low_stt
     <-> low_intent = true) /\
  (low_stt_confidence_message ∈ expected_recommendations high low_intent low_stt
     <-> low_stt = true) /\
  (expected_recommendations high low_intent low_stt = [good_performance_message]
     <-> high = false /\ low_intent = false /\ low_stt = false).
Proof.
  destruct high, low_intent, low_stt; cbn;
    repeat split; intros; try reflexivity; try discriminate;
    repeat match goal with
           | Hin : _ ∈ _ :: _ |- _ => apply elem_of_cons in Hin as [Hin|Hin]; [discriminate Hin|]
           | Hin : _ ∈ [] |- _ => apply elem_of_nil in Hin; destruct Hin
           | Hc : _ /\ _ |- _ => destruct Hc
           end;
    try discriminate;
    solve [repeat constructor].
Qed.

(** ** Dicts in insertion order *)

Section OrderedDicts.
Context {V : Type}.

Implicit Types (d : pydict V) (key : string) (v : V).

Lemma pydict_lookup_nil key : (∅ : pydict V) !! key = None.
Proof. reflexivity. Qed.

Lemma pydict_lookup_cons d key k v :
  ((k, v) :: d : pydict V) !! key = if String.eqb k key then Some v else d !! key.
Proof. reflexivity. Qed.

Lemma pydict_insert_cons d key k v x :
  <[key := v]> ((k, x) :: d : pydict V) =
  if String.eqb k key then (k, v) :: d else (k, x) :: <[key := v]> d.
Proof. reflexivity. Qed.

Lemma pydict_lookup_insert_eq d key v : <[key := v]> d !! key = Some v.
Proof.
  induction d as [|[k x] rest IH].
  - change (<[key := v]> ([] : pydict V)) with ([(key, v)] : pydict V).
    rewrite pydict_lookup_cons, String.eqb_refl. reflexivity.
  - rewrite pydict_insert_cons.
    destruct (String.eqb k key) eqn:Hk; rewrite pydict_lookup_cons, Hk; [reflexivity | exact IH].
Qed.

Lemma pydict_lookup_insert_ne d key key' v :
  key <> key' -> <[key := v]> d !! key' = d !! key'.
Proof.
  intros Hne. induction d as [|[k x] rest IH].
  - change (<[key := v]> ([] : pydict V)) with ([(key, v)] : pydict V).
    rewrite pydict_lookup_cons.
    destruct (String.eqb_spec key key') as [Heq|_]; [contradiction | reflexivity].
  - rewrite pydict_insert_cons.
    destruct (String.eqb_spec k key) as [->|Hk]; rewrite !pydict_lookup_cons.
    + destruct (String.eqb_spec key key') as [Heq|_]; [contradiction | reflexivity].
    + rewrite IH. reflexivity.
Qed.

Lemma pydict_lookup_elem_of d key v : d !! key = Some v -> (key, v) ∈ (d : list (string * V)).
Proof.
  induction d as [|[k x] rest IH]; [discriminate|].
  rewrite pydict_lookup_cons.
  destruct (String.eqb_spec k key) as [->|_].
  - intros [= ->]. apply list_elem_of_here.
  - intros Hrest. apply list_elem_of_further, IH, Hrest.
Qed.

Lemma pydict_elem_of_keys d key : key ∈ map fst d <-> is_Some (d !! key).
Proof.
  induction d as [|[k x] rest IH].
  - split; [intros Hin; inversion Hin | intros [v Hv]; discriminate].
  - rewrite pydict_lookup_cons. cbn [map fst]. rewrite elem_of_cons.
    destruct (String.eqb_spec k key) as [->|Hk].
    + split; [eauto | left; reflexivity].
    + rewrite <- IH. split; [intros [Heq|Hin]; [congruence | exact Hin] | right; assumption].
Qed.

Lemma pydict_insert_fresh d key v : d !! key = None -> <[key := v]> d = d ++ [(key, v)].
Proof.
  induction d as [|[k x] rest IH]; [reflexivity|].
  rewrite pydict_lookup_cons, pydict_insert_cons.
  destruct (String.eqb k key); [discriminate|].
  intros Hrest. rewrite (IH Hrest). reflexivity.
Qed.

Lemma pydict_insert_keys d key v :
  is_Some (d !! key) -> map fst (<[key := v]> d) = map fst d.
Proof.
  induction d as [|[k x] rest IH]; [intros [y Hy]; discriminate|].
  rewrite pydict_lookup_cons, pydict_insert_cons.
  destruct (String.eqb k key); [reflexivity|].
  intros Hrest. cbn [map fst]. rewrite (IH Hrest). reflexivity.
Qed.


Lemma pydict_insert_NoDup d key v : NoDup (map fst d) -> NoDup (map fst (<[key := v]> d)).
Proof.
  intros Hd. destruct (d !! key) as [x|] eqn:Hfound.
  - rewrite pydict_insert_keys by eauto. exact Hd.
  - rewrite pydict_insert_fresh by exact Hfound.
    rewrite map_app. apply NoDup_app. split; [exact Hd|]. split.
    + intros k Hk Hin. cbn in Hin. apply list_elem_of_singleton in Hin. subst k.
      apply pydict_elem_of_keys in Hk. rewrite Hfound in Hk. destruct Hk; discriminate.
    + cbn. apply NoDup_singleton.
Qed.

End OrderedDicts.

(** ** The module registry *)

(** Runs the combinators of [Eff] in the goal. *)
Ltac run_eff :=
  unfold mbind, mret, Eff_bind, Eff_ret, get, put, observe, invoke,
         try_except, try_finally, within;
  cbn.

Section RegistryFacts.
Context {F World : Type}.

Implicit Types (manager : ModuleManager F World) (w : World) (trace : list Event).

Lemma active_registered_init : active_registered (@ModuleManager_init F World).
Proof. exact I. Qed.

Lemma register_module_outcome manager w trace (domain_name : string)
    (module : DomainModule F World) :
  register_module domain_name module (mkMachine manager w trace) =
  let '(r, w') := module_initialize module w in
  let trace' := trace ++ [Called (Initialize (Domain domain_name))] in
  match r with
  | Ok true =>
      (Ok true,
       mkMachine {| modules := <[domain_name := module]> (modules manager);
                    active_module := active_module manager |} w' trace')
  | Ok false => (Ok false, mkMachine manager w' trace')
  | Raise e =>
      (if exc_is_Exception e then Ok false else Raise e, mkMachine manager w' trace')
  end.
Proof.
  unfold register_module. run_eff.
  destruct (module_initialize module w) as [[[|]|e] w']; cbn; try reflexivity.
  destruct (exc_is_Exception e); reflexivity.
Qed.

Lemma switch_module_outcome manager w trace (domain_name : string) :
  switch_module domain_name (mkMachine manager w trace) =
  match modules manager !! domain_name with
  | Some _ =>
      (Ok true,
       mkMachine {| modules := modules manager; active_module := Some domain_name |} w trace)
  | None => (Ok false, mkMachine manager w trace)
  end.
Proof.
  unfold switch_module. run_eff. destruct (modules manager !! domain_name); reflexivity.
Qed.

Lemma register_module_preserves manager w trace (domain_name : string)
    (module : DomainModule F World) :
  active_registered manager ->
  active_registered (self (register_module domain_name module (mkMachine manager w trace)).2).
Proof.
  intros Hinv. rewrite register_module_outcome.
  destruct (module_initialize module w) as [[[|]|e] w']; cbn; try exact Hinv.
  unfold active_registered in *. cbn.
  destruct (active_module manager) as [name|]; [|exact I].
  destruct (decide (domain_name = name)) as [->|Hne].
  - rewrite pydict_lookup_insert_eq. eauto.
  - rewrite pydict_lookup_insert_ne by exact Hne. exact Hinv.
Qed.

Lemma switch_module_preserves manager w trace (domain_name : string) :
  active_registered manager ->
  active_registered (self (switch_module domain_name (mkMachine manager w trace)).2).
Proof.
  intros Hinv. rewrite switch_module_outcome.
  destruct (modules manager !! domain_name) as [module|] eqn:Hfound; cbn; [|exact Hinv].
  unfold active_registered. cbn. rewrite Hfound. eauto.
Qed.

Lemma process_with_module_self manager w trace (intent_result : IntentResult F) :
  self (process_with_module intent_result (mkMachine manager w trace)).2 = manager.
Proof.
  unfold process_with_module. run_eff.
  destruct (get_active_module manager) as [module|]; cbn; [|reflexivity].
  destruct (supports_intent module (intent intent_result) w) as [[[|]|e] w1]; cbn;
    try reflexivity.
  destruct (handle module intent_result w1) as [[response|e] w2]; reflexivity.
Qed.

Lemma cleanup_modules_self (items : list (string * DomainModule F World)) manager w trace :
  self (cleanup_modules items (mkMachine manager w trace)).2 = manager.
Proof.
  revert w trace. induction items as [|[name module] rest IH]; intros w trace; [reflexivity|].
  cbn. run_eff.
  destruct (module_cleanup module w) as [[[]|e] w1]; cbn.
  - apply IH.
  - destruct (exc_is_Exception e); cbn; [apply IH | reflexivity].
Qed.

Lemma cleanup_all_preserves manager w trace :
  active_registered manager ->
  active_registered (self (cleanup_all (mkMachine manager w trace)).2).
Proof.
  intros Hinv. unfold cleanup_all. run_eff.
  pose proof (cleanup_modules_self (modules manager) manager w trace) as Hself.
  destruct (cleanup_modules (modules manager) (mkMachine manager w trace))
    as [[[]|e] m1]; cbn in *.
  - exact I.
  - rewrite Hself. exact Hinv.
Qed.

(** Under a non-empty name the pointer and the lookup agree. *)
Lemma get_active_module_named manager (name : string) :
  active_module manager = Some name -> name <> EmptyString ->
  get_active_module manager = modules manager !! name.
Proof.
  intros Hactive Hname. unfold get_active_module, truthy. rewrite Hactive.
  destruct (String.eqb_spec name EmptyString) as [->|_]; [congruence | reflexivity].
Qed.

(** C8.  [register_module] returns success exactly when [initialize]
    returns true; then the module is stored under the name, whatever was
    stored there before, every other name and the pointer being left as they
    were.  When [initialize] returns false or raises an [Exception] the call
    returns failure, and whenever the call does not return success the registry
    is as before.  [switch_module] to an unregistered name returns failure and
    changes nothing, so the module that was active stays active; to a
    registered name it returns success and the pointer, the one active name,
    is that name, under which [get_active_module] finds the module when the
    name is not empty. *)
Theorem register_module_switch_module manager w trace (name : string)
    (module : DomainModule F World) :
  (let '(r, m') := register_module name module (mkMachine manager w trace) in
   (r = Ok true <-> (module_initialize module w).1 = Ok true) /\
   (r = Ok true ->
      modules (self m') !! name = Some module /\
      (forall other, other <> name -> modules (self m') !! other = modules manager !! other) /\
      active_module (self m') = active_module manager) /\
   ((module_initialize module w).1 = Ok false \/
    (exists e, (module_initialize module w).1 = Raise e /\ exc_is_Exception e = true) ->
      r = Ok false) /\
   (r <> Ok true -> self m' = manager)) /\
  (let '(r, m') := switch_module name (mkMachine manager w trace) in
   (modules manager !! name = None ->
      r = Ok false /\ self m' = manager /\
      get_active_module (self m') = get_active_module manager) /\
   (is_Some (modules manager !! name) ->
      r = Ok true /\ get_active_module_name (self m') = Some name /\
      modules (self m') = modules manager /\
      (name <> EmptyString -> get_active_module (self m') = modules manager !! name))).
Proof.
  split.
  - rewrite register_module_outcome.
    destruct (module_initialize module w) as [[[|]|e] w']; cbn.
    + repeat split; try congruence.
      * apply pydict_lookup_insert_eq.
      * intros other Hother. apply pydict_lookup_insert_ne. congruence.
      * intros [Hfalse|(e & He & _)]; discriminate.
    + repeat split; try congruence.
    + destruct (exc_is_Exception e) eqn:Hclass.
      * repeat split; try congruence.
      * repeat split; try congruence.
        intros [Hfalse|(e' & He' & Hclass')]; [discriminate|].
        injection He' as <-. congruence.
  - rewrite switch_module_outcome.
    destruct (modules manager !! name) as [found|] eqn:Hfound; cbn.
    + split; [congruence|]. intros _.
      split; [reflexivity|]. split; [reflexivity|]. split; [reflexivity|].
      intros Hname.
      unfold truthy.
      destruct (String.eqb_spec name EmptyString) as [->|_]; [congruence|].
      exact Hfound.
    + split; [intros _; repeat split|]. intros [x Hx]. discriminate.
Qed.

End RegistryFacts.

(** C8 at the hotel's module: it is stored under its name in a fresh
    registry, and a switch to a name that is not registered fails. *)
Lemma register_module_switch_module_witness :
  modules (self (register_module "hotel" Scenario.concierge Scenario.fresh_registry).2)
    !! "hotel" = Some Scenario.concierge /\
  (switch_module "hotel" Scenario.fresh_registry).1 = Ok false.
Proof.
  pose proof (register_module_switch_module
                ModuleManager_init 0%nat [] "hotel" Scenario.concierge) as [Hreg Hswitch].
  change (mkMachine ModuleManager_init 0%nat []) with Scenario.fresh_registry in *.
  split.
  - destruct (register_module "hotel" Scenario.concierge Scenario.fresh_registry)
      as [r m'] eqn:Hrun.
    destruct Hreg as (Hiff & Hstored & _).
    apply Hstored, Hiff. reflexivity.
  - destruct (switch_module "hotel" Scenario.fresh_registry) as [r m'] eqn:Hrun.
    destruct Hswitch as (Hmissing & _).
    apply Hmissing. reflexivity.
Defined.

(** C9, at a concrete registry.  After [register_module("", concierge)] and
    [switch_module("")] the switch has succeeded, the pointer is set to the
    empty name and that name is registered; yet [get_active_module] returns
    nothing, and dispatch of an intent the module supports returns nothing
    without calling the module. *)
Lemma get_active_module_unnamed_registry :
  (switch_module "" (register_module "" Scenario.concierge Scenario.fresh_registry).2).1
    = Ok true /\
  get_active_module_name (self Scenario.unnamed_registry) = Some EmptyString /\
  modules (self Scenario.unnamed_registry) !! "" = Some Scenario.concierge /\
  active_registered (self Scenario.unnamed_registry) /\
  get_active_module (self Scenario.unnamed_registry) = None /\
  process_with_module (Scenario.some_intent "book_room") Scenario.unnamed_registry
    = (Ok None, Scenario.unnamed_registry).
Proof.
  assert (Hstored : modules (self Scenario.unnamed_registry) !! "" = Some Scenario.concierge)
    by (vm_compute; reflexivity).
  split; [vm_compute; reflexivity|].
  split; [reflexivity|].
  split; [exact Hstored|].
  split.
  - change (is_Some (modules (self Scenario.unnamed_registry) !! "")).
    rewrite Hstored. eauto.
  - split; vm_compute; reflexivity.
Qed.

(** C1 at a fresh monitor: the summary reports zero interactions and zero
    errors. *)
Lemma get_metrics_summary_counters_witness :
  exists summary,
    get_metrics_summary (PerformanceMonitor_init 0 : PerformanceMonitor float Z) 5 = Ok summary /\
    dict_lookup "interaction_count" summary = Some (VInt 0) /\
    dict_lookup "error_count" summary = Some (VInt 0).
Proof.
  destruct (get_metrics_summary_counters
              (PerformanceMonitor_init 0 : PerformanceMonitor float Z) 5)
    as (summary & Hsummary & Hempty & _).
  exists summary. split; [exact Hsummary|]. apply Hempty. reflexivity.
Defined.

(** ** The orchestration core *)

Section CoreFacts.
Context {F T World : Type} `{PyArith F} `{PyClock F T}.

Implicit Types (this : ReceptionistCore F T World) (w : World) (trace : list Event).
Implicit Types (frame : AudioFrame) (e : PyExc).

Lemma set_activation_engine_outcome this w trace (engine : ActivationEngine World) :
  set_activation_engine engine (mkMachine this w trace) =
  let '(r, w') := activation_initialize engine w in
  let trace' := trace ++ [Called (Initialize Activation)] in
  match r with
  | Ok true => (Ok true, mkMachine (with_activation_engine engine this) w' trace')
  | Ok false => (Ok false, mkMachine this w' trace')
  | Raise e => (if exc_is_Exception e then Ok false else Raise e, mkMachine this w' trace')
  end.
Proof.
  unfold set_activation_engine. run_eff.
  destruct (activation_initialize engine w) as [[[|]|e] w']; cbn; try reflexivity.
  destruct (exc_is_Exception e); reflexivity.
Qed.

Lemma set_stt_processor_outcome this w trace (processor : SpeechToTextProcessor F World) :
  set_stt_processor processor (mkMachine this w trace) =
  let '(r, w') := stt_initialize processor w in
  let trace' := trace ++ [Called (Initialize Transcription)] in
  match r with
  | Ok true => (Ok true, mkMachine (with_stt_processor processor this) w' trace')
  | Ok false => (Ok false, mkMachine this w' trace')
  | Raise e => (if exc_is_Exception e then Ok false else Raise e, mkMachine this w' trace')
  end.
Proof.
  unfold set_stt_processor. run_eff.
  destruct (stt_initialize processor w) as [[[|]|e] w']; cbn; try reflexivity.
  destruct (exc_is_Exception e); reflexivity.
Qed.

Lemma set_intent_recognizer_outcome this w trace (recognizer : IntentRecognizer F World) :
  set_intent_recognizer recognizer (mkMachine this w trace) =
  let '(r, w') := recognizer_initialize recognizer w in
  let trace' := trace ++ [Called (Initialize IntentRecognition)] in
  match r with
  | Ok true => (Ok true, mkMachine (with_intent_recognizer recognizer this) w' trace')
  | Ok false => (Ok false, mkMachine this w' trace')
  | Raise e => (if exc_is_Exception e then Ok false else Raise e, mkMachine this w' trace')
  end.
Proof.
  unfold set_intent_recognizer. run_eff.
  destruct (recognizer_initialize recognizer w) as [[[|]|e] w']; cbn; try reflexivity.
  destruct (exc_is_Exception e); reflexivity.
Qed.

Lemma set_response_generator_outcome this w trace (generator : ResponseGenerator F World) :
  set_response_generator generator (mkMachine this w trace) =
  let '(r, w') := generator_initialize generator w in
  let trace' := trace ++ [Called (Initialize ResponseGeneration)] in
  match r with
  | Ok true => (Ok true, mkMachine (with_response_generator generator this) w' trace')
  | Ok false => (Ok false, mkMachine this w' trace')
  | Raise e => (if exc_is_Exception e then Ok false else Raise e, mkMachine this w' trace')
  end.
Proof.
  unfold set_response_generator. run_eff.
  destruct (generator_initialize generator w) as [[[|]|e] w']; cbn; try reflexivity.
  destruct (exc_is_Exception e); reflexivity.
Qed.

(** C10.  When the [initialize] of the new stage raises an [Exception], each
    of the four configuration calls returns false and leaves the core as it
    was, the stage configured for the role included; and no configuration
    call lets an [Exception] out. *)
Theorem configuration_catches_initialize this w trace :
  (forall (engine : ActivationEngine World) e w',
     activation_initialize engine w = (Raise e, w') -> exc_is_Exception e = true ->
     let '(r, m') := set_activation_engine engine (mkMachine this w trace) in
     r = Ok false /\ self m' = this) /\
  (forall (processor : SpeechToTextProcessor F World) e w',
     stt_initialize processor w = (Raise e, w') -> exc_is_Exception e = true ->
     let '(r, m') := set_stt_processor processor (mkMachine this w trace) in
     r = Ok false /\ self m' = this) /\
  (forall (recognizer : IntentRecognizer F World) e w',
     recognizer_initialize recognizer w = (Raise e, w') -> exc_is_Exception e = true ->
     let '(r, m') := set_intent_recognizer recognizer (mkMachine this w trace) in
     r = Ok false /\ self m' = this) /\
  (forall (generator : ResponseGenerator F World) e w',
     generator_initialize generator w = (Raise e, w') -> exc_is_Exception e = true ->
     let '(r, m') := set_response_generator generator (mkMachine this w trace) in
     r = Ok false /\ self m' = this) /\
  (forall engine processor recognizer generator e,
     exc_is_Exception e = true ->
     (set_activation_engine engine (mkMachine this w trace)).1 <> Raise e /\
     (set_stt_processor processor (mkMachine this w trace)).1 <> Raise e /\
     (set_intent_recognizer recognizer (mkMachine this w trace)).1 <> Raise e /\
     (set_response_generator generator (mkMachine this w trace)).1 <> Raise e).
Proof.
  repeat apply conj.
  - intros engine e w' Hinit Hclass.
    rewrite set_activation_engine_outcome, Hinit, Hclass. split; reflexivity.
  - intros processor e w' Hinit Hclass.
    rewrite set_stt_processor_outcome, Hinit, Hclass. split; reflexivity.
  - intros recognizer e w' Hinit Hclass.
    rewrite set_intent_recognizer_outcome, Hinit, Hclass. split; reflexivity.
  - intros generator e w' Hinit Hclass.
    rewrite set_response_generator_outcome, Hinit, Hclass. split; reflexivity.
  - intros engine processor recognizer generator e Hclass.
    rewrite set_activation_engine_outcome, set_stt_processor_outcome,
      set_intent_recognizer_outcome, set_response_generator_outcome.
    repeat apply conj.
    + destruct (activation_initialize engine w) as [[[|]|e'] w']; cbn; try discriminate.
      destruct (exc_is_Exception e') eqn:Hclass'; [discriminate | congruence].
    + destruct (stt_initialize processor w) as [[[|]|e'] w']; cbn; try discriminate.
      destruct (exc_is_Exception e') eqn:Hclass'; [discriminate | congruence].
    + destruct (recognizer_initialize recognizer w) as [[[|]|e'] w']; cbn; try discriminate.
      destruct (exc_is_Exception e') eqn:Hclass'; [discriminate | congruence].
    + destruct (generator_initialize generator w) as [[[|]|e'] w']; cbn; try discriminate.
      destruct (exc_is_Exception e') eqn:Hclass'; [discriminate | congruence].
Qed.

(** C3.  Whatever the frame, the stages and the modules, and whatever the
    outcome of the run, a response, no response or an exception that is let
    through, the state after [process_audio] is [IDLE], and the assignment of
    [IDLE] is the last thing the run does. *)
Theorem process_audio_ends_idle frame (m : Machine World (ReceptionistCore F T World)) :
  state (self (process_audio frame m).2) = IDLE /\
  exists before, events (process_audio frame m).2 = before ++ [Assigned IDLE].
Proof.
  unfold process_audio, try_finally.
  destruct (try_except (process_audio_body frame) process_audio_handler m) as [r m1].
  unfold set_state. run_eff. split; [reflexivity|]. eexists. reflexivity.
Qed.

(** The run up to the start of response generation *)
Lemma process_audio_body_recognized this w trace frame transcribed intent_result w' :
  recognized this frame w transcribed intent_result w' ->
  process_audio_body frame (mkMachine this w trace) =
  respond intent_result
    (mkMachine (after_recognition this transcribed intent_result) w'
               (trace ++ recognition_events this)).
Proof.
  intros (processor & recognizer & w1 & w2 & Hpass & Hstt & Htranscribe & Hrec & Hrecognize).
  unfold process_audio_body, transcribe_and_recognize, set_state, monitor_record_metric,
    recognition_events, activation_calls, activation_passes in *.
  run_eff.
  destruct (activation_engine this) as [engine|] eqn:Hengine; cbn.
  - rewrite Hpass. cbn. rewrite Hstt. cbn. rewrite Htranscribe. cbn. rewrite Hrec. cbn.
    rewrite Hrecognize. cbn. rewrite <- !app_assoc. reflexivity.
  - subst w1. rewrite Hstt. cbn. rewrite Htranscribe. cbn. rewrite Hrec. cbn.
    rewrite Hrecognize. cbn. rewrite <- !app_assoc. reflexivity.
Qed.

Ltac run_respond :=
  unfold respond, set_state, monitor_record_interaction, process_with_module,
    dispatch_declines in *;
  run_eff.

(** Response generation when the dispatched module raises *)
Lemma respond_supports_intent_raises this w trace (intent_result : IntentResult F)
    module e w' :
  get_active_module (module_manager this) = Some module ->
  supports_intent module (intent intent_result) w = (Raise e, w') ->
  respond intent_result (mkMachine this w trace) =
  (Raise e,
   mkMachine (with_state RESPONDING this) w'
             (trace ++ [Assigned RESPONDING; Called SupportsIntent])).
Proof.
  intros Hactive Hsupports. run_respond.
  rewrite Hactive. cbn. rewrite Hsupports. cbn.
  rewrite <- !app_assoc. reflexivity.
Qed.

Lemma respond_handle_raises this w trace (intent_result : IntentResult F)
    module e w1 w' :
  get_active_module (module_manager this) = Some module ->
  supports_intent module (intent intent_result) w = (Ok true, w1) ->
  handle module intent_result w1 = (Raise e, w') ->
  respond intent_result (mkMachine this w trace) =
  (Raise e,
   mkMachine (with_state RESPONDING this) w'
             (trace ++ [Assigned RESPONDING; Called SupportsIntent; Called Handle])).
Proof.
  intros Hactive Hsupports Hhandle. run_respond.
  rewrite Hactive. cbn. rewrite Hsupports. cbn. rewrite Hhandle. cbn.
  rewrite <- !app_assoc. reflexivity.
Qed.

(** Response generation when the active module supports the intent: the
    response of the module is returned and the generator is not called. *)
Lemma respond_handled this w trace (intent_result : IntentResult F)
    module response w1 w' :
  get_active_module (module_manager this) = Some module ->
  supports_intent module (intent intent_result) w = (Ok true, w1) ->
  handle module intent_result w1 = (Ok response, w') ->
  respond intent_result (mkMachine this w trace) =
  (Ok (Some response),
   mkMachine (with_performance_monitor
                (record_interaction (performance_monitor this) true)
                (with_state RESPONDING this))
             w'
             (trace ++ [Assigned RESPONDING; Called SupportsIntent; Called Handle])).
Proof.
  intros Hactive Hsupports Hhandle. run_respond.
  rewrite Hactive. cbn. rewrite Hsupports. cbn. rewrite Hhandle. cbn.
  rewrite <- !app_assoc. reflexivity.
Qed.

(** Response generation when dispatch yields nothing and a generator is
    configured *)
Lemma respond_generate this w trace (intent_result : IntentResult F) w1 generator :
  dispatch_declines this intent_result w w1 ->
  response_generator this = Some generator ->
  respond intent_result (mkMachine this w trace) =
  let '(r, w') := generate generator intent_result w1 in
  let trace' := trace ++ [Assigned RESPONDING] ++ declined_calls this ++ [Called Generate] in
  match r with
  | Ok response =>
      (Ok (Some response),
       mkMachine (with_performance_monitor
                    (record_interaction (performance_monitor this) true)
                    (with_state RESPONDING this)) w' trace')
  | Raise e => (Raise e, mkMachine (with_state RESPONDING this) w' trace')
  end.
Proof.
  intros Hdeclines Hgenerator. unfold declined_calls. run_respond.
  destruct (get_active_module (module_manager this)) as [module|]; cbn.
  - rewrite Hdeclines. cbn. rewrite Hgenerator. cbn.
    destruct (generate generator intent_result w1) as [[response|e] w']; cbn;
      rewrite <- !app_assoc; reflexivity.
  - subst w1. rewrite Hgenerator. cbn.
    destruct (generate generator intent_result w) as [[response|e] w']; cbn;
      rewrite <- !app_assoc; reflexivity.
Qed.

(** Response generation when dispatch yields nothing and no generator is
    configured *)
Lemma respond_nothing this w trace (intent_result : IntentResult F) w1 :
  dispatch_declines this intent_result w w1 ->
  response_generator this = None ->
  respond intent_result (mkMachine this w trace) =
  (Ok None,
   mkMachine (with_performance_monitor
                (record_interaction (performance_monitor this) false)
                (with_state RESPONDING this)) w1
             (trace ++ [Assigned RESPONDING] ++ declined_calls this)).
Proof.
  intros Hdeclines Hgenerator. unfold declined_calls. run_respond.
  destruct (get_active_module (module_manager this)) as [module|]; cbn.
  - rewrite Hdeclines. cbn. rewrite Hgenerator. cbn. rewrite <- !app_assoc. reflexivity.
  - subst w1. rewrite Hgenerator. cbn. reflexivity.
Qed.

(** The [except] clause and the [finally] clause after a raise in the body *)
Lemma process_audio_body_raises frame (m m1 : Machine World (ReceptionistCore F T World)) e :
  process_audio_body frame m = (Raise e, m1) ->
  exc_is_Exception e = true ->
  process_audio frame m =
  (Ok None,
   mkMachine (with_state IDLE
                (with_performance_monitor
                   (record_interaction (performance_monitor (self m1)) false)
                   (with_state ERROR (self m1))))
             (world m1)
             (events m1 ++ [Assigned ERROR; Assigned IDLE])).
Proof.
  intros Hbody Hclass.
  unfold process_audio, process_audio_handler, set_state, monitor_record_interaction.
  run_eff. rewrite Hbody, Hclass. cbn. rewrite <- !app_assoc. reflexivity.
Qed.

(** The [finally] clause after a raise that is not an [Exception] *)
Lemma process_audio_body_lets_through frame (m m1 : Machine World (ReceptionistCore F T World))
    e :
  process_audio_body frame m = (Raise e, m1) ->
  exc_is_Exception e = false ->
  process_audio frame m =
  (Raise e,
   mkMachine (with_state IDLE (self m1)) (world m1) (events m1 ++ [Assigned IDLE])).
Proof.
  intros Hbody Hclass.
  unfold process_audio, process_audio_handler, set_state, monitor_record_interaction.
  run_eff. rewrite Hbody, Hclass. cbn. reflexivity.
Qed.

(** The [finally] clause after a [return] in the body *)
Lemma process_audio_body_returns frame (m m1 : Machine World (ReceptionistCore F T World))
    (r : option DialogueResponse) :
  process_audio_body frame m = (Ok r, m1) ->
  process_audio frame m =
  (Ok r, mkMachine (with_state IDLE (self m1)) (world m1) (events m1 ++ [Assigned IDLE])).
Proof.
  intros Hbody.
  unfold process_audio, process_audio_handler, set_state, monitor_record_interaction.
  run_eff. rewrite Hbody. cbn. reflexivity.
Qed.

Ltac run_body :=
  unfold process_audio_body, transcribe_and_recognize, set_state, monitor_record_metric,
    monitor_record_interaction, activation_calls, activation_passes in *;
  run_eff.

Lemma process_audio_body_not_detected this w trace frame engine w' :
  activation_engine this = Some engine ->
  detect engine frame w = (Ok false, w') ->
  process_audio_body frame (mkMachine this w trace) =
  (Ok None,
   mkMachine (with_state LISTENING this) w' (trace ++ [Assigned LISTENING; Called Detect])).
Proof.
  intros Hengine Hdetect. run_body. rewrite Hengine. cbn. rewrite Hdetect. cbn.
  rewrite <- !app_assoc. reflexivity.
Qed.

Lemma process_audio_body_detect_raises this w trace frame engine e w' :
  activation_engine this = Some engine ->
  detect engine frame w = (Raise e, w') ->
  process_audio_body frame (mkMachine this w trace) =
  (Raise e,
   mkMachine (with_state LISTENING this) w' (trace ++ [Assigned LISTENING; Called Detect])).
Proof.
  intros Hengine Hdetect. run_body. rewrite Hengine. cbn. rewrite Hdetect. cbn.
  rewrite <- !app_assoc. reflexivity.
Qed.

Lemma process_audio_body_no_stt this w trace frame w1 :
  activation_passes this frame w w1 ->
  stt_processor this = None ->
  process_audio_body frame (mkMachine this w trace) =
  (Ok None,
   mkMachine (with_performance_monitor
                (record_interaction (performance_monitor this) false)
                (with_state ERROR this))
             w1
             (trace ++ [Assigned LISTENING] ++ activation_calls this ++ [Assigned ERROR])).
Proof.
  intros Hpass Hstt. run_body.
  destruct (activation_engine this) as [engine|]; cbn.
  - rewrite Hpass. cbn. rewrite Hstt. cbn. rewrite <- !app_assoc. reflexivity.
  - subst w1. rewrite Hstt. cbn. rewrite <- !app_assoc. reflexivity.
Qed.

Lemma process_audio_body_transcribe_raises this w trace frame processor w1 e w' :
  activation_passes this frame w w1 ->
  stt_processor this = Some processor ->
  transcribe processor (data frame) (sample_rate frame) w1 = (Raise e, w') ->
  process_audio_body frame (mkMachine this w trace) =
  (Raise e,
   mkMachine (with_state PROCESSING this) w'
             (trace ++ [Assigned LISTENING] ++ activation_calls this ++
              [Assigned PROCESSING; Called Transcribe])).
Proof.
  intros Hpass Hstt Htranscribe. run_body.
  destruct (activation_engine this) as [engine|]; cbn.
  - rewrite Hpass. cbn. rewrite Hstt. cbn. rewrite Htranscribe. cbn.
    rewrite <- !app_assoc. reflexivity.
  - subst w1. rewrite Hstt. cbn. rewrite Htranscribe. cbn.
    rewrite <- !app_assoc. reflexivity.
Qed.

Lemma process_audio_body_recognize_raises this w trace frame processor recognizer
    w1 w2 transcribed e w' :
  activation_passes this frame w w1 ->
  stt_processor this = Some processor ->
  transcribe processor (data frame) (sample_rate frame) w1 = (Ok transcribed, w2) ->
  intent_recognizer this = Some recognizer ->
  recognize recognizer (text transcribed) w2 = (Raise e, w') ->
  process_audio_body frame (mkMachine this w trace) =
  (Raise e,
   mkMachine (with_performance_monitor
                (record_metric (performance_monitor this) "stt" "confidence"
                               (stt_confidence transcribed))
                (with_state PROCESSING this))
             w'
             (trace ++ recognition_events this)).
Proof.
  intros Hpass Hstt Htranscribe Hrec Hrecognize. unfold recognition_events. run_body.
  destruct (activation_engine this) as [engine|]; cbn.
  - rewrite Hpass. cbn. rewrite Hstt. cbn. rewrite Htranscribe. cbn. rewrite Hrec. cbn.
    rewrite Hrecognize. cbn. rewrite <- !app_assoc. reflexivity.
  - subst w1. rewrite Hstt. cbn. rewrite Htranscribe. cbn. rewrite Hrec. cbn.
    rewrite Hrecognize. cbn. rewrite <- !app_assoc. reflexivity.
Qed.

(** A raise of a stage is a raise of the body of the [try], with the
    counters of the monitor as they were. *)
Lemma stage_raises_body this w trace frame e w' :
  stage_raises this frame w e w' ->
  exists this1 trace1,
    process_audio_body frame (mkMachine this w trace) =
      (Raise e, mkMachine this1 w' (trace ++ trace1)) /\
    interaction_count (performance_monitor this1) =
      interaction_count (performance_monitor this) /\
    error_count (performance_monitor this1) = error_count (performance_monitor this).
Proof.
  intros [engine Hengine Hdetect
         |processor w1 Hpass Hstt Htranscribe
         |processor recognizer w1 w2 transcribed Hpass Hstt Htranscribe Hrec Hrecognize
         |transcribed intent_result w3 module Hrecognized Hactive Hsupports
         |transcribed intent_result w3 module w4 Hrecognized Hactive Hsupports Hhandle
         |transcribed intent_result w3 w4 generator Hrecognized Hdeclines Hgenerator Hgenerate].
  - eexists _, _. split; [eapply process_audio_body_detect_raises; eassumption|].
    split; reflexivity.
  - eexists _, _. split; [eapply process_audio_body_transcribe_raises; eassumption|].
    split; reflexivity.
  - eexists _, _. split; [eapply process_audio_body_recognize_raises; eassumption|].
    split; reflexivity.
  - eexists _, _. split.
    + rewrite (process_audio_body_recognized _ _ _ _ _ _ _ Hrecognized).
      rewrite (respond_supports_intent_raises _ _ _ _ module e w') by assumption.
      rewrite <- app_assoc. reflexivity.
    + split; reflexivity.
  - eexists _, _. split.
    + rewrite (process_audio_body_recognized _ _ _ _ _ _ _ Hrecognized).
      rewrite (respond_handle_raises _ _ _ _ module e w4 w') by assumption.
      rewrite <- app_assoc. reflexivity.
    + split; reflexivity.
  - eexists _, _. split.
    + rewrite (process_audio_body_recognized _ _ _ _ _ _ _ Hrecognized).
      rewrite (respond_generate _ _ _ _ w4 generator) by assumption.
      rewrite Hgenerate. rewrite <- !app_assoc. reflexivity.
    + split; reflexivity.
Qed.

Lemma process_with_module_outcome (manager : ModuleManager F World) w trace
    (intent_result : IntentResult F) :
  process_with_module intent_result (mkMachine manager w trace) =
  match get_active_module manager with
  | None => (Ok None, mkMachine manager w trace)
  | Some module =>
      let '(supported, w1) := supports_intent module (intent intent_result) w in
      match supported with
      | Raise e => (Raise e, mkMachine manager w1 (trace ++ [Called SupportsIntent]))
      | Ok false => (Ok None, mkMachine manager w1 (trace ++ [Called SupportsIntent]))
      | Ok true =>
          let '(handled, w2) := handle module intent_result w1 in
          (match handled with
           | Ok response => Ok (Some response)
           | Raise e => Raise e
           end,
           mkMachine manager w2 (trace ++ [Called SupportsIntent; Called Handle]))
      end
  end.
Proof.
  unfold process_with_module. run_eff.
  destruct (get_active_module manager) as [module|]; cbn; [|reflexivity].
  destruct (supports_intent module (intent intent_result) w) as [[[|]|e] w1]; cbn;
    try reflexivity.
  destruct (handle module intent_result w1) as [[response|e] w2]; cbn;
    rewrite <- !app_assoc; reflexivity.
Qed.

(** C4.  When a configured stage or the dispatched domain module raises an
    [Exception] during a run, [process_audio] returns no response instead of
    letting the exception out; exactly one failed interaction is recorded,
    the interaction counter and the error counter being one higher than
    before; the state is assigned [ERROR] and then [IDLE], which it has at
    the end. *)
Theorem process_audio_firewall this w trace frame e w' :
  stage_raises this frame w e w' ->
  exc_is_Exception e = true ->
  exists m',
    process_audio frame (mkMachine this w trace) = (Ok None, m') /\
    one_more_failure (performance_monitor this) (performance_monitor (self m')) /\
    state (self m') = IDLE /\
    exists between, events m' = trace ++ between ++ [Assigned ERROR; Assigned IDLE].
Proof.
  intros Hraises Hclass.
  destruct (stage_raises_body this w trace frame e w' Hraises)
    as (this1 & trace1 & Hbody & Hinteractions & Herrors).
  eexists. split; [apply (process_audio_body_raises _ _ _ _ Hbody Hclass)|].
  cbn. split; [|split].
  - unfold one_more_failure. cbn. rewrite Hinteractions, Herrors. split; reflexivity.
  - reflexivity.
  - exists trace1. rewrite <- app_assoc. reflexivity.
Qed.

(** C5.  When an activation engine is configured and its [detect] returns
    false, the run returns no response; the only call into a plugged-in
    object is that [detect], so no transcription, intent recognition,
    domain module or response generation is invoked; and the monitor,
    its interaction and error counters included, is as it was. *)
Theorem process_audio_not_detected this w trace frame engine w' :
  activation_engine this = Some engine ->
  detect engine frame w = (Ok false, w') ->
  exists m',
    process_audio frame (mkMachine this w trace) = (Ok None, m') /\
    events m' = trace ++ [Assigned LISTENING; Called Detect; Assigned IDLE] /\
    (forall c, Called c ∈ drop (length trace) (events m') -> c = Detect) /\
    performance_monitor (self m') = performance_monitor this /\
    interaction_count (performance_monitor (self m')) =
      interaction_count (performance_monitor this) /\
    error_count (performance_monitor (self m')) = error_count (performance_monitor this).
Proof.
  intros Hengine Hdetect.
  eexists. split.
  { apply process_audio_body_returns.
    eapply process_audio_body_not_detected; eassumption. }
  cbn. split; [rewrite <- app_assoc; reflexivity|].
  split; [|repeat split].
  intros c Hin. rewrite <- app_assoc, drop_app_length in Hin. cbn in Hin.
  repeat (apply elem_of_cons in Hin as [Hin|Hin]; [congruence|]).
  apply elem_of_nil in Hin. destruct Hin.
Qed.

(** C6.  When no transcription stage is configured and the activation step
    lets the frame through, the run returns no response, ends in [IDLE], and
    leaves the interaction counter and the error counter one higher each. *)
Theorem process_audio_no_stt this w trace frame w1 :
  stt_processor this = None ->
  activation_passes this frame w w1 ->
  exists m',
    process_audio frame (mkMachine this w trace) = (Ok None, m') /\
    state (self m') = IDLE /\
    one_more_failure (performance_monitor this) (performance_monitor (self m')).
Proof.
  intros Hstt Hpass.
  eexists. split.
  { apply process_audio_body_returns.
    eapply process_audio_body_no_stt; eassumption. }
  cbn. split; [reflexivity|]. split; reflexivity.
Qed.

(** Closes a goal whose hypothesis [Hin] puts a call of [generate] among the
    events of a run that made none. *)
Ltac no_generate Hin :=
  cbn in Hin;
  repeat rewrite <- app_assoc in Hin;
  rewrite drop_app_length in Hin;
  unfold recognition_events, activation_calls in Hin;
  destruct (activation_engine _); cbn in Hin;
  repeat (apply elem_of_cons in Hin as [Hin|Hin]; [discriminate Hin|]);
  apply elem_of_nil in Hin; destruct Hin.

(** The run when the active module supports the recognized intent *)
Lemma process_audio_handled this w trace frame transcribed intent_result w3
    module w4 response w5 :
  recognized this frame w transcribed intent_result w3 ->
  get_active_module (module_manager this) = Some module ->
  supports_intent module (intent intent_result) w3 = (Ok true, w4) ->
  handle module intent_result w4 = (Ok response, w5) ->
  process_audio frame (mkMachine this w trace) =
  (Ok (Some response),
   mkMachine (with_state IDLE
                (with_performance_monitor
                   (record_interaction
                      (performance_monitor
                         (after_recognition this transcribed intent_result)) true)
                   (after_recognition this transcribed intent_result)))
             w5
             (((trace ++ recognition_events this) ++
               [Assigned RESPONDING; Called SupportsIntent; Called Handle]) ++
              [Assigned IDLE])).
Proof.
  intros Hrecognized Hactive Hsupports Hhandle.
  pose proof (process_audio_body_recognized _ _ trace _ _ _ _ Hrecognized) as Hbody.
  rewrite (respond_handled _ _ _ _ module response w4 w5) in Hbody by assumption.
  rewrite (process_audio_body_returns _ _ _ _ Hbody). reflexivity.
Qed.

(** Dispatch where [get_active_module] finds the module.  Registry dispatch
    returns the response of [handle] exactly when [get_active_module]
    returns a module, it supports the intent and [handle] returns that
    response; it returns nothing when [get_active_module] returns nothing or
    the module does not support the intent.  In a run in which the module
    [get_active_module] returns supports the recognized intent, its response
    is returned and the generator, configured or not, is not called; and a
    run calls the generator only when dispatch has yielded nothing.  A
    module that is active under the empty name is not covered: see
    [dispatch_unnamed_module]. *)
Theorem dispatch_before_fallback this w trace frame transcribed
    (intent_result : IntentResult F) w3 :
  (forall (manager : ModuleManager F World) w0 trace0,
     let '(r, m') := process_with_module intent_result (mkMachine manager w0 trace0) in
     (forall response,
        r = Ok (Some response) <->
        exists module w1,
          get_active_module manager = Some module /\
          supports_intent module (intent intent_result) w0 = (Ok true, w1) /\
          (handle module intent_result w1).1 = Ok response) /\
     (get_active_module manager = None \/
      (exists module, get_active_module manager = Some module /\
                      (supports_intent module (intent intent_result) w0).1 = Ok false) ->
      r = Ok None)) /\
  (recognized this frame w transcribed intent_result w3 ->
   (forall module w4 response w5,
      get_active_module (module_manager this) = Some module ->
      supports_intent module (intent intent_result) w3 = (Ok true, w4) ->
      handle module intent_result w4 = (Ok response, w5) ->
      (process_audio frame (mkMachine this w trace)).1 = Ok (Some response) /\
      Called Generate ∉
        drop (length trace) (events (process_audio frame (mkMachine this w trace)).2)) /\
   (Called Generate ∈
      drop (length trace) (events (process_audio frame (mkMachine this w trace)).2) ->
    exists w4, dispatch_declines this intent_result w3 w4)).
Proof.
  split.
  - intros manager w0 trace0. rewrite process_with_module_outcome.
    destruct (get_active_module manager) as [module|] eqn:Hactive.
    + destruct (supports_intent module (intent intent_result) w0) as [[[|]|e] w1] eqn:Hs.
      * destruct (handle module intent_result w1) as [[response|e] w2] eqn:Hh.
        -- split.
           ++ intros response'. split.
              ** intros Heq. exists module, w1. rewrite Hh. cbn.
                 split; [reflexivity|]. split; [exact Hs | congruence].
              ** intros (module' & w1' & Hm & Hs' & Hh').
                 injection Hm as <-. rewrite Hs in Hs'. injection Hs' as <-.
                 rewrite Hh in Hh'. cbn in Hh'. congruence.
           ++ intros [Hnone|(module' & Hm & Hs')]; [discriminate|].
              injection Hm as <-. rewrite Hs in Hs'. discriminate.
        -- split.
           ++ intros response'. split; [discriminate|].
              intros (module' & w1' & Hm & Hs' & Hh').
              injection Hm as <-. rewrite Hs in Hs'. injection Hs' as <-.
              rewrite Hh in Hh'. discriminate.
           ++ intros [Hnone|(module' & Hm & Hs')]; [discriminate|].
              injection Hm as <-. rewrite Hs in Hs'. discriminate.
      * split; [|reflexivity].
        intros response'. split; [discriminate|].
        intros (module' & w1' & Hm & Hs' & _).
        injection Hm as <-. rewrite Hs in Hs'. discriminate.
      * split.
        -- intros response'. split; [discriminate|].
           intros (module' & w1' & Hm & Hs' & _).
           injection Hm as <-. rewrite Hs in Hs'. discriminate.
        -- intros [Hnone|(module' & Hm & Hs')]; [discriminate|].
           injection Hm as <-. rewrite Hs in Hs'. discriminate.
    + split; [|reflexivity].
      intros response'. split; [discriminate|].
      intros (module' & w1' & Hm & _). discriminate.
  - intros Hrecognized. split.
    + intros module w4 response w5 Hactive Hsupports Hhandle.
      rewrite (process_audio_handled _ _ _ _ _ _ _ _ _ _ _
                 Hrecognized Hactive Hsupports Hhandle).
      split; [reflexivity|]. intros Hin. no_generate Hin.
    + intros Hin. unfold dispatch_declines.
      destruct (get_active_module (module_manager this)) as [module|] eqn:Hactive;
        [|exists w3; reflexivity].
      destruct (supports_intent module (intent intent_result) w3) as [[[|]|e] w4] eqn:Hs.
      * exfalso.
        destruct (handle module intent_result w4) as [[response|e] w5] eqn:Hh.
        -- rewrite (process_audio_handled _ _ _ _ _ _ _ _ _ _ _
                      Hrecognized Hactive Hs Hh) in Hin.
           no_generate Hin.
        -- pose proof (process_audio_body_recognized _ _ trace _ _ _ _ Hrecognized) as Hbody.
           rewrite (respond_handle_raises _ _ _ _ module e w4 w5) in Hbody by assumption.
           destruct (exc_is_Exception e) eqn:Hclass.
           ++ rewrite (process_audio_body_raises _ _ _ _ Hbody Hclass) in Hin.
              no_generate Hin.
           ++ rewrite (process_audio_body_lets_through _ _ _ _ Hbody Hclass) in Hin.
              no_generate Hin.
      * exists w4. reflexivity.
      * exfalso.
        pose proof (process_audio_body_recognized _ _ trace _ _ _ _ Hrecognized) as Hbody.
        rewrite (respond_supports_intent_raises _ _ _ _ module e w4) in Hbody by assumption.
        destruct (exc_is_Exception e) eqn:Hclass.
        -- rewrite (process_audio_body_raises _ _ _ _ Hbody Hclass) in Hin.
           no_generate Hin.
        -- rewrite (process_audio_body_lets_through _ _ _ _ Hbody Hclass) in Hin.
           no_generate Hin.
Qed.

End CoreFacts.

(** C10 at an engine whose [initialize] raises: the call returns false and
    the core is as before. *)
Lemma configuration_catches_initialize_witness :
  (set_activation_engine Scenario.unplugged
     (mkMachine Scenario.hotel_desk 0%nat [])).1 = Ok false /\
  self (set_activation_engine Scenario.unplugged
          (mkMachine Scenario.hotel_desk 0%nat [])).2 = Scenario.hotel_desk.
Proof.
  destruct (configuration_catches_initialize Scenario.hotel_desk 0%nat [])
    as (Hactivation & _).
  specialize (Hactivation Scenario.unplugged Scenario.RuntimeError 1%nat eq_refl eq_refl).
  destruct (set_activation_engine Scenario.unplugged (mkMachine Scenario.hotel_desk 0%nat []))
    as [r m'].
  exact Hactivation.
Defined.

(** C4 at a transcription stage that raises *)
Lemma process_audio_firewall_witness :
  exists m',
    process_audio Scenario.frame
      (mkMachine (Scenario.core_with None (Some Scenario.broken_typist) ModuleManager_init)
                 0%nat []) = (Ok None, m') /\
    one_more_failure (PerformanceMonitor_init 0) (performance_monitor (self m')) /\
    state (self m') = IDLE /\
    exists between, events m' = [] ++ between ++ [Assigned ERROR; Assigned IDLE].
Proof.
  apply (process_audio_firewall
           (Scenario.core_with None (Some Scenario.broken_typist) ModuleManager_init)
           0%nat [] Scenario.frame Scenario.RuntimeError 1%nat).
  - apply (transcribe_raises _ _ _ _ _ Scenario.broken_typist 0%nat); reflexivity.
  - reflexivity.
Defined.

(** C5 at an engine that does not hear the wake word *)
Lemma process_audio_not_detected_witness :
  exists m',
    process_audio Scenario.frame
      (mkMachine (Scenario.core_with (Some Scenario.deaf) (Some Scenario.typist)
                    Scenario.hotel_registry) 0%nat []) = (Ok None, m') /\
    events m' = [Assigned LISTENING; Called Detect; Assigned IDLE] /\
    interaction_count (performance_monitor (self m')) = 0 /\
    error_count (performance_monitor (self m')) = 0.
Proof.
  destruct (process_audio_not_detected
              (Scenario.core_with (Some Scenario.deaf) (Some Scenario.typist)
                 Scenario.hotel_registry)
              0%nat [] Scenario.frame Scenario.deaf 1%nat eq_refl eq_refl)
    as (m' & Hrun & Hevents & _ & _ & Hinteractions & Herrors).
  exists m'. split; [exact Hrun|]. split; [exact Hevents|].
  split; [exact Hinteractions | exact Herrors].
Defined.

(** C6 at a core without a transcription stage, behind an engine that hears
    the wake word *)
Lemma process_audio_no_stt_witness :
  exists m',
    process_audio Scenario.frame
      (mkMachine (Scenario.core_with (Some Scenario.attentive) None Scenario.hotel_registry)
                 0%nat []) = (Ok None, m') /\
    state (self m') = IDLE /\
    one_more_failure (PerformanceMonitor_init 0) (performance_monitor (self m')).
Proof.
  apply (process_audio_no_stt
           (Scenario.core_with (Some Scenario.attentive) None Scenario.hotel_registry)
           0%nat [] Scenario.frame 1%nat); reflexivity.
Defined.

(** At the hotel's desk, where the module is active under the name
    [hotel]: the module's response is returned although a generator is
    configured, and the generator is not called. *)
Lemma dispatch_before_fallback_witness :
  (process_audio Scenario.frame (mkMachine Scenario.hotel_desk 0%nat [])).1
    = Ok (Some Scenario.booked) /\
  Called Generate ∉
    drop (length ([] : list Event))
         (events (process_audio Scenario.frame (mkMachine Scenario.hotel_desk 0%nat [])).2).
Proof.
  destruct (dispatch_before_fallback Scenario.hotel_desk 0%nat [] Scenario.frame
              Scenario.heard (Scenario.some_intent "book_room") 3%nat)
    as (_ & Hrun).
  assert (Hrecognized : recognized Scenario.hotel_desk Scenario.frame 0%nat
                          Scenario.heard (Scenario.some_intent "book_room") 3%nat).
  { exists Scenario.typist, Scenario.keywords, 1%nat, 2%nat. repeat split. }
  destruct (Hrun Hrecognized) as (Hhandled & _).
  apply (Hhandled Scenario.concierge 4%nat Scenario.booked 5%nat); reflexivity.
Defined.

(** C7, at a concrete core.  The hotel's module is registered and switched
    to under the empty name: the switch has succeeded, the pointer is set
    and names the module, the module supports the recognized intent
    [book_room] and would answer it, and a generator is configured as well.
    Yet dispatch returns nothing, and the run returns the response of the
    generator and not the module's: the module is neither asked whether it
    supports the intent nor called to handle it. *)
Lemma dispatch_unnamed_module :
  (switch_module "" (register_module "" Scenario.concierge Scenario.fresh_registry).2).1
    = Ok true /\
  get_active_module_name (module_manager Scenario.unnamed_desk) = Some EmptyString /\
  modules (module_manager Scenario.unnamed_desk) !! "" = Some Scenario.concierge /\
  (forall w, (supports_intent Scenario.concierge "book_room" w).1 = Ok true) /\
  (forall w, (handle Scenario.concierge (Scenario.some_intent "book_room") w).1
             = Ok Scenario.booked) /\
  response_generator Scenario.unnamed_desk = Some Scenario.small_talk /\
  (process_with_module (Scenario.some_intent "book_room")
     (mkMachine (module_manager Scenario.unnamed_desk) 3%nat [])).1 = Ok None /\
  let run := process_audio Scenario.frame (mkMachine Scenario.unnamed_desk 0%nat []) in
  run.1 = Ok (Some Scenario.apology) /\
  events run.2 =
    [Assigned LISTENING; Called Detect; Assigned PROCESSING; Called Transcribe;
     Called Recognize; Assigned RESPONDING; Called Generate; Assigned IDLE].
Proof.
  split; [vm_compute; reflexivity|].
  split; [reflexivity|].
  split; [vm_compute; reflexivity|].
  split; [intros w; reflexivity|].
  split; [intros w; reflexivity|].
  split; [reflexivity|].
  split; [vm_compute; reflexivity|].
  cbn zeta. split; vm_compute; reflexivity.
Qed.

(** ** Sessions the pipeline produces *)

Section ReachedSessions.
Context {F T : Type} `{PyArith F} `{PyClock F T}.

(** The two averages the report tests are those of the histories of the two
    confidences. *)
Lemma low_mean_history (self : PerformanceMonitor F T) (threshold : F) :
  low_mean "intent_recognizer.confidence" threshold self =
    match get_metric_history self "intent_recognizer" "confidence" with
    | [] => false
    | values => float_ltb (mean values) threshold
    end /\
  low_mean "stt.confidence" threshold self =
    match get_metric_history self "stt" "confidence" with
    | [] => false
    | values => float_ltb (mean values) threshold
    end.
Proof.
  unfold low_mean. split.
  - rewrite <- (values_of_history self "intent_recognizer" "confidence") by reflexivity.
    reflexivity.
  - rewrite <- (values_of_history self "stt" "confidence") by reflexivity.
    reflexivity.
Qed.

End ReachedSessions.

(** A run on a core without a transcription stage leaves the monitor of
    [failed_session]: one failed interaction and an empty log. *)
Lemma failed_session_reached :
  performance_monitor
    (self (process_audio Scenario.frame
             (mkMachine (ReceptionistCore_init 0 : ReceptionistCore float Z nat) 0%nat [])).2)
  = Scenario.failed_session.
Proof. reflexivity. Qed.

(** * Further properties *)

(** ** The monitor's log and counters *)

Section MonitorLog.
Context {F T : Type} `{PyArith F} `{PyClock F T}.

Lemma monitor_calls_counters (calls : list (@MonitorCall F T)) (self : PerformanceMonitor F T) :
  interaction_count (fold_left monitor_call calls self) =
    interactions_since_reset calls (interaction_count self) /\
  error_count (fold_left monitor_call calls self) =
    failures_since_reset calls (error_count self).
Proof.
  revert self. induction calls as [|[component name v|success|now] rest IH]; intros self.
  - split; reflexivity.
  - apply (IH (record_metric self component name v)).
  - destruct (IH (record_interaction self success)) as [Hi He]. cbn.
    rewrite Hi, He. cbn. destruct success; split; reflexivity.
  - apply (IH (reset_session self now)).
Qed.

Lemma since_reset_consistent (calls : list (@MonitorCall F T)) (failures interactions : Z) :
  0 <= failures <= interactions ->
  0 <= failures_since_reset calls failures <= interactions_since_reset calls interactions.
Proof.
  revert failures interactions.
  induction calls as [|[component name v|success|now] rest IH];
    intros failures interactions Hle; cbn.
  - exact Hle.
  - apply IH, Hle.
  - apply IH. destruct success; lia.
  - apply IH. lia.
Qed.

(** After any sequence of [record_metric], [record_interaction] and
    [reset_session] calls on a fresh monitor, the interaction counter is the
    number of interactions recorded since the last reset, the error counter
    is the number of failed ones among them, and so there are never more
    errors than interactions. *)
Theorem monitor_counters_count (calls : list (@MonitorCall F T)) (start : T) :
  let self := fold_left monitor_call calls (PerformanceMonitor_init start) in
  interaction_count self = interactions_since_reset calls 0 /\
  error_count self = failures_since_reset calls 0 /\
  counters_consistent self.
Proof.
  cbn zeta.
  destruct (monitor_calls_counters calls (PerformanceMonitor_init start)) as [Hi He].
  split; [exact Hi|]. split; [exact He|].
  unfold counters_consistent. rewrite Hi, He.
  apply since_reset_consistent. cbn. lia.
Qed.

(** [record_metric] appends the value to the history of its own metric and
    leaves every other history as it was; a fresh monitor and a monitor
    after [reset_session] have no history. *)
Theorem get_metric_history_record_metric (self : PerformanceMonitor F T)
    (component name component' name' : string) (v : F) (now : T) :
  get_metric_history (record_metric self component name v) component' name' =
    (if String.eqb component component' && String.eqb name name'
     then get_metric_history self component' name' ++ [v]
     else get_metric_history self component' name') /\
  get_metric_history (PerformanceMonitor_init now : PerformanceMonitor F T) component' name' = [] /\
  get_metric_history (reset_session self now) component' name' = [].
Proof.
  split; [|split; reflexivity].
  unfold get_metric_history, record_metric. cbn.
  rewrite filter_app, map_app. cbn.
  destruct (String.eqb component component' && String.eqb name name') eqn:Hsame.
  - rewrite decide_True by reflexivity. reflexivity.
  - rewrite decide_False by discriminate. cbn. rewrite app_nil_r. reflexivity.
Qed.

Lemma summary_append_keys (k : string) (v : F) (summary : list (string * list F)) :
  map fst (summary_append k v summary) =
  if decide (k ∈ map fst summary) then map fst summary else map fst summary ++ [k].
Proof.
  induction summary as [|[k' values] rest IH]; cbn.
  - rewrite decide_False; [reflexivity|]. apply not_elem_of_nil.
  - destruct (String.eqb_spec k' k) as [->|Hne]; cbn.
    + rewrite decide_True by apply list_elem_of_here. reflexivity.
    + rewrite IH. destruct (decide (k ∈ map fst rest)) as [Hin|Hout].
      * rewrite decide_True by (apply list_elem_of_further, Hin). reflexivity.
      * rewrite decide_False; [reflexivity|].
        intros Hin. apply elem_of_cons in Hin as [->|Hin]; [congruence | contradiction].
Qed.

Lemma summary_append_sizes (k : string) (v : F) (summary : list (string * list F)) :
  sum_list (map (fun group => length group.2) (summary_append k v summary)) =
  S (sum_list (map (fun group => length group.2) summary)).
Proof.
  induction summary as [|[k' values] rest IH]; cbn.
  - reflexivity.
  - destruct (String.eqb k' k); cbn.
    + rewrite length_app. cbn. lia.
    + rewrite IH. lia.
Qed.

Lemma dict_lookup_elem_of {V : Type} (key : string) (v : V) (d : list (string * V)) :
  NoDup (map fst d) ->
  (dict_lookup key d = Some v <-> (key, v) ∈ d).
Proof.
  induction d as [|[k x] rest IH]; cbn; intros Hnodup.
  - split; [discriminate|]. intros Hin. apply elem_of_nil in Hin. destruct Hin.
  - apply NoDup_cons in Hnodup as [Hfresh Hnodup].
    destruct (String.eqb_spec k key) as [->|Hne].
    + split.
      * intros [= ->]. apply list_elem_of_here.
      * intros Hin. apply elem_of_cons in Hin as [[= ->]|Hin]; [reflexivity|].
        exfalso. apply Hfresh. apply list_elem_of_fmap. exists (key, v). split; [reflexivity|exact Hin].
    + rewrite (IH Hnodup). split.
      * intros Hin. apply list_elem_of_further, Hin.
      * intros Hin. apply elem_of_cons in Hin as [[= -> ->]|Hin]; [congruence | exact Hin].
Qed.

(** The grouping loop of [get_metrics_summary] partitions the log: no key
    occurs twice, the groups together hold as many values as the log has
    metrics, and the group of a key holds the values logged under that key,
    in the order of the log, and is never empty. *)
Theorem group_values_partition (log : list (PerformanceMetric F)) :
  NoDup (map fst (group_values log)) /\
  sum_list (map (fun group => length group.2) (group_values log)) = length log /\
  forall key values,
    (key, values) ∈ group_values log <-> values = values_of key log /\ values <> [].
Proof.
  assert (Hfold : forall acc,
    NoDup (map fst acc) ->
    let grouped :=
      fold_left (fun summary metric =>
                   summary_append (metric_key metric) (value metric) summary) log acc in
    NoDup (map fst grouped) /\
    sum_list (map (fun group => length group.2) grouped) =
      (sum_list (map (fun group => length group.2) acc) + length log)%nat).
  { induction log as [|m log IH]; intros acc Hnodup; cbn.
    - split; [exact Hnodup | lia].
    - destruct (IH (summary_append (metric_key m) (value m) acc)) as [Hkeys Hsizes].
      + rewrite summary_append_keys.
        destruct (decide (metric_key m ∈ map fst acc)) as [Hin|Hout]; [exact Hnodup|].
        apply NoDup_app. split; [exact Hnodup|]. split.
        * intros x Hx Hx'. apply list_elem_of_singleton in Hx'. subst x. contradiction.
        * apply NoDup_singleton.
      + split; [exact Hkeys|]. cbn in Hsizes. rewrite Hsizes, summary_append_sizes. lia. }
  assert (Hkeys : NoDup (map fst (group_values log)))
    by exact (proj1 (Hfold [] (NoDup_nil_2))).
  split; [exact Hkeys|]. split; [exact (proj2 (Hfold [] (NoDup_nil_2)))|].
  intros key values. rewrite <- (dict_lookup_elem_of key values _ Hkeys).
  rewrite dict_lookup_group_values.
  destruct (values_of key log) as [|v rest]; split.
  - discriminate.
  - intros [-> Hne]. congruence.
  - intros [= <-]. split; [reflexivity | discriminate].
  - intros [-> _]. reflexivity.
Qed.

Lemma fold_left_choice_elem_of (choose : F -> F -> bool) (rest : list F) (v : F) :
  fold_left (fun best item => if choose best item then item else best) rest v ∈ v :: rest.
Proof.
  revert v. induction rest as [|x rest IH]; intros v; cbn.
  - apply list_elem_of_here.
  - destruct (choose v x).
    + apply list_elem_of_further, IH.
    + specialize (IH v). apply elem_of_cons in IH as [->|Hin].
      * apply list_elem_of_here.
      * apply list_elem_of_further, list_elem_of_further, Hin.
Qed.

(** The summary of a non-empty log counts every metric, and its statistics
    have an entry for a key exactly when a metric was logged under it; the
    entry holds the number of those values, their mean and their sum, and as
    minimum and maximum two of the values themselves. *)
Theorem get_metrics_summary_statistics (self : PerformanceMonitor F T) (now : T) :
  metrics self <> [] ->
  exists summary statistics,
    get_metrics_summary self now = Ok summary /\
    dict_lookup "total_metrics" summary = Some (VInt (Z.of_nat (length (metrics self)))) /\
    dict_lookup "statistics" summary = Some (VDict statistics) /\
    forall key,
      match values_of key (metrics self) with
      | [] => dict_lookup key statistics = None
      | values =>
          exists lowest highest,
            lowest ∈ values /\ highest ∈ values /\
            dict_lookup key statistics =
            Some (VDict [("count", VInt (Z.of_nat (length values)));
                         ("average", VFloat (mean values));
                         ("min", VFloat lowest);
                         ("max", VFloat highest);
                         ("total", VFloat (float_sum values))])
      end.
Proof.
  intros Hlog.
  destruct (get_metrics_summary_inhabited_log self now Hlog) as (statistics & Hstat & Heq).
  eexists _, statistics. split; [exact Heq|]. split; [reflexivity|]. split; [reflexivity|].
  intros key.
  destruct (compute_statistics_inhabited _ (group_values_inhabited (metrics self)))
    as (statistics' & Hstat' & Hlookup).
  rewrite Hstat in Hstat'. injection Hstat' as <-.
  specialize (Hlookup key). rewrite dict_lookup_group_values in Hlookup.
  destruct (values_of key (metrics self)) as [|v rest]; [exact Hlookup|].
  destruct Hlookup as (entry & Hentry & Hfound).
  unfold value_statistics in Hentry. cbn in Hentry. injection Hentry as <-.
  eexists _, _. split; [|split; [|exact Hfound]].
  - apply (fold_left_choice_elem_of (fun best item => float_ltb item best)).
  - apply (fold_left_choice_elem_of (fun best item => float_ltb best item)).
Qed.

Lemma last_ten_suffix {A : Type} (l : list A) :
  length (last_ten l) = Nat.min 10 (length l) /\
  exists older, l = older ++ last_ten l.
Proof.
  unfold last_ten. split.
  - rewrite length_drop. lia.
  - exists (take (length l - 10) l). symmetry. apply take_drop.
Qed.

(** The summary of a non-empty log carries as recent metrics the last ten
    entries of the log, or all of them when there are fewer, oldest first. *)
Theorem get_metrics_summary_recent (self : PerformanceMonitor F T) (now : T) :
  metrics self <> [] ->
  exists summary recent older,
    get_metrics_summary self now = Ok summary /\
    dict_lookup "recent_metrics" summary = Some (VList (map asdict recent)) /\
    metrics self = older ++ recent /\
    length recent = Nat.min 10 (length (metrics self)).
Proof.
  intros Hlog.
  destruct (get_metrics_summary_inhabited_log self now Hlog) as (statistics & _ & Heq).
  destruct (last_ten_suffix (metrics self)) as (Hlength & older & Holder).
  eexists _, (last_ten (metrics self)), older.
  split; [exact Heq|]. split; [reflexivity|]. split; [exact Holder | exact Hlength].
Qed.

(** The feedback report never faults, and it always recommends something:
    one to three of the warnings, or the message of good performance
    alone. *)
Theorem get_feedback_report_returns (self : PerformanceMonitor F T) (now later : T) :
  exists report recommendations,
    get_feedback_report self now later = Ok report /\
    dict_lookup "recommendations" report = Some (VList (map VStr recommendations)) /\
    recommendations <> [] /\
    (good_performance_message ∈ recommendations ->
     recommendations = [good_performance_message]) /\
    forall message, message ∈ recommendations ->
      message ∈ [high_error_rate_message; low_intent_confidence_message;
                 low_stt_confidence_message; good_performance_message].
Proof.
  assert (Hshape : forall high low_intent low_stt,
    let recommendations := expected_recommendations high low_intent low_stt in
    recommendations <> [] /\
    (good_performance_message ∈ recommendations ->
     recommendations = [good_performance_message]) /\
    forall message, message ∈ recommendations ->
      message ∈ [high_error_rate_message; low_intent_confidence_message;
                 low_stt_confidence_message; good_performance_message]).
  { intros [|] [|] [|]; cbn; (split; [discriminate|]); split;
      try (intros _; reflexivity);
      try (intros Hin;
           repeat (apply elem_of_cons in Hin as [Hin|Hin]; [discriminate Hin|]);
           apply elem_of_nil in Hin; destruct Hin);
      intros message Hin;
      repeat (apply elem_of_cons in Hin as [->|Hin]; [solve [repeat constructor]|]);
      apply elem_of_nil in Hin; destruct Hin. }
  destruct (metrics self) as [|m log] eqn:Hlog.
  - destruct (get_metrics_summary_returns self now) as (summary & Hsummary).
    unfold get_feedback_report. rewrite Hsummary. cbn -[recommendations_of].
    pose proof (low_average_empty_log self now summary "intent_recognizer.confidence"
                  lit_0_7 Hlog Hsummary) as Hintent.
    pose proof (low_average_empty_log self now summary "stt.confidence" lit_0_8
                  Hlog Hsummary) as Hstt.
    rewrite (get_metrics_summary_empty_log self now Hlog) in Hsummary.
    injection Hsummary as <-.
    erewrite recommendations_of_tests; [| reflexivity | exact Hintent | exact Hstt].
    cbn. eexists _, _. split; [reflexivity|]. split; [reflexivity|]. apply Hshape.
  - assert (Hne : metrics self <> []) by (rewrite Hlog; discriminate).
    destruct (get_feedback_report_inhabited_log self now later Hne) as (report & Hrun & Hrecs).
    eexists report, _. split; [exact Hrun|]. split; [exact Hrecs|]. apply Hshape.
Qed.

(** On a non-empty log the report carries each warning exactly when its
    threshold trips: the error rate of the session is above 0.1, the mean of
    the recorded intent confidences is below 0.7, the mean of the recorded
    transcription confidences is below 0.8; and it carries the message of
    good performance alone exactly when none trips. *)
Theorem get_feedback_report_thresholds (self : PerformanceMonitor F T) (now later : T) :
  metrics self <> [] ->
  exists report recommendations,
    get_feedback_report self now later = Ok report /\
    dict_lookup "recommendations" report = Some (VList (map VStr recommendations)) /\
    (high_error_rate_message ∈ recommendations <-> high_error_rate self = true) /\
    (low_intent_confidence_message ∈ recommendations <->
       exists values,
         get_metric_history self "intent_recognizer" "confidence" = values /\
         values <> [] /\ float_ltb (mean values) lit_0_7 = true) /\
    (low_stt_confidence_message ∈ recommendations <->
       exists values,
         get_metric_history self "stt" "confidence" = values /\
         values <> [] /\ float_ltb (mean values) lit_0_8 = true) /\
    (recommendations = [good_performance_message] <->
       high_error_rate self = false /\
       low_mean "intent_recognizer.confidence" lit_0_7 self = false /\
       low_mean "stt.confidence" lit_0_8 self = false).
Proof.
  intros Hlog.
  destruct (get_feedback_report_inhabited_log self now later Hlog) as (report & Hrun & Hrecs).
  eexists report, _. split; [exact Hrun|]. split; [exact Hrecs|].
  destruct (expected_recommendations_spec
              (high_error_rate self)
              (low_mean "intent_recognizer.confidence" lit_0_7 self)
              (low_mean "stt.confidence" lit_0_8 self))
    as (Hhigh & Hintent & Hstt & Hgood).
  destruct (low_mean_history self lit_0_7) as [Hi _].
  destruct (low_mean_history self lit_0_8) as [_ Hs].
  split; [exact Hhigh|]. split; [|split; [|exact Hgood]].
  - rewrite Hintent, Hi.
    destruct (get_metric_history self "intent_recognizer" "confidence") as [|v rest]; split.
    + discriminate.
    + intros (values & <- & Hne & _). congruence.
    + intros Hlow. eexists. split; [reflexivity|]. split; [discriminate | exact Hlow].
    + intros (values & <- & _ & Hlow). exact Hlow.
  - rewrite Hstt, Hs.
    destruct (get_metric_history self "stt" "confidence") as [|v rest]; split.
    + discriminate.
    + intros (values & <- & Hne & _). congruence.
    + intros Hlow. eexists. split; [reflexivity|]. split; [discriminate | exact Hlow].
    + intros (values & <- & _ & Hlow). exact Hlow.
Qed.

End MonitorLog.

(** ** The registry's life cycle and queries *)

Section RegistryLifecycle.
Context {F World : Type}.

Implicit Types (manager : ModuleManager F World) (w : World) (trace : list Event).

Lemma cleanup_modules_outcome (items : list (string * DomainModule F World)) manager w trace :
  let '(r, m') := cleanup_modules items (mkMachine manager w trace) in
  self m' = manager /\
  (r = Ok tt -> events m' = trace ++ cleanup_calls items) /\
  (forall e, r = Raise e -> exc_is_Exception e = false) /\
  ((forall name module w0 e,
      (name, module) ∈ items -> (module_cleanup module w0).1 = Raise e ->
      exc_is_Exception e = true) ->
   r = Ok tt).
Proof.
  revert w trace. induction items as [|[name module] rest IH]; intros w trace.
  - cbn. split; [reflexivity|]. split; [intros _; rewrite app_nil_r; reflexivity|].
    split; [discriminate | reflexivity].
  - cbn. run_eff.
    destruct (module_cleanup module w) as [[[]|e] w1] eqn:Hcleanup; cbn.
    + specialize (IH w1 (trace ++ [Called (Cleanup (Domain name))])).
      destruct (cleanup_modules rest _) as [r m'].
      destruct IH as (Hself & Hevents & Hclass & Hall).
      split; [exact Hself|]. split; [|split; [exact Hclass|]].
      * intros Hr. rewrite (Hevents Hr), <- app_assoc. reflexivity.
      * intros Hcaught. apply Hall. intros name' module' w0 e Hin.
        apply (Hcaught name' module' w0 e). apply list_elem_of_further, Hin.
    + destruct (exc_is_Exception e) eqn:Hexc; cbn.
      * specialize (IH w1 (trace ++ [Called (Cleanup (Domain name))])).
        destruct (cleanup_modules rest _) as [r m'].
        destruct IH as (Hself & Hevents & Hclass & Hall).
        split; [exact Hself|]. split; [|split; [exact Hclass|]].
        -- intros Hr. rewrite (Hevents Hr), <- app_assoc. reflexivity.
        -- intros Hcaught. apply Hall. intros name' module' w0 e' Hin.
           apply (Hcaught name' module' w0 e'). apply list_elem_of_further, Hin.
      * split; [reflexivity|]. split; [discriminate|]. split.
        -- intros e' [= <-]. exact Hexc.
        -- intros Hcaught. exfalso.
           specialize (Hcaught name module w e (list_elem_of_here _ _)).
           rewrite Hcleanup in Hcaught. specialize (Hcaught eq_refl). congruence.
Qed.

Lemma cleanup_all_cases (manager : ModuleManager F World) w trace :
  let '(r, m') := cleanup_all (mkMachine manager w trace) in
  ((r = Ok tt /\ self m' = ModuleManager_init) \/
   (exists e, r = Raise e /\ exc_is_Exception e = false /\ self m' = manager)) /\
  (r = Ok tt -> events m' = trace ++ cleanup_calls (modules manager)) /\
  ((forall name module w0 e,
      (name, module) ∈ modules manager -> (module_cleanup module w0).1 = Raise e ->
      exc_is_Exception e = true) ->
   r = Ok tt).
Proof.
  unfold cleanup_all. run_eff.
  pose proof (cleanup_modules_outcome (modules manager) manager w trace) as Hloop.
  destruct (cleanup_modules (modules manager) (mkMachine manager w trace))
    as [[[]|e] m1]; cbn; destruct Hloop as (Hself & Hevents & Hclass & Hall).
  - split; [left; split; reflexivity|]. split; [exact Hevents | reflexivity].
  - split; [right; exists e; repeat split; [apply Hclass; reflexivity | exact Hself]|].
    split; [discriminate | exact Hall].
Qed.

(** What a successful [register_module] does to the order of the items: a
    new name goes last, a name that is registered keeps its place, and no
    name comes to be listed twice. *)
Lemma register_module_order manager w trace (name : string)
    (module : DomainModule F World) w' :
  module_initialize module w = (Ok true, w') ->
  let registered := modules (self (register_module name module (mkMachine manager w trace)).2) in
  (modules manager !! name = None -> registered = modules manager ++ [(name, module)]) /\
  (is_Some (modules manager !! name) -> map fst registered = map fst (modules manager)) /\
  (NoDup (map fst (modules manager)) -> NoDup (map fst registered)).
Proof.
  intros Hinit. cbn zeta. rewrite register_module_outcome, Hinit. cbn.
  split; [apply pydict_insert_fresh|]. split; [apply pydict_insert_keys|].
  apply pydict_insert_NoDup.
Qed.

(** [cleanup_all] calls the [cleanup] of the registered modules one after
    the other in the order of [self.modules.items()], going on past a module
    whose [cleanup] raises an [Exception], and then empties the registry and
    unsets the pointer, so that no name is registered and no module is
    active.  It lets out only an exception that is not an [Exception], and
    then the registry is as it was.  When no [cleanup] raises such an
    exception, [cleanup_all] returns.  The order of the items is the order
    of first registration: a successful [register_module] puts a new name
    last and leaves a registered name in its place, and it never makes a
    name occur twice; so a module registered under a new name is the last
    one to be cleaned up. *)
Theorem cleanup_all_outcome manager w trace :
  (let '(r, m') := cleanup_all (mkMachine manager w trace) in
   (r = Ok tt ->
      self m' = ModuleManager_init /\
      events m' = trace ++ cleanup_calls (modules manager) /\
      (forall name, has_module (self m') name = false) /\
      get_active_module (self m') = None) /\
   (forall e, r = Raise e -> exc_is_Exception e = false /\ self m' = manager) /\
   ((forall name module w0 e,
       (name, module) ∈ modules manager -> (module_cleanup module w0).1 = Raise e ->
       exc_is_Exception e = true) ->
    r = Ok tt)) /\
  (forall (name : string) (module : DomainModule F World) w',
     module_initialize module w = (Ok true, w') ->
     let m1 := (register_module name module (mkMachine manager w trace)).2 in
     (modules manager !! name = None ->
        modules (self m1) = modules manager ++ [(name, module)] /\
        forall m2, cleanup_all m1 = (Ok tt, m2) ->
          events m2 = trace ++ [Called (Initialize (Domain name))] ++
                      cleanup_calls (modules manager) ++ [Called (Cleanup (Domain name))]) /\
     (is_Some (modules manager !! name) ->
        map fst (modules (self m1)) = map fst (modules manager)) /\
     (NoDup (map fst (modules manager)) -> NoDup (map fst (modules (self m1))))).
Proof.
  split.
  - unfold cleanup_all. run_eff.
    pose proof (cleanup_modules_outcome (modules manager) manager w trace) as Hloop.
    destruct (cleanup_modules (modules manager) (mkMachine manager w trace))
      as [[[]|e] m1]; cbn; destruct Hloop as (Hself & Hevents & Hclass & Hall).
    + split; [|split; [discriminate | reflexivity]].
      intros _. split; [reflexivity|]. split; [apply Hevents; reflexivity|].
      split; [|reflexivity].
      intros name. unfold has_module. cbn. rewrite pydict_lookup_nil.
      apply bool_decide_eq_false. intros [x Hx]. discriminate.
    + split; [discriminate|]. split; [|exact Hall].
      intros e' [= <-]. split; [apply Hclass; reflexivity | exact Hself].
  - intros name module w' Hinit. cbn zeta.
    pose proof (register_module_order manager w trace name module w' Hinit)
      as (Hfresh & Hkept & Hunique).
    cbn zeta in Hfresh, Hkept, Hunique.
    split; [|split; [exact Hkept | exact Hunique]].
    intros Hnew. split; [exact (Hfresh Hnew)|].
    intros m2 Hrun.
    pose proof (Hfresh Hnew) as Hitems.
    rewrite register_module_outcome, Hinit in Hrun, Hitems. cbn in Hrun, Hitems.
    match type of Hrun with
    | cleanup_all (mkMachine ?manager1 _ ?trace1) = _ =>
        pose proof (cleanup_all_cases manager1 w' trace1) as Hcases
    end.
    rewrite Hrun in Hcases. destruct Hcases as (_ & Hevents & _).
    rewrite (Hevents eq_refl). cbn [modules]. rewrite Hitems.
    unfold cleanup_calls. rewrite map_app, <- app_assoc. reflexivity.
Qed.

(** A second [cleanup_all] after one that returned calls nothing and
    changes nothing: the registry stays empty. *)
Theorem cleanup_all_twice (m m1 : Machine World (ModuleManager F World)) :
  cleanup_all m = (Ok tt, m1) ->
  cleanup_all m1 = (Ok tt, m1) /\ self m1 = ModuleManager_init.
Proof.
  destruct m as [manager w trace]. intros Hrun.
  pose proof (cleanup_all_cases manager w trace) as Hfirst.
  rewrite Hrun in Hfirst.
  destruct Hfirst as ([(_ & Hself)|(e & Hraise & _)] & _); [|discriminate Hraise].
  destruct m1 as [manager1 w1 trace1]. cbn in Hself. subst manager1.
  split; [|reflexivity].
  reflexivity.
Qed.

(** A module registered under a non-empty name is the one dispatch uses once
    that name is switched to; and registering a module under the name that
    is already active replaces the module dispatch uses, without a switch. *)
Theorem register_module_then_dispatch manager w trace (name : string)
    (module : DomainModule F World) w' :
  name <> EmptyString ->
  module_initialize module w = (Ok true, w') ->
  let m1 := (register_module name module (mkMachine manager w trace)).2 in
  has_module (self m1) name = true /\
  (switch_module name m1).1 = Ok true /\
  get_active_module (self (switch_module name m1).2) = Some module /\
  (active_module manager = Some name -> get_active_module (self m1) = Some module).
Proof.
  intros Hname Hinit. cbn zeta.
  rewrite register_module_outcome, Hinit. cbn.
  rewrite switch_module_outcome. cbn. rewrite pydict_lookup_insert_eq. cbn.
  unfold has_module, get_active_module, truthy. cbn. rewrite !pydict_lookup_insert_eq.
  destruct (String.eqb_spec name EmptyString) as [->|_]; [congruence|]. cbn.
  split; [reflexivity|]. split; [reflexivity|]. split; [reflexivity|].
  intros ->.
  destruct (String.eqb_spec name EmptyString) as [->|_]; [congruence|]. cbn.
  apply pydict_lookup_insert_eq.
Qed.




End RegistryLifecycle.

(** ** Runs of the pipeline *)

Section PipelineRuns.
Context {F T World : Type} `{PyArith F} `{PyClock F T}.

Implicit Types (this : ReceptionistCore F T World) (w : World) (trace : list Event).
Implicit Types (frame : AudioFrame) (e : PyExc).

Lemma run_effect_trans this middle after logged logged' i i' f f' :
  run_effect this middle logged i f ->
  run_effect middle after logged' i' f' ->
  run_effect this after (logged ++ logged') (i + i') (f + f').
Proof.
  unfold run_effect, same_configuration.
  intros ((A1 & A2 & A3 & A4 & A5 & A6) & B & C & D & E)
         ((A1' & A2' & A3' & A4' & A5' & A6') & B' & C' & D' & E').
  repeat split; try congruence.
  - rewrite C', C, app_assoc. reflexivity.
  - rewrite D', D. lia.
  - rewrite E', E. lia.
Qed.

Ltac close_confidence :=
  repeat (constructor; [split; [cbn; auto | reflexivity]|]); constructor.

Ltac close_effect :=
  unfold run_effect, same_configuration; cbn;
  repeat split; rewrite ?app_nil_r, ?Z.add_0_r, <- ?app_assoc; reflexivity.

(** What response generation leaves of the core *)
Lemma respond_effect this w trace (intent_result : IntentResult F) :
  let '(r, m') := respond intent_result (mkMachine this w trace) in
  (exists response, r = Ok (Some response) /\ run_effect this (self m') [] 1 0) \/
  (r = Ok None /\ run_effect this (self m') [] 1 1) \/
  (exists e, r = Raise e /\ run_effect this (self m') [] 0 0).
Proof.
  unfold respond, set_state, monitor_record_interaction, process_with_module. run_eff.
  destruct (get_active_module (module_manager this)) as [module|]; cbn.
  - destruct (supports_intent module (intent intent_result) w) as [[[|]|e] w1]; cbn.
    + destruct (handle module intent_result w1) as [[response|e] w2]; cbn.
      * left. eexists. split; [reflexivity | close_effect].
      * right. right. eexists. split; [reflexivity | close_effect].
    + destruct (response_generator this) as [generator|]; cbn.
      * destruct (generate generator intent_result w1) as [[response|e] w2]; cbn.
        -- left. eexists. split; [reflexivity | close_effect].
        -- right. right. eexists. split; [reflexivity | close_effect].
      * right. left. split; [reflexivity | close_effect].
    + right. right. eexists. split; [reflexivity | close_effect].
  - destruct (response_generator this) as [generator|]; cbn.
    + destruct (generate generator intent_result w) as [[response|e] w2]; cbn.
      * left. eexists. split; [reflexivity | close_effect].
      * right. right. eexists. split; [reflexivity | close_effect].
    + right. left. split; [reflexivity | close_effect].
Qed.

Lemma transcribe_and_recognize_effect this w trace frame :
  let '(r, m') := transcribe_and_recognize frame (mkMachine this w trace) in
  body_outcome this r (self m').
Proof.
  unfold transcribe_and_recognize, set_state, monitor_record_metric,
    monitor_record_interaction. run_eff.
  destruct (stt_processor this) as [processor|]; cbn.
  - destruct (transcribe processor (data frame) (sample_rate frame) w)
      as [[transcribed|e] w1]; cbn.
    + destruct (intent_recognizer this) as [recognizer|]; cbn.
      * destruct (recognize recognizer (text transcribed) w1) as [[intent_result|e] w2]; cbn.
        -- match goal with
           | |- context [respond intent_result (mkMachine ?c ?w0 ?t)] =>
               pose proof (respond_effect c w0 t intent_result) as Hrespond;
               destruct (respond intent_result (mkMachine c w0 t)) as [r m'];
               assert (Hbefore : run_effect this c
                         [mkPerformanceMetric "stt" "confidence" (stt_confidence transcribed);
                          mkPerformanceMetric "intent_recognizer" "confidence"
                            (intent_confidence intent_result)] 0 0)
                 by close_effect
           end.
           exists [mkPerformanceMetric "stt" "confidence" (stt_confidence transcribed);
                   mkPerformanceMetric "intent_recognizer" "confidence"
                     (intent_confidence intent_result)].
           split; [cbn; lia|]. split; [close_confidence|].
           destruct Hrespond as [(response & -> & Hafter)|[(-> & Hafter)|(e & -> & Hafter)]];
             pose proof (run_effect_trans _ _ _ _ _ _ _ _ _ Hbefore Hafter) as Hrun;
             rewrite app_nil_r in Hrun; cbn in Hrun.
           ++ left. eexists. split; [reflexivity|]. split; [reflexivity | exact Hrun].
           ++ right. left. split; [reflexivity | exact Hrun].
           ++ right. right. right. eexists. split; [reflexivity | exact Hrun].
        -- exists [mkPerformanceMetric "stt" "confidence" (stt_confidence transcribed)].
           split; [cbn; lia|]. split; [close_confidence|].
           right. right. right. eexists. split; [reflexivity | close_effect].
      * exists [mkPerformanceMetric "stt" "confidence" (stt_confidence transcribed)].
        split; [cbn; lia|]. split; [close_confidence|].
        right. left. split; [reflexivity | close_effect].
    + exists []. split; [cbn; lia|]. split; [constructor|].
      right. right. right. eexists. split; [reflexivity | close_effect].
  - exists []. split; [cbn; lia|]. split; [constructor|].
    right. left. split; [reflexivity | close_effect].
Qed.

Lemma body_outcome_after this middle (r : result (option DialogueResponse))
    (after : ReceptionistCore F T World) :
  run_effect this middle [] 0 0 ->
  body_outcome middle r after ->
  body_outcome this r after.
Proof.
  intros Hbefore (logged & Hlength & Hconfidence & Hcases).
  exists logged. split; [exact Hlength|]. split; [exact Hconfidence|].
  destruct Hcases as [(response & Hr & Hl & Hafter)
                     |[(Hr & Hafter)|[(Hr & Hl & Hafter)|(e & Hr & Hafter)]]];
    pose proof (run_effect_trans _ _ _ _ _ _ _ _ _ Hbefore Hafter) as Hrun; cbn in Hrun.
  - left. exists response. split; [exact Hr|]. split; [exact Hl | exact Hrun].
  - right. left. split; [exact Hr | exact Hrun].
  - right. right. left. split; [exact Hr|]. split; [exact Hl | exact Hrun].
  - right. right. right. exists e. split; [exact Hr | exact Hrun].
Qed.

Lemma process_audio_body_effect this w trace frame :
  let '(r, m') := process_audio_body frame (mkMachine this w trace) in
  body_outcome this r (self m').
Proof.
  assert (Hlistening : run_effect this (with_state LISTENING this) [] 0 0) by close_effect.
  unfold process_audio_body, set_state. run_eff.
  destruct (activation_engine this) as [engine|]; cbn.
  - destruct (detect engine frame w) as [[[|]|e] w1]; cbn.
    + pose proof (transcribe_and_recognize_effect (with_state LISTENING this) w1
                    ((trace ++ [Assigned LISTENING]) ++ [Called Detect]) frame) as Hrest.
      destruct (transcribe_and_recognize frame _) as [r m'].
      apply (body_outcome_after _ _ _ _ Hlistening Hrest).
    + exists []. split; [cbn; lia|]. split; [constructor|].
      right. right. left. split; [reflexivity|]. split; [reflexivity | close_effect].
    + exists []. split; [cbn; lia|]. split; [constructor|].
      right. right. right. eexists. split; [reflexivity | close_effect].
  - pose proof (transcribe_and_recognize_effect (with_state LISTENING this) w
                  (trace ++ [Assigned LISTENING]) frame) as Hrest.
    destruct (transcribe_and_recognize frame _) as [r m'].
    apply (body_outcome_after _ _ _ _ Hlistening Hrest).
Qed.

(** What one run leaves of the core, on every path *)
Lemma process_audio_effect frame this w trace :
  let '(r, m') := process_audio frame (mkMachine this w trace) in
  exists logged i f,
    run_effect this (self m') logged i f /\
    (length logged <= 2)%nat /\ Forall confidence_metric logged /\
    ((exists response, r = Ok (Some response) /\ i = 1 /\ f = 0 /\ length logged = 2%nat) \/
     (r = Ok None /\ i = 1 /\ f = 1) \/
     (r = Ok None /\ i = 0 /\ f = 0 /\ logged = []) \/
     (exists e, r = Raise e /\ exc_is_Exception e = false /\ i = 0 /\ f = 0)).
Proof.
  pose proof (process_audio_body_effect this w trace frame) as Hbody.
  destruct (process_audio_body frame (mkMachine this w trace)) as [r1 m1] eqn:Hrun.
  destruct Hbody as (logged & Hlength & Hconfidence & Hcases).
  assert (Hidle : forall c : ReceptionistCore F T World, run_effect c (with_state IDLE c) [] 0 0)
    by (intros c; close_effect).
  assert (Hfailed : forall c : ReceptionistCore F T World,
            run_effect c
              (with_state IDLE
                 (with_performance_monitor
                    (record_interaction (performance_monitor c) false)
                    (with_state ERROR c))) [] 1 1)
    by (intros c; close_effect).
  destruct Hcases as [(response & -> & Hl & Hafter)
                     |[(-> & Hafter)|[(-> & -> & Hafter)|(e & -> & Hafter)]]].
  - rewrite (process_audio_body_returns _ _ _ _ Hrun).
    pose proof (run_effect_trans _ _ _ _ _ _ _ _ _ Hafter (Hidle (self m1))) as Heffect.
    rewrite app_nil_r in Heffect. cbn in Heffect.
    exists logged, 1, 0. split; [exact Heffect|]. split; [exact Hlength|].
    split; [exact Hconfidence|]. left. exists response. repeat split. exact Hl.
  - rewrite (process_audio_body_returns _ _ _ _ Hrun).
    pose proof (run_effect_trans _ _ _ _ _ _ _ _ _ Hafter (Hidle (self m1))) as Heffect.
    rewrite app_nil_r in Heffect. cbn in Heffect.
    exists logged, 1, 1. split; [exact Heffect|]. split; [exact Hlength|].
    split; [exact Hconfidence|]. right. left. repeat split.
  - rewrite (process_audio_body_returns _ _ _ _ Hrun).
    pose proof (run_effect_trans _ _ _ _ _ _ _ _ _ Hafter (Hidle (self m1))) as Heffect.
    cbn in Heffect.
    exists [], 0, 0. split; [exact Heffect|]. split; [exact Hlength|].
    split; [exact Hconfidence|]. right. right. left. repeat split.
  - destruct (exc_is_Exception e) eqn:Hclass.
    + rewrite (process_audio_body_raises _ _ _ _ Hrun Hclass).
      pose proof (run_effect_trans _ _ _ _ _ _ _ _ _ Hafter (Hfailed (self m1))) as Heffect.
      rewrite app_nil_r in Heffect. cbn in Heffect.
      exists logged, 1, 1. split; [exact Heffect|]. split; [exact Hlength|].
      split; [exact Hconfidence|]. right. left. repeat split.
    + rewrite (process_audio_body_lets_through _ _ _ _ Hrun Hclass).
      pose proof (run_effect_trans _ _ _ _ _ _ _ _ _ Hafter (Hidle (self m1))) as Heffect.
      rewrite app_nil_r in Heffect. cbn in Heffect.
      exists logged, 0, 0. split; [exact Heffect|]. split; [exact Hlength|].
      split; [exact Hconfidence|]. right. right. right. exists e. repeat split. exact Hclass.
Qed.

(** A run changes nothing of the configuration: the four stages, the
    registry with its active module and the running flag are after the run
    what they were before, and so is the start of the session. *)
Theorem process_audio_keeps_configuration frame this w trace :
  let after := self (process_audio frame (mkMachine this w trace)).2 in
  same_configuration this after /\
  session_start (performance_monitor after) = session_start (performance_monitor this).
Proof.
  cbn zeta. pose proof (process_audio_effect frame this w trace) as Heffect.
  destruct (process_audio frame (mkMachine this w trace)) as [r m'].
  destruct Heffect as (logged & i & f & (Hconf & Hstart & _) & _).
  split; [exact Hconf | exact Hstart].
Qed.

(** A run records at most one interaction and at most as many errors, and
    it only appends to the log: at most two metrics, each a confidence of
    the transcription or of the intent recognition.  So consistent counters
    stay consistent. *)
Theorem process_audio_one_interaction frame this w trace :
  let before := performance_monitor this in
  let after := performance_monitor (self (process_audio frame (mkMachine this w trace)).2) in
  (exists logged,
     metrics after = metrics before ++ logged /\
     (length logged <= 2)%nat /\ Forall confidence_metric logged) /\
  0 <= error_count after - error_count before
    <= interaction_count after - interaction_count before /\
  interaction_count after - interaction_count before <= 1 /\
  (counters_consistent before -> counters_consistent after).
Proof.
  cbn zeta. pose proof (process_audio_effect frame this w trace) as Heffect.
  destruct (process_audio frame (mkMachine this w trace)) as [r m'].
  destruct Heffect as (logged & i & f & (_ & _ & Hlog & Hi & He) & Hlength & Hconf & Hcases).
  cbn. split; [exists logged; repeat split; assumption|].
  unfold counters_consistent. rewrite Hi, He.
  destruct Hcases as [(response & _ & -> & -> & _)
                     |[(_ & -> & ->)|[(_ & -> & -> & _)|(e & _ & _ & -> & ->)]]]; lia.
Qed.

(** A run returns a response exactly when it records a successful
    interaction: the interaction counter goes up by one and the error
    counter stays; and then it has logged both confidences. *)
Theorem process_audio_response_recorded frame this w trace :
  let r := (process_audio frame (mkMachine this w trace)).1 in
  let before := performance_monitor this in
  let after := performance_monitor (self (process_audio frame (mkMachine this w trace)).2) in
  ((exists response, r = Ok (Some response)) <->
   interaction_count after = interaction_count before + 1 /\
   error_count after = error_count before) /\
  ((exists response, r = Ok (Some response)) ->
   length (metrics after) = (length (metrics before) + 2)%nat).
Proof.
  cbn zeta. pose proof (process_audio_effect frame this w trace) as Heffect.
  destruct (process_audio frame (mkMachine this w trace)) as [r m'].
  destruct Heffect as (logged & i & f & (_ & _ & Hlog & Hi & He) & Hlength & Hconf & Hcases).
  cbn. rewrite Hi, He, Hlog, length_app.
  destruct Hcases as [(response & -> & -> & -> & Hl)
                     |[(-> & -> & ->)|[(-> & -> & -> & _)|(e & -> & _ & -> & ->)]]].
  - split; [split; [intros _; split; lia | eauto]|]. intros _. lia.
  - split; [split|]; [intros [x Hx]; discriminate | lia | intros [x Hx]; discriminate].
  - split; [split|]; [intros [x Hx]; discriminate | lia | intros [x Hx]; discriminate].
  - split; [split|]; [intros [x Hx]; discriminate | lia | intros [x Hx]; discriminate].
Qed.

Ltac run_steps :=
  unfold process_audio_body, transcribe_and_recognize, set_state, monitor_record_metric,
    monitor_record_interaction, activation_calls, activation_passes in *;
  run_eff.

Ltac close_events :=
  unfold recognition_events, activation_calls, declined_calls; cbn;
  destruct (activation_engine _); try destruct (get_active_module _); cbn;
  rewrite <- ?app_assoc; reflexivity.

(** When dispatch yields nothing, because no module is active or the active
    one does not support the intent, and a generator is configured, the
    response of the generator is returned and the interaction is recorded as
    a success. *)
Theorem process_audio_fallback this w trace frame transcribed
    (intent_result : IntentResult F) w3 w4 generator response w5 :
  recognized this frame w transcribed intent_result w3 ->
  dispatch_declines this intent_result w3 w4 ->
  response_generator this = Some generator ->
  generate generator intent_result w4 = (Ok response, w5) ->
  exists m',
    process_audio frame (mkMachine this w trace) = (Ok (Some response), m') /\
    world m' = w5 /\
    interaction_count (performance_monitor (self m')) =
      interaction_count (performance_monitor this) + 1 /\
    error_count (performance_monitor (self m')) = error_count (performance_monitor this) /\
    events m' = trace ++ recognition_events this ++ [Assigned RESPONDING] ++
                declined_calls this ++ [Called Generate; Assigned IDLE].
Proof.
  intros Hrecognized Hdeclines Hgenerator Hgenerate.
  pose proof (process_audio_body_recognized _ _ trace _ _ _ _ Hrecognized) as Hbody.
  rewrite (respond_generate (after_recognition this transcribed intent_result)
             w3 _ intent_result w4 generator) in Hbody by assumption.
  rewrite Hgenerate in Hbody.
  eexists. split; [apply (process_audio_body_returns _ _ _ _ Hbody)|].
  cbn. split; [reflexivity|]. split; [reflexivity|]. split; [reflexivity|].
  close_events.
Qed.

(** When dispatch yields nothing and no generator is configured, the run
    returns no response and records a failed interaction; the state goes
    through [RESPONDING] to [IDLE] and is never [ERROR]. *)
Theorem process_audio_no_response this w trace frame transcribed
    (intent_result : IntentResult F) w3 w4 :
  recognized this frame w transcribed intent_result w3 ->
  dispatch_declines this intent_result w3 w4 ->
  response_generator this = None ->
  exists m',
    process_audio frame (mkMachine this w trace) = (Ok None, m') /\
    one_more_failure (performance_monitor this) (performance_monitor (self m')) /\
    events m' = trace ++ recognition_events this ++ [Assigned RESPONDING] ++
                declined_calls this ++ [Assigned IDLE] /\
    Assigned ERROR ∉ drop (length trace) (events m').
Proof.
  intros Hrecognized Hdeclines Hgenerator.
  pose proof (process_audio_body_recognized _ _ trace _ _ _ _ Hrecognized) as Hbody.
  rewrite (respond_nothing (after_recognition this transcribed intent_result)
             w3 _ intent_result w4) in Hbody by assumption.
  eexists. split; [apply (process_audio_body_returns _ _ _ _ Hbody)|].
  cbn. split; [split; reflexivity|].
  match goal with
  | |- ?seen = ?expected /\ _ =>
      assert (Hevents : seen = expected) by close_events
  end.
  rewrite Hevents. split; [reflexivity|].
  rewrite drop_app_length. unfold recognition_events, activation_calls, declined_calls.
  intros Hin.
  destruct (activation_engine this); destruct (get_active_module (module_manager this));
    cbn in Hin;
    repeat (apply elem_of_cons in Hin as [Hin|Hin]; [discriminate Hin|]);
    apply elem_of_nil in Hin; destruct Hin.
Qed.

(** When the frame is transcribed and no intent recognizer is configured,
    the run returns no response and records a failed interaction; the
    confidence of the transcription is logged all the same, and neither the
    registry nor the generator is called. *)
Theorem process_audio_no_intent_recognizer this w trace frame processor w1 transcribed w2 :
  activation_passes this frame w w1 ->
  stt_processor this = Some processor ->
  transcribe processor (data frame) (sample_rate frame) w1 = (Ok transcribed, w2) ->
  intent_recognizer this = None ->
  exists m',
    process_audio frame (mkMachine this w trace) = (Ok None, m') /\
    one_more_failure (performance_monitor this) (performance_monitor (self m')) /\
    metrics (performance_monitor (self m')) =
      metrics (performance_monitor this) ++
      [mkPerformanceMetric "stt" "confidence" (stt_confidence transcribed)] /\
    events m' = trace ++ [Assigned LISTENING] ++ activation_calls this ++
                [Assigned PROCESSING; Called Transcribe; Assigned ERROR; Assigned IDLE].
Proof.
  intros Hpass Hstt Htranscribe Hrecognizer.
  assert (Hbody : process_audio_body frame (mkMachine this w trace) =
    (Ok None,
     mkMachine (with_performance_monitor
                  (record_interaction
                     (record_metric (performance_monitor this) "stt" "confidence"
                                    (stt_confidence transcribed)) false)
                  (with_state ERROR this))
               w2
               (trace ++ [Assigned LISTENING] ++ activation_calls this ++
                [Assigned PROCESSING; Called Transcribe; Assigned ERROR]))).
  { run_steps. destruct (activation_engine this) as [engine|]; cbn.
    - rewrite Hpass. cbn. rewrite Hstt. cbn. rewrite Htranscribe. cbn.
      rewrite Hrecognizer. cbn. rewrite <- !app_assoc. reflexivity.
    - subst w1. rewrite Hstt. cbn. rewrite Htranscribe. cbn.
      rewrite Hrecognizer. cbn. rewrite <- !app_assoc. reflexivity. }
  eexists. split; [apply (process_audio_body_returns _ _ _ _ Hbody)|].
  cbn. split; [split; reflexivity|]. split; [reflexivity|].
  close_events.
Qed.

(** A run whose frame is transcribed and recognized logs exactly the two
    confidences the stages report, the transcription's first, whatever
    response generation does afterwards. *)
Theorem process_audio_logs_confidences this w trace frame transcribed
    (intent_result : IntentResult F) w3 :
  recognized this frame w transcribed intent_result w3 ->
  metrics (performance_monitor (self (process_audio frame (mkMachine this w trace)).2)) =
  metrics (performance_monitor this) ++
  [mkPerformanceMetric "stt" "confidence" (stt_confidence transcribed);
   mkPerformanceMetric "intent_recognizer" "confidence" (intent_confidence intent_result)].
Proof.
  intros Hrecognized.
  pose proof (process_audio_body_recognized _ _ trace _ _ _ _ Hrecognized) as Hbody.
  pose proof (respond_effect (after_recognition this transcribed intent_result) w3
                (trace ++ recognition_events this) intent_result) as Hrespond.
  destruct (respond intent_result _) as [r m1].
  assert (Hlog : metrics (performance_monitor (self m1)) =
                 metrics (performance_monitor this) ++
                 [mkPerformanceMetric "stt" "confidence" (stt_confidence transcribed);
                  mkPerformanceMetric "intent_recognizer" "confidence"
                    (intent_confidence intent_result)]).
  { destruct Hrespond as [(response & _ & Heffect)|[(_ & Heffect)|(e & _ & Heffect)]];
      destruct Heffect as (_ & _ & Hmetrics & _); rewrite Hmetrics, app_nil_r; cbn;
      rewrite <- app_assoc; reflexivity. }
  destruct r as [r|e].
  - rewrite (process_audio_body_returns _ _ _ _ Hbody). exact Hlog.
  - destruct (exc_is_Exception e) eqn:Hclass.
    + rewrite (process_audio_body_raises _ _ _ _ Hbody Hclass). exact Hlog.
    + rewrite (process_audio_body_lets_through _ _ _ _ Hbody Hclass). exact Hlog.
Qed.

Lemma process_audio_state (frame : AudioFrame)
    (m : Machine World (ReceptionistCore F T World)) :
  state (self (process_audio frame m).2) = IDLE.
Proof.
  unfold process_audio, try_finally.
  destruct (try_except (process_audio_body frame) process_audio_handler m) as [r m1].
  unfold set_state. run_eff. reflexivity.
Qed.

(** Over any sequence of runs the configuration stays what it was,
    consistent counters stay consistent, the interaction counter grows by at
    most one for each frame, and after the last run the state is [IDLE]. *)
Theorem process_audio_runs (frames : list AudioFrame)
    (m : Machine World (ReceptionistCore F T World)) :
  let after := fold_left (fun m frame => (process_audio frame m).2) frames m in
  same_configuration (self m) (self after) /\
  (counters_consistent (performance_monitor (self m)) ->
   counters_consistent (performance_monitor (self after))) /\
  0 <= interaction_count (performance_monitor (self after)) -
       interaction_count (performance_monitor (self m)) <= Z.of_nat (length frames) /\
  (frames <> [] -> state (self after) = IDLE).
Proof.
  cbn zeta. revert m. induction frames as [|frame frames IH]; intros m.
  - cbn. split; [unfold same_configuration; repeat split|].
    split; [tauto|]. split; [lia|]. intros Hne. exfalso. apply Hne. reflexivity.
  - cbn [fold_left length].
    destruct m as [this w trace].
    pose proof (process_audio_effect frame this w trace) as Heffect.
    pose proof (process_audio_state frame (mkMachine this w trace)) as Hidle.
    destruct (IH (process_audio frame (mkMachine this w trace)).2)
      as (Hconf' & Hcons' & Hcount & Hstate).
    destruct (process_audio frame (mkMachine this w trace)) as [r m1].
    destruct Heffect as (logged & i & f & (Hconf & _ & _ & Hi & He) & _ & _ & Hcases).
    cbn [self snd] in *.
    assert (Hbounds : 0 <= f <= i /\ i <= 1).
    { destruct Hcases as [(response & _ & -> & -> & _)
                         |[(_ & -> & ->)|[(_ & -> & -> & _)|(e & _ & _ & -> & ->)]]]; lia. }
    split; [|split; [|split]].
    + unfold same_configuration in *.
      destruct Hconf as (A1 & A2 & A3 & A4 & A5 & A6).
      destruct Hconf' as (B1 & B2 & B3 & B4 & B5 & B6).
      repeat split; congruence.
    + intros Hc. apply Hcons'. unfold counters_consistent in *. rewrite Hi, He. lia.
    + lia.
    + intros _. destruct frames as [|frame' frames]; [exact Hidle|].
      apply Hstate. discriminate.
Qed.

End PipelineRuns.

(** ** Configuration and cleanup of the core *)

Section CoreLifecycleFacts.
Context {F T World : Type} `{PyArith F} `{PyClock F T}.

Implicit Types (this : ReceptionistCore F T World) (w : World) (trace : list Event).

(** Each configuration call installs the new stage exactly when its
    [initialize] returns true, and then changes nothing else of the core;
    in every other case the core, the stage configured before included, is
    as it was. *)
Theorem configuration_installs this w trace :
  (forall engine : ActivationEngine World,
     let '(r, m') := set_activation_engine engine (mkMachine this w trace) in
     (r = Ok true <-> (activation_initialize engine w).1 = Ok true) /\
     (r = Ok true -> self m' = with_activation_engine engine this) /\
     (r <> Ok true -> self m' = this)) /\
  (forall processor : SpeechToTextProcessor F World,
     let '(r, m') := set_stt_processor processor (mkMachine this w trace) in
     (r = Ok true <-> (stt_initialize processor w).1 = Ok true) /\
     (r = Ok true -> self m' = with_stt_processor processor this) /\
     (r <> Ok true -> self m' = this)) /\
  (forall recognizer : IntentRecognizer F World,
     let '(r, m') := set_intent_recognizer recognizer (mkMachine this w trace) in
     (r = Ok true <-> (recognizer_initialize recognizer w).1 = Ok true) /\
     (r = Ok true -> self m' = with_intent_recognizer recognizer this) /\
     (r <> Ok true -> self m' = this)) /\
  (forall generator : ResponseGenerator F World,
     let '(r, m') := set_response_generator generator (mkMachine this w trace) in
     (r = Ok true <-> (generator_initialize generator w).1 = Ok true) /\
     (r = Ok true -> self m' = with_response_generator generator this) /\
     (r <> Ok true -> self m' = this)).
Proof.
  repeat apply conj.
  - intros engine. rewrite set_activation_engine_outcome.
    destruct (activation_initialize engine w) as [[[|]|e] w']; cbn;
      try destruct (exc_is_Exception e); repeat split; congruence.
  - intros processor. rewrite set_stt_processor_outcome.
    destruct (stt_initialize processor w) as [[[|]|e] w']; cbn;
      try destruct (exc_is_Exception e); repeat split; congruence.
  - intros recognizer. rewrite set_intent_recognizer_outcome.
    destruct (recognizer_initialize recognizer w) as [[[|]|e] w']; cbn;
      try destruct (exc_is_Exception e); repeat split; congruence.
  - intros generator. rewrite set_response_generator_outcome.
    destruct (generator_initialize generator w) as [[[|]|e] w']; cbn;
      try destruct (exc_is_Exception e); repeat split; congruence.
Qed.

Ltac step_cleanup stage method :=
  let e := fresh "e" in
  let w1 := fresh "w" in
  let Hclass := fresh "Hclass" in
  destruct stage; cbn;
  [ match goal with
    | |- context [method ?s ?w0] =>
        destruct (method s w0) as [[[]|e] w1]; cbn;
        [ | destruct (exc_is_Exception e) eqn:Hclass; cbn;
            [ split; [discriminate | left; reflexivity]
            | split; [intros ? [= <-]; exact Hclass | left; reflexivity] ] ]
    end
  | ].

(** [cleanup] of the core lets out only an exception that is not an
    [Exception], and it is all or nothing for the framework's own state:
    either it runs to its end, and then the registry and the gateway are
    empty, the running flag is off and the state is [IDLE], or the core and
    the gateway are exactly what they were, the running flag included. *)
Theorem cleanup_all_or_nothing this (gateway : APIGateway F World) w trace :
  let '(r, m') := cleanup (mkMachine (this, gateway) w trace) in
  (forall e, r = Raise e -> exc_is_Exception e = false) /\
  (self m' = (this, gateway) \/ (r = Ok tt /\ self m' = cleaned_up this)).
Proof.
  unfold cleanup, on_core, gateway_cleanup, set_state, cleaned_up. run_eff.
  step_cleanup (activation_engine this) (@activation_cleanup World).
  all: step_cleanup (stt_processor this) (@stt_cleanup F World).
  all: step_cleanup (intent_recognizer this) (@recognizer_cleanup F World).
  all: step_cleanup (response_generator this) (@generator_cleanup F World).
  all: match goal with
       | |- context [cleanup_all (mkMachine ?mm ?w0 ?t)] =>
           pose proof (cleanup_all_cases mm w0 t) as Hregistry;
           destruct (cleanup_all (mkMachine mm w0 t)) as [outcome m1];
           destruct Hregistry as ([(-> & Hself)|(e & -> & Hclass & Hself)] & _ & _); cbn
       end.
  all: try (rewrite Hself; split; [discriminate | right; split; reflexivity]).
  all: rewrite Hclass; cbn; split; [intros ? [= <-]; exact Hclass|]; left;
       rewrite Hself; destruct this; reflexivity.
Qed.

Ltac step_quiet stage method Hq :=
  let e := fresh "e" in
  let w1 := fresh "w" in
  let Hrun := fresh "Hrun" in
  destruct stage eqn:?; cbn;
  [ match goal with
    | |- context [method ?s ?w0] =>
        destruct (method s w0) as [[[]|e] w1] eqn:Hrun; cbn;
        [ | exfalso; pose proof (Hq s eq_refl w0) as Hquiet;
            rewrite Hrun in Hquiet; discriminate Hquiet ]
    end
  | ].

(** When the [cleanup] of every configured stage returns and no module's
    [cleanup] raises anything but an [Exception], [cleanup] of the core runs
    to its end: it cleans each configured stage once, in the order
    activation, transcription, intent recognition, response generation, then
    the registered modules in the order of [self.modules.items()], which is
    the order of their registration, and leaves the registry and the gateway
    empty, the running flag off and the state [IDLE]. *)
Theorem cleanup_completes this (gateway : APIGateway F World) w trace :
  quiet_stages this ->
  (forall name module w0 e,
     (name, module) ∈ modules (module_manager this) ->
     (module_cleanup module w0).1 = Raise e -> exc_is_Exception e = true) ->
  let '(r, m') := cleanup (mkMachine (this, gateway) w trace) in
  r = Ok tt /\
  self m' = cleaned_up this /\
  events m' = trace ++ stage_cleanup_calls this ++
              cleanup_calls (modules (module_manager this)) ++
              [Assigned IDLE].
Proof.
  intros (Hq1 & Hq2 & Hq3 & Hq4) Hmodules.
  unfold cleanup, on_core, gateway_cleanup, set_state, cleaned_up, stage_cleanup_calls.
  run_eff.
  step_quiet (activation_engine this) (@activation_cleanup World) Hq1.
  all: step_quiet (stt_processor this) (@stt_cleanup F World) Hq2.
  all: step_quiet (intent_recognizer this) (@recognizer_cleanup F World) Hq3.
  all: step_quiet (response_generator this) (@generator_cleanup F World) Hq4.
  all: match goal with
       | |- context [cleanup_all (mkMachine ?mm ?w0 ?t)] =>
           pose proof (cleanup_all_cases mm w0 t) as Hregistry;
           destruct (cleanup_all (mkMachine mm w0 t)) as [outcome m1];
           destruct Hregistry as (Hcases & Hevents & Hall);
           pose proof (Hall Hmodules) as ->;
           destruct Hcases as [(_ & Hself)|(e & Hr & _)]; [|discriminate Hr]; cbn
       end.
  all: rewrite Hself, (Hevents eq_refl).
  all: split; [reflexivity|]; split; [reflexivity|].
  all: cbn; rewrite <- ?app_assoc; reflexivity.
Qed.

(** When the [cleanup] of the activation engine raises an [Exception],
    [cleanup] of the core returns as if nothing had happened, but it has
    stopped there: no other stage and no module is cleaned, the registry and
    the gateway keep their entries, and the running flag and the state are
    not reset. *)
Theorem cleanup_stops_at_failure this (gateway : APIGateway F World) w trace engine e w1 :
  activation_engine this = Some engine ->
  activation_cleanup engine w = (Raise e, w1) ->
  exc_is_Exception e = true ->
  cleanup (mkMachine (this, gateway) w trace) =
  (Ok tt, mkMachine (this, gateway) w1 (trace ++ [Called (Cleanup Activation)])).
Proof.
  intros Hengine Hcleanup Hclass.
  unfold cleanup. run_eff. rewrite Hengine. cbn. rewrite Hcleanup. cbn.
  rewrite Hclass. reflexivity.
Qed.

End CoreLifecycleFacts.

(** ** The API gateway *)

Section GatewayFacts.
Context {F World : Type}.
Context (str : PyExc -> string).

Implicit Types (gateway : APIGateway F World) (w : World) (trace : list Event).

(** [call_external_system] always answers for the system it was asked for
    and lets no [Exception] out.  The status is [success] exactly when the
    system is registered and its connector returned, and then the data are
    what the connector returned; for a system that is not registered the
    answer is an error naming it, and nothing outside is touched.  The
    gateway itself is not changed. *)
Theorem call_external_system_envelope gateway w trace (name action : string)
    (payload : list (string * PyVal F)) :
  let '(r, m') := call_external_system str name action payload (mkMachine gateway w trace) in
  self m' = gateway /\
  (forall e, r = Raise e -> exc_is_Exception e = false) /\
  (forall response, r = Ok response ->
     system_name response = name /\
     (status response = "success" \/ status response = "error") /\
     (status response = "success" <->
      exists handler,
        external_systems gateway !! name = Some handler /\
        (system_call handler action payload w).1 = Ok (response_data response))) /\
  (external_systems gateway !! name = None ->
     r = Ok (mkExternalSystemResponse name "error"
               (error_data ("System '" +:+ name +:+ "' not found"))) /\
     world m' = w).
Proof.
  unfold call_external_system, perform. run_eff.
  destruct (external_systems gateway !! name) as [handler|] eqn:Hfound; cbn.
  - destruct (system_call handler action payload w) as [[result|e] w1] eqn:Hcall; cbn.
    + split; [reflexivity|]. split; [discriminate|]. split; [|discriminate].
      intros response [= <-]. cbn. split; [reflexivity|]. split; [left; reflexivity|].
      split; [intros _; exists handler; split; [reflexivity | rewrite Hcall; reflexivity]
             | reflexivity].
    + destruct (exc_is_Exception e) eqn:Hclass; cbn.
      * split; [reflexivity|]. split; [discriminate|]. split; [|discriminate].
        intros response [= <-]. cbn. split; [reflexivity|]. split; [right; reflexivity|].
        split; [discriminate|].
        intros (handler' & [= <-] & Hok). rewrite Hcall in Hok. discriminate.
      * split; [reflexivity|]. split; [intros e' [= <-]; exact Hclass|].
        split; discriminate.
  - split; [reflexivity|]. split; [discriminate|]. split; [|intros _; split; reflexivity].
    intros response [= <-]. cbn. split; [reflexivity|]. split; [right; reflexivity|].
    split; [discriminate|]. intros (handler & Hsome & _). discriminate.
Qed.

(** [handle_route] lets no [Exception] out and leaves the gateway as it is:
    for a route that is not registered it returns an error naming the route
    and touches nothing outside; otherwise it returns what the handler
    returns, or an error with the message of the [Exception] the handler
    raised. *)
Theorem handle_route_outcome gateway w trace (endpoint : string)
    (kwargs : list (string * PyVal F)) :
  let '(r, m') := handle_route str endpoint kwargs (mkMachine gateway w trace) in
  self m' = gateway /\
  (forall e, r = Raise e -> exc_is_Exception e = false) /\
  match routes gateway !! endpoint with
  | None =>
      r = Ok (error_data ("Route '" +:+ endpoint +:+ "' not found")) /\ world m' = w
  | Some handler =>
      match (route_call handler kwargs w).1 with
      | Ok value => r = Ok value
      | Raise e => if exc_is_Exception e then r = Ok (error_data (str e)) else r = Raise e
      end
  end.
Proof.
  unfold handle_route, perform. run_eff.
  destruct (routes gateway !! endpoint) as [handler|]; cbn.
  - destruct (route_call handler kwargs w) as [[value|e] w1]; cbn.
    + split; [reflexivity|]. split; [discriminate | reflexivity].
    + destruct (exc_is_Exception e) eqn:Hclass; cbn.
      * split; [reflexivity|]. split; [discriminate | reflexivity].
      * split; [reflexivity|]. split; [intros e' [= <-]; exact Hclass | reflexivity].
  - split; [reflexivity|]. split; [discriminate|]. split; reflexivity.
Qed.

(** The last registration under a name wins: after
    [register_external_system] a call of that system goes to the new
    connector, whatever was registered there before, and after
    [register_route] the route goes to the new handler; registrations under
    other names, and the other table, are left alone. *)
Theorem gateway_registration gateway w trace (name : string)
    (connector : SystemHandler F World) (handler : RouteHandler F World) :
  (let m1 := (register_external_system name connector (mkMachine gateway w trace)).2 in
   external_systems (self m1) !! name = Some connector /\
   (forall other, other <> name ->
      external_systems (self m1) !! other = external_systems gateway !! other) /\
   routes (self m1) = routes gateway /\
   list_external_systems (self m1) !! name = Some (system_handler_name connector) /\
   forall action payload result w',
     system_call connector action payload w = (Ok result, w') ->
     call_external_system str name action payload m1 =
     (Ok (mkExternalSystemResponse name "success" result), mkMachine (self m1) w' trace)) /\
  (let m1 := (register_route name handler (mkMachine gateway w trace)).2 in
   routes (self m1) !! name = Some handler /\
   (forall other, other <> name -> routes (self m1) !! other = routes gateway !! other) /\
   external_systems (self m1) = external_systems gateway /\
   list_routes (self m1) !! name = Some (route_handler_name handler) /\
   forall kwargs value w',
     route_call handler kwargs w = (Ok value, w') ->
     handle_route str name kwargs m1 = (Ok value, mkMachine (self m1) w' trace)).
Proof.
  split; cbn zeta.
  - unfold register_external_system, list_external_systems. run_eff.
    split; [apply lookup_insert_eq|].
    split; [intros other Hother; apply lookup_insert_ne; congruence|].
    split; [reflexivity|].
    split; [rewrite lookup_fmap, lookup_insert_eq; reflexivity|].
    intros action payload result w' Hcall.
    unfold call_external_system, perform. run_eff.
    rewrite lookup_insert_eq. cbn. rewrite Hcall. reflexivity.
  - unfold register_route, list_routes. run_eff.
    split; [apply lookup_insert_eq|].
    split; [intros other Hother; apply lookup_insert_ne; congruence|].
    split; [reflexivity|].
    split; [rewrite lookup_fmap, lookup_insert_eq; reflexivity|].
    intros kwargs value w' Hcall.
    unfold handle_route, perform. run_eff.
    rewrite lookup_insert_eq. cbn. rewrite Hcall. reflexivity.
Qed.

(** After the gateway's [cleanup] nothing is registered: every system call
    answers with the error of a missing system, every route with the error
    of a missing route, and no connector or handler is called. *)
Theorem gateway_cleanup_forgets gateway w trace (name action : string)
    (payload kwargs : list (string * PyVal F)) :
  let m1 := (gateway_cleanup (mkMachine gateway w trace)).2 in
  self m1 = APIGateway_init /\
  list_routes (self m1) = ∅ /\
  list_external_systems (self m1) = ∅ /\
  call_external_system str name action payload m1 =
    (Ok (mkExternalSystemResponse name "error"
           (error_data ("System '" +:+ name +:+ "' not found"))), m1) /\
  handle_route str name kwargs m1 =
    (Ok (error_data ("Route '" +:+ name +:+ "' not found")), m1).
Proof.
  cbn zeta. unfold gateway_cleanup, list_routes, list_external_systems,
    call_external_system, handle_route. run_eff.
  rewrite !lookup_empty, !fmap_empty. repeat split.
Qed.

End GatewayFacts.

(** ** The manager of generators *)

Section LLMManagerFacts.
Context {F World : Type}.

Implicit Types (manager : LLMManager F World) (w : World) (trace : list Event).

(** [generate_response] uses the generator registered for the domain when
    the domain is given, not empty and registered, even if a default
    generator is set; otherwise it uses the default generator; and when
    there is neither it raises [ValueError] without calling anything.  It
    never changes the manager. *)
Theorem generate_response_choice manager w trace (intent_result : IntentResult F)
    (domain : option string) :
  let '(r, m') := generate_response intent_result domain (mkMachine manager w trace) in
  self m' = manager /\
  (forall name generator,
     domain = Some name -> name <> EmptyString ->
     generators manager !! name = Some generator ->
     r = (generate generator intent_result w).1 /\
     events m' = trace ++ [Called Generate]) /\
  (forall generator,
     (domain = None \/ domain = Some EmptyString \/
      exists name, domain = Some name /\ generators manager !! name = None) ->
     default_generator manager = Some generator ->
     r = (generate generator intent_result w).1 /\
     events m' = trace ++ [Called Generate]) /\
  (r = Raise ValueError /\ m' = mkMachine manager w trace <->
   suitable_generator manager domain = None).
Proof.
  unfold generate_response, throw. run_eff.
  destruct (suitable_generator manager domain) as [chosen|] eqn:Hchoice; cbn.
  - destruct (generate chosen intent_result w) as [r w1] eqn:Hgenerate.
    split; [reflexivity|]. split; [|split].
    + intros name generator -> Hname Hfound.
      unfold suitable_generator, truthy in Hchoice.
      destruct (String.eqb_spec name EmptyString) as [Hempty|_]; [congruence|].
      cbn in Hchoice. rewrite Hfound in Hchoice. injection Hchoice as <-.
      rewrite Hgenerate. split; reflexivity.
    + intros generator Hdomain Hdefault.
      assert (Hsame : chosen = generator).
      { unfold suitable_generator, truthy in Hchoice.
        destruct Hdomain as [->|[->|(name & -> & Hmissing)]]; cbn in Hchoice.
        - congruence.
        - congruence.
        - destruct (negb (String.eqb name EmptyString)); [rewrite Hmissing in Hchoice|];
            congruence. }
      subst chosen. rewrite Hgenerate. split; reflexivity.
    + split; [|discriminate]. intros [_ Hsame].
      injection Hsame as _ Hevents.
      apply (f_equal length) in Hevents. rewrite length_app in Hevents. cbn in Hevents. lia.
  - split; [reflexivity|]. split; [|split].
    + intros name generator -> Hname Hfound. exfalso.
      unfold suitable_generator, truthy in Hchoice.
      destruct (String.eqb_spec name EmptyString) as [Hempty|_]; [congruence|].
      cbn in Hchoice. rewrite Hfound in Hchoice. discriminate.
    + intros generator _ Hdefault. exfalso.
      unfold suitable_generator in Hchoice. rewrite Hdefault in Hchoice.
      destruct domain as [name|]; [destruct (truthy name);
        [destruct (generators manager !! name)|]|]; discriminate.
    + split; [reflexivity|]. intros _. split; reflexivity.
Qed.

(** [register_generator] registers the generator exactly when its
    [initialize] returns true, and then [generate_response] for that domain,
    if its name is not empty, uses it.  Unlike the registry of domain
    modules it does not catch what [initialize] raises: the exception is let
    out, whatever its class, and the manager is as it was. *)
Theorem register_generator_outcome manager w trace (domain : string)
    (generator : ResponseGenerator F World) :
  let '(r, m') := register_generator domain generator (mkMachine manager w trace) in
  (r = Ok true <-> (generator_initialize generator w).1 = Ok true) /\
  (r = Ok true ->
     generators (self m') !! domain = Some generator /\
     default_generator (self m') = default_generator manager /\
     (domain <> EmptyString ->
      suitable_generator (self m') (Some domain) = Some generator)) /\
  (r <> Ok true -> self m' = manager) /\
  (forall e, (generator_initialize generator w).1 = Raise e -> r = Raise e).
Proof.
  unfold register_generator. run_eff.
  destruct (generator_initialize generator w) as [[[|]|e] w1]; cbn.
  - split; [split; reflexivity|]. split; [|split; [congruence | discriminate]].
    intros _. split; [apply lookup_insert_eq|]. split; [reflexivity|].
    intros Hname. unfold suitable_generator, truthy. cbn.
    destruct (String.eqb_spec domain EmptyString) as [Hempty|_]; [congruence|]. cbn.
    rewrite lookup_insert_eq. reflexivity.
  - split; [split; discriminate|]. split; [discriminate|].
    split; [reflexivity | discriminate].
  - split; [split; discriminate|]. split; [discriminate|].
    split; [reflexivity|]. intros e' [= <-]. reflexivity.
Qed.

End LLMManagerFacts.

(** ** The further properties at concrete inputs *)

Lemma get_metrics_summary_statistics_witness :
  exists summary statistics,
    get_metrics_summary Scenario.busy_session 5 = Ok summary /\
    dict_lookup "total_metrics" summary = Some (VInt 2) /\
    dict_lookup "statistics" summary = Some (VDict statistics).
Proof.
  destruct (get_metrics_summary_statistics Scenario.busy_session 5 ltac:(discriminate))
    as (summary & statistics & Hsummary & Htotal & Hstatistics & _).
  exists summary, statistics. split; [exact Hsummary|].
  split; [exact Htotal | exact Hstatistics].
Defined.

Lemma get_metrics_summary_recent_witness :
  exists summary recent older,
    get_metrics_summary Scenario.busy_session 5 = Ok summary /\
    dict_lookup "recent_metrics" summary = Some (VList (map asdict recent)) /\
    metrics Scenario.busy_session = older ++ recent /\
    length recent = 2%nat.
Proof.
  exact (get_metrics_summary_recent Scenario.busy_session 5 ltac:(discriminate)).
Defined.

Lemma get_feedback_report_thresholds_witness :
  exists report recommendations,
    get_feedback_report Scenario.busy_session 5 6 = Ok report /\
    dict_lookup "recommendations" report = Some (VList (map VStr recommendations)).
Proof.
  destruct (get_feedback_report_thresholds Scenario.busy_session 5 6 ltac:(discriminate))
    as (report & recommendations & Hreport & Hlisted & _).
  exists report, recommendations. split; [exact Hreport | exact Hlisted].
Defined.

Lemma cleanup_all_twice_witness :
  cleanup_all (mkMachine (@ModuleManager_init float nat) 1%nat
                         [Called (Cleanup (Domain "hotel"))]) =
  (Ok tt, mkMachine ModuleManager_init 1%nat [Called (Cleanup (Domain "hotel"))]) /\
  self (mkMachine (@ModuleManager_init float nat) 1%nat
                  [Called (Cleanup (Domain "hotel"))]) = ModuleManager_init.
Proof.
  apply (cleanup_all_twice (mkMachine Scenario.hotel_registry 0%nat [])).
  vm_compute. reflexivity.
Defined.

Lemma register_module_then_dispatch_witness :
  get_active_module
    (self (switch_module "hotel"
             (register_module "hotel" Scenario.concierge Scenario.fresh_registry).2).2)
  = Some Scenario.concierge.
Proof.
  destruct (register_module_then_dispatch ModuleManager_init 0%nat [] "hotel"
              Scenario.concierge 1%nat ltac:(discriminate) eq_refl)
    as (_ & _ & Hactive & _).
  exact Hactive.
Defined.

Lemma process_audio_fallback_witness :
  exists m',
    process_audio Scenario.frame
      (mkMachine (Scenario.desk (Some Scenario.keywords) (Some Scenario.small_talk)
                    ModuleManager_init) 0%nat [])
    = (Ok (Some Scenario.apology), m') /\
    world m' = 3%nat.
Proof.
  destruct (process_audio_fallback
              (Scenario.desk (Some Scenario.keywords) (Some Scenario.small_talk)
                 ModuleManager_init)
              0%nat [] Scenario.frame Scenario.heard (Scenario.some_intent "book_room")
              2%nat 2%nat Scenario.small_talk Scenario.apology 3%nat)
    as (m' & Hrun & Hworld & _).
  - exists Scenario.typist, Scenario.keywords, 0%nat, 1%nat. repeat split.
  - reflexivity.
  - reflexivity.
  - reflexivity.
  - exists m'. split; [exact Hrun | exact Hworld].
Defined.

Lemma process_audio_no_response_witness :
  exists m',
    process_audio Scenario.frame
      (mkMachine (Scenario.desk (Some Scenario.keywords) None ModuleManager_init) 0%nat [])
    = (Ok None, m') /\
    one_more_failure (PerformanceMonitor_init 0) (performance_monitor (self m')).
Proof.
  destruct (process_audio_no_response
              (Scenario.desk (Some Scenario.keywords) None ModuleManager_init)
              0%nat [] Scenario.frame Scenario.heard (Scenario.some_intent "book_room")
              2%nat 2%nat)
    as (m' & Hrun & Hfailed & _).
  - exists Scenario.typist, Scenario.keywords, 0%nat, 1%nat. repeat split.
  - reflexivity.
  - reflexivity.
  - exists m'. split; [exact Hrun | exact Hfailed].
Defined.

Lemma process_audio_no_intent_recognizer_witness :
  exists m',
    process_audio Scenario.frame
      (mkMachine (Scenario.desk None (Some Scenario.small_talk) Scenario.hotel_registry)
                 0%nat [])
    = (Ok None, m') /\
    metrics (performance_monitor (self m')) =
      [mkPerformanceMetric "stt" "confidence" Binary64.eight_tenths].
Proof.
  destruct (process_audio_no_intent_recognizer
              (Scenario.desk None (Some Scenario.small_talk) Scenario.hotel_registry)
              0%nat [] Scenario.frame Scenario.typist 0%nat Scenario.heard 1%nat
              eq_refl eq_refl eq_refl eq_refl)
    as (m' & Hrun & _ & Hlog & _).
  exists m'. split; [exact Hrun | exact Hlog].
Defined.

Lemma process_audio_logs_confidences_witness :
  metrics (performance_monitor
             (self (process_audio Scenario.frame
                      (mkMachine Scenario.hotel_desk 0%nat [])).2)) =
  [mkPerformanceMetric "stt" "confidence" Binary64.eight_tenths;
   mkPerformanceMetric "intent_recognizer" "confidence" Binary64.eight_tenths].
Proof.
  apply (process_audio_logs_confidences Scenario.hotel_desk 0%nat [] Scenario.frame
           Scenario.heard (Scenario.some_intent "book_room") 3%nat).
  exists Scenario.typist, Scenario.keywords, 1%nat, 2%nat. repeat split.
Defined.

Lemma cleanup_completes_witness :
  (cleanup (mkMachine (Scenario.shared_desk, APIGateway_init) 0%nat [])).1 = Ok tt /\
  events (cleanup (mkMachine (Scenario.shared_desk, APIGateway_init) 0%nat [])).2 =
    [Called (Cleanup Activation); Called (Cleanup Transcription);
     Called (Cleanup IntentRecognition); Called (Cleanup ResponseGeneration);
     Called (Cleanup (Domain "hotel")); Called (Cleanup (Domain "clinic"));
     Assigned IDLE].
Proof.
  assert (Hquiet : quiet_stages Scenario.shared_desk).
  { repeat split; intros stage [= <-] w0; reflexivity. }
  assert (Hmodules : forall name module w0 e,
            (name, module) ∈ modules (module_manager Scenario.shared_desk) ->
            (module_cleanup module w0).1 = Raise e -> exc_is_Exception e = true).
  { intros name module w0 e Hin Hraise.
    change (modules (module_manager Scenario.shared_desk))
      with [("hotel", Scenario.concierge); ("clinic", Scenario.nurse)] in Hin.
    apply elem_of_cons in Hin as [[= -> ->]|Hin]; [discriminate Hraise|].
    apply list_elem_of_singleton in Hin as [= -> ->]. discriminate Hraise. }
  pose proof (cleanup_completes Scenario.shared_desk APIGateway_init 0%nat [] Hquiet Hmodules)
    as Hrun.
  destruct (cleanup (mkMachine (Scenario.shared_desk, APIGateway_init) 0%nat [])) as [r m'].
  destruct Hrun as (Hr & _ & Hevents). split; [exact Hr | exact Hevents].
Defined.

Lemma cleanup_stops_at_failure_witness :
  cleanup (mkMachine (Scenario.core_with (Some Scenario.stuck) (Some Scenario.typist)
                        Scenario.hotel_registry,
                      @APIGateway_init float nat) 0%nat []) =
  (Ok tt,
   mkMachine (Scenario.core_with (Some Scenario.stuck) (Some Scenario.typist)
                Scenario.hotel_registry,
              APIGateway_init) 1%nat [Called (Cleanup Activation)]).
Proof.
  apply (cleanup_stops_at_failure
           (Scenario.core_with (Some Scenario.stuck) (Some Scenario.typist)
              Scenario.hotel_registry)
           APIGateway_init 0%nat [] Scenario.stuck Scenario.RuntimeError 1%nat);
    reflexivity.
Defined.
